(** * simplecloud: the salt-cloud configuration expander

    A shallow embedding of [_modules/simplecloud.py] (Python 2) and the
    properties of [consume_map] and its helpers, followed by the state
    [managed] of [_states/simplecloud.py], which writes the trees of
    [consume_map] to files.

    Pillar data is dynamically typed, so the trees are modelled by one
    type [value] of YAML-like values.  A Python [dict] is an association
    list with unique string keys, kept in iteration order: a new key goes
    to the end, an existing key keeps its place.  (CPython 2 iterates a
    dict in hash order; the model fixes one order, the order of insertion.
    Keys that are not strings, and floats, are outside the model.)

    Effects are explicit: a computation threads the log of the module's
    logger and the state of the process-global random generator, and ends
    in a value, in a raised exception, or never.  The caller's provider
    tree, which the loop over the providers changes in place, is carried
    through that loop and returned next to the result.  The input is a
    tree, without sharing between its parts: an override mapping is read
    once, and what the resolution of a role writes into the values it
    holds (the tags of its volumes, its list of security groups) changes
    no later step and is not tracked. *)

From Stdlib Require Import List String Ascii ZArith Arith Lia Bool Permutation.
From Stdlib Require Import DecimalString DecimalNat Decimal.
Import ListNotations.
Set Warnings "-register-all".
Local Open Scope string_scope.
Local Open Scope list_scope.

(* ================================================================== *)
(** ** Values *)

Inductive value : Type :=
| VNone
| VBool (b : bool)
| VInt (z : Z)
| VStr (s : string)
| VList (l : list value)
| VDict (d : list (string * value)).

Fixpoint value_eqb (a b : value) {struct a} : bool :=
  match a, b with
  | VNone, VNone => true
  | VBool x, VBool y => Bool.eqb x y
  | VInt x, VInt y => Z.eqb x y
  | VStr x, VStr y => String.eqb x y
  | VList x, VList y =>
      (fix go (x y : list value) {struct x} : bool :=
         match x, y with
         | [], [] => true
         | u :: x', v :: y' => value_eqb u v && go x' y'
         | _, _ => false
         end) x y
  | VDict x, VDict y =>
      (fix go (x y : list (string * value)) {struct x} : bool :=
         match x, y with
         | [], [] => true
         | (k, u) :: x', (k', v) :: y' =>
             String.eqb k k' && value_eqb u v && go x' y'
         | _, _ => false
         end) x y
  | _, _ => false
  end.

(** Number of elements of [l] equal to [c]. *)
Fixpoint occurrences (c : value) (l : list value) : nat :=
  match l with
  | [] => 0
  | x :: l' => (if value_eqb c x then 1 else 0) + occurrences c l'
  end.

(* ================================================================== *)
(** ** Dictionaries *)

(** An association list in iteration order; [dict] is the case of
    values, the tables [consume_map] builds hold dictionaries. *)
Definition amap (V : Type) := list (string * V).

Section Dictionaries.
Context {V : Type}.

Fixpoint dict_get (k : string) (d : amap V) : option V :=
  match d with
  | [] => None
  | (k', v) :: d' => if String.eqb k k' then Some v else dict_get k d'
  end.

(** [k in d] *)
Definition dict_mem (k : string) (d : amap V) : bool :=
  match dict_get k d with Some _ => true | None => false end.

(** [d[k] = v] *)
Fixpoint dict_set (k : string) (v : V) (d : amap V) : amap V :=
  match d with
  | [] => [(k, v)]
  | (k', v') :: d' =>
      if String.eqb k k' then (k, v) :: d' else (k', v') :: dict_set k v d'
  end.

(** [del d[k]] *)
Fixpoint dict_del (k : string) (d : amap V) : amap V :=
  match d with
  | [] => []
  | (k', v') :: d' =>
      if String.eqb k k' then dict_del k d' else (k', v') :: dict_del k d'
  end.

(** [d.update(e)] *)
Definition dict_update (d e : amap V) : amap V :=
  fold_left (fun acc kv => dict_set (fst kv) (snd kv) acc) e d.

Definition dict_keys (d : amap V) : list string := map fst d.
Definition dict_values (d : amap V) : list V := map snd d.
End Dictionaries.

Definition dict := amap value.

(* ================================================================== *)
(** ** Outcomes and the effect monad *)

Inductive exn : Type :=
| KeyError | TypeError | AttributeError | IndexError | ValueError
| UnboundLocalError.

Inductive outcome (A : Type) : Type :=
| Ok (a : A)
| Raise (e : exn)
| Diverge.
Arguments Ok {A} a.
Arguments Raise {A} e.
Arguments Diverge {A}.

(** A record of the logger: the level, the message template and its
    arguments, as [logging] keeps them.  Where the caller formats the
    message itself, [LOG.info(template % operand)], the record has the
    finished text and no arguments: [LogInfoText] stands for that text,
    by the template and the operand it is made of. *)
Inductive log_record : Type :=
| LogInfo (msg : string) (args : list value)
| LogWarn (msg : string) (args : list value)
| LogInfoText (template : string) (operand : value).

Definition obind {A B} (o : outcome A) (k : A -> outcome B) : outcome B :=
  match o with
  | Ok a => k a
  | Raise e => Raise e
  | Diverge => Diverge
  end.

Declare Scope outcome_scope.
Delimit Scope outcome_scope with outcome.
Notation "x <-? o ;; k" := (obind o (fun x => k))
  (at level 61, o at next level, right associativity) : outcome_scope.
Notation "' p <-? o ;; k" := (obind o (fun x => match x with p => k end))
  (at level 61, p pattern, o at next level, right associativity)
  : outcome_scope.
Local Open Scope outcome_scope.

(** A [for] loop with an accumulator, stopped by the first exception. *)
Fixpoint ofold {A B} (f : B -> A -> outcome B) (l : list A) (b : B)
  : outcome B :=
  match l with
  | [] => Ok b
  | x :: l' => b' <-? f b x ;; ofold f l' b'
  end.

(** A list comprehension. *)
Fixpoint omap {A B} (f : A -> outcome B) (l : list A) : outcome (list B) :=
  match l with
  | [] => Ok []
  | x :: l' => y <-? f x ;; ys <-? omap f l' ;; Ok (y :: ys)
  end.

(* ================================================================== *)
(** ** The Python operations the module uses *)

(** [needle in hay] on strings. *)
Fixpoint is_substring (needle hay : string) : bool :=
  String.prefix needle hay ||
  match hay with
  | EmptyString => false
  | String _ hay' => is_substring needle hay'
  end.

Fixpoint chars_of (s : string) : list value :=
  match s with
  | EmptyString => []
  | String c s' => VStr (String c EmptyString) :: chars_of s'
  end.

(** [c[k]] for a string key [k]: only a dict can be subscripted by a
    string. *)
Definition py_getitem (c : value) (k : string) : outcome value :=
  match c with
  | VDict d => match dict_get k d with
               | Some v => Ok v
               | None => Raise KeyError
               end
  | _ => Raise TypeError
  end.

(** [k in c] for a string [k]. *)
Definition py_contains (k : string) (c : value) : outcome bool :=
  match c with
  | VDict d => Ok (dict_mem k d)
  | VList l => Ok (existsb (value_eqb (VStr k)) l)
  | VStr s => Ok (is_substring k s)
  | _ => Raise TypeError
  end.

(** The receiver of [.items()], [.keys()], [.values()], [.copy()]. *)
Definition py_dict (c : value) : outcome dict :=
  match c with
  | VDict d => Ok d
  | _ => Raise AttributeError
  end.

(** [for x in c]. *)
Definition py_iter (c : value) : outcome (list value) :=
  match c with
  | VList l => Ok l
  | VDict d => Ok (map VStr (dict_keys d))
  | VStr s => Ok (chars_of s)
  | _ => Raise TypeError
  end.

(** [if c:] *)
Definition py_truthy (c : value) : bool :=
  match c with
  | VNone => false
  | VBool b => b
  | VInt z => negb (Z.eqb z 0)
  | VStr s => negb (String.eqb s "")
  | VList l => match l with [] => false | _ => true end
  | VDict d => match d with [] => false | _ => true end
  end.

(** [d.keys().pop()] and [d.values().pop()]: the last entry. *)
Definition pop_key (d : dict) : outcome string :=
  match List.rev d with
  | [] => Raise IndexError
  | (k, _) :: _ => Ok k
  end.

Definition pop_value (d : dict) : outcome value :=
  match List.rev d with
  | [] => Raise IndexError
  | (_, v) :: _ => Ok v
  end.

(** [key in table] and [table[key]] for a key read from the input: a
    list or a dict is unhashable, a scalar that is not a string is the key
    of no entry. *)
Definition key_lookup {V} (table : amap V) (key : value)
  : outcome (option V) :=
  match key with
  | VStr s => Ok (dict_get s table)
  | VList _ | VDict _ => Raise TypeError
  | _ => Ok None
  end.

(** One element of a sequence given to [dict.update]: anything that
    iterates to two items, the key and the value.  A list of two, a
    string of two characters, a mapping of two keys. *)
Definition update_pair (x : value) : outcome (string * value) :=
  match x with
  | VList [VStr k; v] => Ok (k, v)
  | VList [_; _] => Raise TypeError
  | VStr (String a (String b EmptyString)) =>
      Ok (String a EmptyString, VStr (String b EmptyString))
  | VDict [(k, _); (v, _)] => Ok (k, VStr v)
  | VList _ | VStr _ | VDict _ => Raise ValueError
  | _ => Raise TypeError
  end.

(** [d.update(o)] for an [o] read from the input.  Keys are strings in
    this model: a pair whose first component is not one is refused. *)
Definition py_update (d : dict) (o : value) : outcome dict :=
  match o with
  | VDict e => Ok (dict_update d e)
  | VList l => e <-? omap update_pair l ;; Ok (dict_update d e)
  | VStr EmptyString => Ok d
  | VStr _ => Raise ValueError
  | _ => Raise TypeError
  end.

(** [str(v)], which [%s] applies, for the scalars. *)
Definition py_str (v : value) : outcome string :=
  match v with
  | VNone => Ok "None"
  | VBool true => Ok "True"
  | VBool false => Ok "False"
  | VInt z => Ok (NilZero.string_of_int (Z.to_int z))
  | VStr s => Ok s
  | VList _ | VDict _ => Raise TypeError
  end.

(** ['%02d' % i] *)
Definition pad2 (i : nat) : string :=
  let s := NilZero.string_of_uint (Nat.to_uint i) in
  if Nat.ltb (String.length s) 2 then String.append "0" s else s.

(** [template % i] for one integer [i].  The conversions known are [%%]
    and [%02d], the one [consume_map] writes; [used] tells whether the
    argument is spent.  Python raises when a second conversion asks for
    an argument and when the argument is left over.  Any other
    conversion, which a name with a percent sign can bring into the
    template, is outside the model: it is refused here with
    [ValueError], whatever Python makes of it, and the properties of the
    host names are stated for names without a percent sign. *)
Fixpoint py_format (template : string) (i : nat) (used : bool)
  : outcome string :=
  match template with
  | EmptyString => if used then Ok "" else Raise TypeError
  | String c t =>
      if Ascii.eqb c "%" then
        match t with
        | EmptyString => Raise ValueError
        | String c1 t1 =>
            if Ascii.eqb c1 "%" then
              s <-? py_format t1 i used ;; Ok (String "%" s)
            else
              match t1 with
              | String c2 (String c3 t3) =>
                  if Ascii.eqb c1 "0" && Ascii.eqb c2 "2" && Ascii.eqb c3 "d"
                  then
                    if used then Raise TypeError
                    else s <-? py_format t3 i true ;;
                         Ok (String.append (pad2 i) s)
                  else Raise ValueError
              | _ => Raise ValueError
              end
        end
      else s <-? py_format t i used ;; Ok (String c s)
  end.

(** How often [if i > no_of_servers: break] lets the body run, counting
    [i] from 1.  Python 2 orders values of different types: [None] is
    below every number, and every number is below a string, a list and a
    dict, so for these the test never succeeds. *)
Definition loop_bound (no_of_servers : value) : option nat :=
  match no_of_servers with
  | VInt z => Some (Z.to_nat z)
  | VBool b => Some (if b then 1 else 0)
  | VNone => Some 0
  | VStr _ | VList _ | VDict _ => None
  end.

(* ================================================================== *)
(** ** The module *)

(** One environment of the table [environments]:
    [{'availability_zones': [...], 'subnets': {...}}]. *)
Record env_entry : Type := mk_env {
  availability_zones : list string;
  subnets : dict
}.

Definition env_value (e : env_entry) : value :=
  VDict [("availability_zones", VList (map VStr (availability_zones e)));
         ("subnets", VDict (subnets e))].

Definition table_value {V} (f : V -> value) (t : amap V) : value :=
  VDict (map (fun kv => (fst kv, f (snd kv))) t).

(** What [_produce_profile] returns: [False], or the pair of the profile
    and the name of the role. *)
Inductive produced : Type :=
| Invalid
| Produced (profile : dict) (stname : value).

(** The three trees [consume_map] returns. *)
Record trees : Type := mk_trees {
  out_providers : amap dict;
  out_profiles : amap (amap dict);
  out_maps : amap (amap dict)
}.

(** The tables the loop over the providers fills, and the caller's
    provider tree as the loop leaves it: [prov] is the caller's object,
    and [del(prov[...])] changes it in place. *)
Record tables : Type := mk_tables {
  environments : amap env_entry;
  server_roles : amap dict;
  providers : amap dict;
  caller_providers : dict
}.

Section Module.

(** Python's [random]: the generator states, the state [random.seed]
    sets from a string (a function of the string: CPython 2 hashes it,
    and does not randomise hashes unless asked to), and what
    [random.choice] does on a sequence of a given length: the index it
    picks and the next state. *)
Variable rng : Type.
Variable rng_seed : string -> rng.
Variable rng_choice : rng -> nat -> nat * rng.

Record world : Type := mk_world {
  log : list log_record;
  generator : rng
}.

Definition M (A : Type) : Type := world -> outcome (A * world).

Definition ret {A} (a : A) : M A := fun w => Ok (a, w).

Definition bind {A B} (m : M A) (k : A -> M B) : M B :=
  fun w => match m w with
           | Ok (a, w') => k a w'
           | Raise e => Raise e
           | Diverge => Diverge
           end.

Definition lift {A} (o : outcome A) : M A :=
  fun w => match o with
           | Ok a => Ok (a, w)
           | Raise e => Raise e
           | Diverge => Diverge
           end.

Definition raise {A} (e : exn) : M A := fun _ => Raise e.

Definition LOG_info (msg : string) (args : list value) : M unit :=
  fun w => Ok (tt, mk_world (log w ++ [LogInfo msg args]) (generator w)).

Definition LOG_warn (msg : string) (args : list value) : M unit :=
  fun w => Ok (tt, mk_world (log w ++ [LogWarn msg args]) (generator w)).

(** [LOG.info(template % operand)] *)
Definition LOG_info_text (template : string) (operand : value) : M unit :=
  fun w =>
    Ok (tt, mk_world (log w ++ [LogInfoText template operand]) (generator w)).

Definition random_seed (seed : string) : M unit :=
  fun w => Ok (tt, mk_world (log w) (rng_seed seed)).

Definition random_choice {A} (l : list A) : M A :=
  fun w =>
    match l with
    | [] => Raise IndexError
    | _ =>
        let (i, g) := rng_choice (generator w) (List.length l) in
        match nth_error l i with
        | Some x => Ok (x, mk_world (log w) g)
        | None => Raise IndexError
        end
    end.

Notation "x <- m ;; k" := (bind m (fun x => k))
  (at level 61, m at next level, right associativity).
Notation "' p <- m ;; k" := (bind m (fun x => match x with p => k end))
  (at level 61, p pattern, m at next level, right associativity).
Notation "m ;;; k" := (bind m (fun _ => k))
  (at level 61, right associativity).

(** A [for] loop with an accumulator. *)
Fixpoint foldM {A B} (f : B -> A -> M B) (l : list A) (b : B) : M B :=
  match l with
  | [] => ret b
  | x :: l' => b' <- f b x ;; foldM f l' b'
  end.

(* ---------------------------------------------------------------- *)
(** *** Helpers *)

Definition update_server (server_roles : amap dict) (server_role : string)
           (values : dict) : amap dict :=
  let server_roles :=
    if dict_mem server_role server_roles then server_roles
    else dict_set server_role [] server_roles in
  match dict_get server_role server_roles with
  | Some d => dict_set server_role (dict_update d values) server_roles
  | None => server_roles
  end.

Definition _get_tags (environment : string) (role : value) : dict :=
  [("Environment", VStr environment); ("Role", role)].

Definition _get_network_interface (index : nat) (subnet_id : value)
           (security_groups : value) : dict :=
  [("DeviceIndex", VInt (Z.of_nat index));
   ("SubnetId", subnet_id);
   ("SecurityGroupId", security_groups)].

(** [envs[env_name]['subnets'][az_name]] *)
Definition env_subnet (envs : amap env_entry) (env_name : value)
           (az_name : string) : outcome value :=
  e <-? key_lookup envs env_name ;;
  match e with
  | None => Raise KeyError
  | Some e => match dict_get az_name (subnets e) with
              | Some v => Ok v
              | None => Raise KeyError
              end
  end.

(** One turn of the loop of [_add_interfaces], on the pair of [index]
    and [add_to]. *)
Definition add_interface (envs : amap env_entry) (az_name : string)
           (sec_groups : value) (acc : nat * list value) (entry : value)
  : outcome (nat * list value) :=
  let (index, add_to) := acc in
  '(env_name, az_ifaces) <-?
    match entry with
    | VDict interface =>
        k <-? pop_key interface ;;
        v <-? pop_value interface ;;
        Ok (VStr k, v)
    | _ => Ok (entry, VNone)
    end ;;
  subnet <-? env_subnet envs env_name az_name ;;
  let iface := _get_network_interface index subnet sec_groups in
  iface <-?
    (if py_truthy az_ifaces then
       a <-? py_getitem az_ifaces az_name ;;
       hyphen <-? py_contains "-" a ;;
       if (hyphen : bool) then Ok (dict_set "NetworkInterfaceId" a iface)
       else Ok (dict_set "PrivateIpAddress" a iface)
     else Ok iface) ;;
  Ok (S index, add_to ++ [VDict iface]).

Definition _add_interfaces (add_to : list value) (interfaces : value)
           (envs : amap env_entry) (az_name : string) (sec_groups : value)
  : outcome (list value) :=
  entries <-? py_iter interfaces ;;
  r <-? ofold (add_interface envs az_name sec_groups) entries (0, add_to) ;;
  Ok (snd r).

(* ---------------------------------------------------------------- *)
(** *** The Hostname Distributor *)

(** [in_list.remove(first)] *)
Fixpoint list_remove (first : string) (in_list : list string)
  : list string :=
  match in_list with
  | [] => []
  | x :: l => if String.eqb first x then l else x :: list_remove first l
  end.

Definition _get_cycle_list (seed : string) (in_list : list string)
  : M (list string) :=
  random_seed seed ;;;
  first <- random_choice in_list ;;
  ret (first :: list_remove first in_list).

(** The element [itertools.cycle(x :: l)] yields at position [j],
    counting from 0. *)
Definition cycle_at {A} (x : A) (l : list A) (j : nat) : A :=
  nth (j mod S (List.length l)) (x :: l) x.

(** The body of the loop of [_get_map_data] at ordinal [i], for the
    availability zone [az] the cycle has reached. *)
Definition assign_host (profiles : amap string) (map_defaults : value)
           (fqdn : string) (az : string) (return_profiles : amap dict)
           (i : nat) : outcome (amap dict) :=
  match dict_get az profiles with
  | None => Raise KeyError
  | Some pname =>
      let return_profiles :=
        if dict_mem pname return_profiles then return_profiles
        else dict_set pname [] return_profiles in
      host <-? py_format fqdn i false ;;
      match dict_get pname return_profiles with
      | Some hosts =>
          Ok (dict_set pname (dict_update hosts [(host, map_defaults)])
                       return_profiles)
      | None => Raise KeyError
      end
  end.

Definition _get_map_data (profiles : amap string) (no_of_servers : value)
           (map_defaults : value) (fqdn : string) : M (amap dict) :=
  cycle_list <- _get_cycle_list fqdn (dict_keys profiles) ;;
  lift
    match cycle_list with
    | [] => Ok []
    | x :: l =>
        let body rp i :=
          assign_host profiles map_defaults fqdn (cycle_at x l (i - 1))
                      rp i in
        match loop_bound no_of_servers with
        | Some n => ofold body (seq 1 n) []
        | None => _ <-? body [] 1 ;; Diverge
        end
    end.

(* ---------------------------------------------------------------- *)
(** *** The Role Resolver *)

Definition req_parameters : list string :=
  ["size"; "image"; "security_groups"].

Definition default_vol_tags (environment : string) (stname : value) : dict :=
  [("Environment", VStr environment); ("Role", stname);
   ("Service", VStr "ebs")].

(** The body of [for vol in profile['volumes']].  Only a dict passes:
    on a list or a string the assignment [vol['tags'] = {}] or the
    subscript [vol['tags']] raises, on a scalar the test [in] does. *)
Definition tag_volume (environment : string) (stname : value) (vol : value)
  : outcome value :=
  match vol with
  | VDict vol =>
      let vol := if dict_mem "tags" vol then vol
                 else dict_set "tags" (VDict []) vol in
      tags <-? py_getitem (VDict vol) "tags" ;;
      tags <-? py_dict tags ;;
      let tags := dict_update tags (default_vol_tags environment stname) in
      let tags := match dict_get "type" vol with
                  | Some ty => dict_set "VolumeType" ty tags
                  | None => tags
                  end in
      Ok (VDict (dict_set "tags" (VDict tags) vol))
  | _ => Raise TypeError
  end.

(** [for vol in profile['volumes']: ...], changing the volumes in
    place.  A dict is iterated by its keys and a string by its
    characters, which are strings: the body raises on the first. *)
Definition tag_volumes (environment : string) (stname : value)
           (volumes : value) : outcome value :=
  match volumes with
  | VList vols =>
      vols <-? omap (tag_volume environment stname) vols ;;
      Ok (VList vols)
  | VDict [] | VStr EmptyString => Ok volumes
  | _ => Raise TypeError
  end.

(** [stname] and [overrides]: a mapping entry gives its key and its
    value, any other entry is the name and has no overrides. *)
Definition role_and_overrides (server_role : value)
  : outcome (value * value) :=
  match server_role with
  | VDict d => k <-? pop_key d ;; v <-? pop_value d ;; Ok (VStr k, v)
  | _ => Ok (server_role, VDict [])
  end.

(** [common_sec], bound only when the role table has it. *)
Definition common_security_group (profile_defs : amap dict)
  : option value :=
  match dict_get "common" profile_defs with
  | Some common => dict_get "security_groups" common
  | None => None
  end.

(** [if 'volumes' in profile: for vol in profile['volumes']: ...] *)
Definition tag_profile_volumes (environment : string) (stname : value)
           (profile : dict) : outcome dict :=
  match dict_get "volumes" profile with
  | Some volumes =>
      volumes <-? tag_volumes environment stname volumes ;;
      Ok (dict_set "volumes" volumes profile)
  | None => Ok profile
  end.

(** [if 'security_groups' not in profile:
       profile['security_groups'] = []] *)
Definition init_security_groups (profile : dict) : dict :=
  if dict_mem "security_groups" profile then profile
  else dict_set "security_groups" (VList []) profile.

(** [if not isinstance(profile['security_groups'], list):
       profile['security_groups'] = [profile['security_groups']]] *)
Definition wrap_security_groups (profile : dict) : outcome dict :=
  security_groups <-? py_getitem (VDict profile) "security_groups" ;;
  match security_groups with
  | VList _ => Ok profile
  | v => Ok (dict_set "security_groups" (VList [v]) profile)
  end.

(** [profile['security_groups'].append(common_sec)] *)
Definition append_common (common_sec : option value) (profile : dict)
  : outcome dict :=
  security_groups <-? py_getitem (VDict profile) "security_groups" ;;
  match common_sec with
  | None => Raise UnboundLocalError
  | Some common_sec =>
      match security_groups with
      | VList l =>
          Ok (dict_set "security_groups" (VList (l ++ [common_sec]))
                       profile)
      | _ => Raise AttributeError
      end
  end.

Definition _produce_profile (server_role : value) (defaults : dict)
           (profile_defs : amap dict) (environment : string) : M produced :=
  let profile := defaults in
  '(stname, overrides) <- lift (role_and_overrides server_role) ;;
  LOG_info "Updating profile %s..." [stname] ;;;
  role_def <- lift (key_lookup profile_defs stname) ;;
  let profile := match role_def with
                 | Some d => dict_update profile d
                 | None => profile
                 end in
  let common_sec := common_security_group profile_defs in
  profile <- lift (py_update profile overrides) ;;
  profile <- lift (tag_profile_volumes environment stname profile) ;;
  let profile := init_security_groups profile in
  profile <- lift (wrap_security_groups profile) ;;
  profile <- lift (append_common common_sec profile) ;;
  if forallb (fun reqs => dict_mem reqs profile) req_parameters
  then ret (Produced profile stname)
  else
    LOG_warn "Server type %s does not have %s defined, it only has %s..."
             [stname; VList (map VStr req_parameters); VDict profile] ;;;
    ret Invalid.

(* ---------------------------------------------------------------- *)
(** *** The Environment Builder and the loop over the providers *)

(** [{'availability_zones': [s.keys().pop() for s in subnets],
      'subnets': {s.keys().pop(): s.values().pop() for s in subnets}}] *)
Definition build_environment (subnets : value) : outcome env_entry :=
  ss <-? py_iter subnets ;;
  azs <-? omap (fun s => d <-? py_dict s ;; pop_key d) ss ;;
  sub <-? ofold (fun acc s =>
                   d <-? py_dict s ;;
                   k <-? pop_key d ;;
                   d <-? py_dict s ;;
                   v <-? pop_value d ;;
                   Ok (dict_set k v acc)) ss [] ;;
  Ok (mk_env azs sub).

(** [environments[env] = {...}], the body of
    [for env, subnets in prov['subnets'].items()]. *)
Definition declare_environment (envs : amap env_entry)
           (item : string * value) : outcome (amap env_entry) :=
  let (env, subnets) := item in
  e <-? build_environment subnets ;;
  Ok (dict_set env e envs).

(** [for server_role, x in prov[field].items():
       update_server(server_roles, server_role, {attr: x})]
    and [del(prov[field])]. *)
Definition grab (field attr : string) (prov : dict)
           (server_roles : amap dict) : outcome (dict * amap dict) :=
  per_role <-? py_getitem (VDict prov) field ;;
  per_role <-? py_dict per_role ;;
  Ok (dict_del field prov,
      fold_left (fun roles kv =>
                   update_server roles (fst kv) [(attr, snd kv)])
                per_role server_roles).

(** The body of [for provider_name, prov in in_providers.items()]. *)
Definition consume_provider (cloud_defaults : value) (t : tables)
           (item : string * value) : M tables :=
  let (provider_name, prov) := item in
  has_defaults <- lift (py_contains "providers" cloud_defaults) ;;
  provider <-
    lift (if (has_defaults : bool)
          then d <-? py_getitem cloud_defaults "providers" ;; py_dict d
          else Ok []) ;;
  declared <- lift (py_getitem prov "subnets") ;;
  declared <- lift (py_dict declared) ;;
  environments <-
    lift (ofold declare_environment declared (environments t)) ;;
  LOG_info_text "Environments: %s" (table_value env_value environments) ;;;
  match prov with
  | VDict prov =>
      let prov := dict_del "subnets" prov in
      '(prov, roles) <- lift (grab "sizes" "size" prov (server_roles t)) ;;
      '(prov, roles) <- lift (grab "images" "image" prov roles) ;;
      '(prov, roles) <- lift (grab "volumes" "volumes" prov roles) ;;
      '(prov, roles) <-
        lift (grab "security_groups" "security_groups" prov roles) ;;
      let provider := dict_update provider prov in
      ret (mk_tables environments roles
                     (dict_set provider_name provider (providers t))
                     (dict_set provider_name (VDict prov)
                               (caller_providers t)))
  | _ => raise TypeError
  end.

(* ---------------------------------------------------------------- *)
(** *** The Profile Synthesizer and [consume_map] *)

(** [no_of_servers if 'servers' not in profile else profile['servers']] *)
Definition start_servers (no_of_servers : value) (profile : dict) : value :=
  match dict_get "servers" profile with
  | None => no_of_servers
  | Some servers => servers
  end.

(** ['%(type)s_%(env)s_%(region)s'], with [pname + az_name] as region *)
Definition profile_name (role ename pname az_name : string) : string :=
  String.append role
    (String.append "_"
       (String.append ename
          (String.append "_" (String.append pname az_name)))).

(** ['%(role)s%%02d.%(env)s.%(location)s.example.com'] *)
Definition fqdn_template (role ename pname : string) : string :=
  String.append role
    (String.append "%02d."
       (String.append ename
          (String.append "."
             (String.append pname ".example.com")))).

(** The body of [for az_name in environments[ename]['availability_zones']],
    on [profile], [profiles] and [map_profiles]. *)
Definition expand_az (envs : amap env_entry) (pname ename : string)
           (server_role : value)
           (acc : dict * amap (amap dict) * amap string)
           (az_name : string)
  : outcome (dict * amap (amap dict) * amap string) :=
  let '(profile, profiles, map_profiles) := acc in
  profile <-?
    (if dict_mem "interfaces" profile then
       let profile := dict_set "network_interfaces" (VList []) profile in
       interfaces <-? py_getitem (VDict profile) "interfaces" ;;
       sec_groups <-? py_getitem (VDict profile) "security_groups" ;;
       ifaces <-? _add_interfaces [] interfaces envs az_name sec_groups ;;
       Ok (dict_set "network_interfaces" (VList ifaces) profile)
     else
       subnet <-? env_subnet envs (VStr ename) az_name ;;
       sec_groups <-? py_getitem (VDict profile) "security_groups" ;;
       Ok (dict_set "network_interfaces"
                    (VList [VDict (_get_network_interface 0 subnet
                                                          sec_groups)])
                    profile)) ;;
  role <-? py_str server_role ;;
  let name := profile_name role ename pname az_name in
  let profiles := if dict_mem ename profiles then profiles
                  else dict_set ename [] profiles in
  let finished_profile := dict_del "security_groups" profile in
  let finished_profile :=
    if dict_mem "servers" finished_profile
    then dict_del "servers" finished_profile else finished_profile in
  let finished_profile :=
    if dict_mem "interfaces" finished_profile
    then dict_del "interfaces" finished_profile else finished_profile in
  match dict_get ename profiles with
  | Some of_env =>
      Ok (profile,
          dict_set ename (dict_set name finished_profile of_env) profiles,
          dict_set az_name name map_profiles)
  | None => Raise KeyError
  end.

(** The body of [for server_role in environment], on [profiles] and
    [maps]. *)
Definition expand_role (envs : amap env_entry) (role_defaults : dict)
           (server_roles : amap dict) (cloud_defaults : value)
           (pname ename : string) (no_of_servers : value)
           (acc : amap (amap dict) * amap (amap dict)) (server_role : value)
  : M (amap (amap dict) * amap (amap dict)) :=
  let (profiles, maps) := acc in
  made <- _produce_profile server_role role_defaults server_roles ename ;;
  match made with
  | Invalid => raise TypeError
  | Produced profile server_role =>
      if negb (py_truthy (VDict profile)) then
        LOG_warn "Profile %s not valid" [server_role] ;;;
        ret (profiles, maps)
      else
        let profile := dict_set "provider" (VStr pname) profile in
        let profile :=
          dict_set "tag" (VDict (_get_tags ename server_role)) profile in
        let start := start_servers no_of_servers profile in
        '(_, profiles, map_profiles) <-
          lift match dict_get ename envs with
               | Some env =>
                   ofold (expand_az envs pname ename server_role)
                         (availability_zones env) (profile, profiles, [])
               | None => Raise KeyError
               end ;;
        role <- lift (py_str server_role) ;;
        let fqdn := fqdn_template role ename pname in
        let maps := if dict_mem ename maps then maps
                    else dict_set ename [] maps in
        map_defaults <- lift (py_getitem cloud_defaults "mappings") ;;
        data <- _get_map_data map_profiles start map_defaults fqdn ;;
        match dict_get ename maps with
        | Some of_env =>
            ret (profiles, dict_set ename (dict_update of_env data) maps)
        | None => raise KeyError
        end
  end.

(** The body of [for ename, environment in provider.items()]. *)
Definition expand_environment (envs : amap env_entry) (role_defaults : dict)
           (server_roles : amap dict) (cloud_defaults : value)
           (pname : string) (no_of_servers : value)
           (acc : amap (amap dict) * amap (amap dict))
           (item : string * value)
  : M (amap (amap dict) * amap (amap dict)) :=
  let (ename, environment) := item in
  if negb (dict_mem ename envs) then
    LOG_warn "No env with name %s in %s."
             [VStr ename; VList (map VStr (dict_keys envs))] ;;;
    ret acc
  else
    roles <- lift (py_iter environment) ;;
    foldM (expand_role envs role_defaults server_roles cloud_defaults
                       pname ename no_of_servers) roles acc.

(** The body of [for pname, provider in in_servers.items()], on
    [providers], [profiles] and [maps]. *)
Definition expand_provider (t : tables) (role_defaults : dict)
           (cloud_defaults : value) (acc : trees) (item : string * value)
  : M trees :=
  let (pname, provider) := item in
  match dict_get pname (out_providers acc) with
  | None =>
      LOG_warn "No provider with name %s in %s."
               [VStr pname;
                VList (map VStr (dict_keys (out_providers acc)))] ;;;
      ret acc
  | Some conf =>
      no_of_servers <- lift (py_getitem (VDict conf) "default_servers") ;;
      let providers :=
        dict_set pname (dict_del "default_servers" conf)
                 (out_providers acc) in
      of_provider <- lift (py_dict provider) ;;
      '(profiles, maps) <-
        foldM (expand_environment (environments t) role_defaults
                                  (server_roles t) cloud_defaults
                                  pname no_of_servers)
              of_provider (out_profiles acc, out_maps acc) ;;
      ret (mk_trees providers profiles maps)
  end.

(** [consume_map]: the trees it returns, and the caller's
    [in_providers] as the call leaves it. *)
Definition consume_map (in_providers in_servers cloud_defaults : value)
  : M (trees * value) :=
  has_profiles <- lift (py_contains "profiles" cloud_defaults) ;;
  roles <-
    lift (if (has_profiles : bool)
          then d <-? py_getitem cloud_defaults "profiles" ;;
               d <-? py_dict d ;;
               Ok [("default", d)]
          else Ok []) ;;
  declared <- lift (py_dict in_providers) ;;
  t <- foldM (consume_provider cloud_defaults) declared
             (mk_tables [] roles [] declared) ;;
  role_defaults <-
    lift match dict_get "default" (server_roles t) with
         | Some d => Ok d
         | None => Raise KeyError
         end ;;
  wanted <- lift (py_dict in_servers) ;;
  out <- foldM (expand_provider t role_defaults cloud_defaults) wanted
               (mk_trees (providers t) [] []) ;;
  ret (out, VDict (caller_providers t)).

End Module.

Arguments mk_world {rng} log generator.
Arguments log {rng} w.
Arguments generator {rng} w.
Arguments ret {rng A} a w.
Arguments bind {rng A B} m k w.
Arguments lift {rng A} o w.
Arguments raise {rng A} e w.
Arguments LOG_info {rng} msg args w.
Arguments LOG_warn {rng} msg args w.
Arguments LOG_info_text {rng} template operand w.
Arguments foldM {rng A B} f l b w.
Arguments _produce_profile {rng} server_role defaults profile_defs
  environment w.
Arguments consume_provider {rng} cloud_defaults t item w.
Arguments random_choice {rng} rng_choice {A} l w.
Arguments _get_cycle_list {rng} rng_seed rng_choice seed in_list w.
Arguments _get_map_data {rng} rng_seed rng_choice profiles no_of_servers
  map_defaults fqdn w.
Arguments expand_role {rng} rng_seed rng_choice envs role_defaults
  server_roles cloud_defaults pname ename no_of_servers acc server_role w.
Arguments expand_environment {rng} rng_seed rng_choice envs role_defaults
  server_roles cloud_defaults pname no_of_servers acc item w.
Arguments expand_provider {rng} rng_seed rng_choice t role_defaults
  cloud_defaults acc item w.
Arguments consume_map {rng} rng_seed rng_choice in_providers in_servers
  cloud_defaults w.


(* ================================================================== *)
(** ** The state [simplecloud.managed] ([_states/simplecloud.py])

    [managed] reads three pillar keys, hands them to [consume_map] and
    writes what comes back through Salt's [file.directory] and
    [file.managed].  Those two, [pillar.get] and the YAML dump behind
    [_ordered_dump] are Salt's and PyYAML's: the state is modelled over
    any four such functions, and over any type [fs] of what the file
    states act on, which a call leaves changed also when the state
    raises afterwards. *)

(** [os.path.join(a, b)] of [posixpath], for a string [b]. *)
Definition starts_with_sep (b : string) : bool :=
  match b with
  | String c _ => Ascii.eqb c "/"
  | EmptyString => false
  end.

Fixpoint ends_with_sep (a : string) : bool :=
  match a with
  | EmptyString => false
  | String c EmptyString => Ascii.eqb c "/"
  | String _ rest => ends_with_sep rest
  end.

Definition path_join (path b : string) : string :=
  if starts_with_sep b then b
  else if String.eqb path "" || ends_with_sep path
       then String.append path b
       else String.append path (String.append "/" b).

(** The same for any first argument: one that is no string has no
    [endswith]. *)
Definition os_path_join (a : value) (b : string) : outcome string :=
  match a with
  | VStr path => Ok (path_join path b)
  | _ => if starts_with_sep b then Ok b else Raise AttributeError
  end.

(** [sep.join(l)] *)
Fixpoint py_join (sep : string) (l : list value) : outcome string :=
  match l with
  | [] => Ok ""
  | VStr s :: rest =>
      match rest with
      | [] => Ok s
      | _ => t <-? py_join sep rest ;;
             Ok (String.append s (String.append sep t))
      end
  | _ => Raise TypeError
  end.

Definition newline : string := String (Ascii.ascii_of_nat 10) "".

(** What a file state returns, as far as [managed] reads it. *)
Record state_return : Type := mk_return {
  comment_of : value;
  result_of : value;
  changes_of : value
}.

(** [comments], [results] and [changes] *)
Record journal : Type := mk_journal {
  comments : list value;
  results : list value;
  changes : dict
}.

(** [comments.append(r['comment'])], [results.append(r['result'])] and
    [if r['changes']: changes[path] = r['changes']]. *)
Definition note (path : string) (r : state_return) (j : journal) : journal :=
  mk_journal (comments j ++ [comment_of r])
             (results j ++ [result_of r])
             (if py_truthy (changes_of r)
              then dict_set path (changes_of r) (changes j)
              else changes j).

Section State.
Context {rng fs : Type} (rng_seed : string -> rng)
        (rng_choice : rng -> nat -> nat * rng).
(** [__salt__['pillar.get']] *)
Variable pillar_get : value -> value.
(** [file.directory(name, user, group, dir_mode, test)] *)
Variable file_directory :
  string -> value -> value -> value -> value -> fs -> state_return * fs.
(** [file.managed(name, user, group, mode, contents, test)] *)
Variable file_managed :
  string -> value -> value -> value -> string -> value -> fs ->
  state_return * fs.
(** [_ordered_dump(data, default_flow_style=False)] *)
Variable _ordered_dump : value -> string.

(** One of the three directories. *)
Definition manage_directory (path : string) (user group dir_mode test : value)
           (acc : journal * fs) : journal * fs :=
  let (j, s) := acc in
  let (r, s) := file_directory path user group dir_mode test s in
  (note path r j, s).

(** The body of each of the three loops, for the file [path] and the
    data to dump into it. *)
Definition manage_file (path : string) (data : value)
           (file_mode user group test : value) (acc : journal * fs)
  : journal * fs :=
  let (j, s) := acc in
  let source := _ordered_dump data in
  let (r, s) := file_managed path user group file_mode source test s in
  (note path r j, s).

(** The body of [for provider_name, provider in providers.items()] *)
Definition manage_provider (provider_path : string)
           (file_mode user group test : value)
           (acc : journal * fs) (item : string * dict) : journal * fs :=
  let (provider_name, provider) := item in
  let provider_data := VDict [(provider_name, VDict provider)] in
  let provider_file :=
    path_join provider_path (String.append provider_name ".conf") in
  manage_file provider_file provider_data file_mode user group test acc.

(** The body of [for env_name, profile_data in profiles.items()] *)
Definition manage_profiles (profile_path : string)
           (file_mode user group test : value)
           (acc : journal * fs) (item : string * amap dict) : journal * fs :=
  let (env_name, profile_data) := item in
  let profile_file :=
    path_join profile_path (String.append env_name ".conf") in
  manage_file profile_file (table_value VDict profile_data)
              file_mode user group test acc.

(** The body of [for env_name, map_data in maps.items()] *)
Definition manage_map (map_path : string)
           (file_mode user group test : value)
           (acc : journal * fs) (item : string * amap dict) : journal * fs :=
  let (env_name, map_data) := item in
  let map_file := path_join map_path env_name in
  manage_file map_file (table_value VDict map_data)
              file_mode user group test acc.

(** [managed]: what it returns or raises, with the log and the
    generator as [consume_map] leaves them, and what the file states have
    made of [fs]. *)
Definition managed (name conf_dir cloud_servers_pillar
                    cloud_providers_pillar cloud_defaults_pillar
                    file_mode dir_mode user group test : value)
           (w : world rng) (s : fs) : outcome (dict * world rng) * fs :=
  let ret := [("name", name); ("result", VBool false);
              ("comment", VStr ""); ("changes", VDict [])] in
  match
    provider_path <-? os_path_join conf_dir "cloud.providers.d" ;;
    profile_path <-? os_path_join conf_dir "cloud.profiles.d" ;;
    map_path <-? os_path_join conf_dir "cloud.maps" ;;
    Ok (provider_path, profile_path, map_path)
  with
  | Raise e => (Raise e, s)
  | Diverge => (Diverge, s)
  | Ok (provider_path, profile_path, map_path) =>
      let cloud_servers := pillar_get cloud_servers_pillar in
      let cloud_providers := pillar_get cloud_providers_pillar in
      let cloud_defaults := pillar_get cloud_defaults_pillar in
      match consume_map rng_seed rng_choice cloud_providers cloud_servers
                        cloud_defaults w with
      | Raise e => (Raise e, s)
      | Diverge => (Diverge, s)
      | Ok (out, _, w) =>
          let acc := (mk_journal [] [] [], s) in
          let acc := manage_directory provider_path user group dir_mode
                                      test acc in
          let acc := manage_directory profile_path user group dir_mode
                                      test acc in
          let acc := manage_directory map_path user group dir_mode
                                      test acc in
          let acc := fold_left (manage_provider provider_path file_mode
                                                user group test)
                               (out_providers out) acc in
          let acc := fold_left (manage_profiles profile_path file_mode
                                                user group test)
                               (out_profiles out) acc in
          let acc := fold_left (manage_map map_path file_mode user group
                                           test)
                               (out_maps out) acc in
          let (j, s) := acc in
          let ret :=
            dict_set "changes"
                     (VDict (filter (fun sc => py_truthy (snd sc))
                                    (changes j)))
                     ret in
          match py_join newline (filter py_truthy (comments j)) with
          | Raise e => (Raise e, s)
          | Diverge => (Diverge, s)
          | Ok comment =>
              let ret := dict_set "comment" (VStr comment) ret in
              let ret :=
                dict_set "result"
                         (VBool (forallb py_truthy (results j))) ret in
              (Ok (ret, w), s)
          end
      end
  end.

End State.
(* ================================================================== *)
(** ** The Role Resolver, as the specification words it *)

(** The attributes of the role table laid over the defaults. *)
Definition overlay (defaults : dict) (role_def : option dict) : dict :=
  match role_def with
  | Some d => dict_update defaults d
  | None => defaults
  end.

(** The layered merge: the global defaults, overlaid with what the role
    table holds under the role's name, overlaid with the overrides of the
    entry. *)
Definition layered_role (server_role : value) (defaults : dict)
           (profile_defs : amap dict) : outcome dict :=
  '(stname, overrides) <-? role_and_overrides server_role ;;
  role_def <-? key_lookup profile_defs stname ;;
  py_update (overlay defaults role_def) overrides.

(** The security groups a role has of its own: none if absent, the list
    if it is one, else the value wrapped in a list. *)
Definition own_security_groups (profile : dict) : list value :=
  match dict_get "security_groups" profile with
  | None => []
  | Some (VList l) => l
  | Some v => [v]
  end.

(** The tags a volume came with. *)
Definition tags_of (fields : dict) : dict :=
  match dict_get "tags" fields with
  | Some (VDict tags) => tags
  | _ => []
  end.

(** [after] is the volume [before] with its tags set for [environment]
    and the role [stname]. *)
Definition tagged_volume (environment : string) (stname : value)
           (before after : value) : Prop :=
  exists fields0 fields tags,
    before = VDict fields0 /\ after = VDict fields /\
    (forall k, k <> "tags" -> dict_get k fields = dict_get k fields0) /\
    dict_get "tags" fields = Some (VDict tags) /\
    dict_get "Environment" tags = Some (VStr environment) /\
    dict_get "Role" tags = Some stname /\
    dict_get "Service" tags = Some (VStr "ebs") /\
    (forall ty, dict_get "type" fields0 = Some ty ->
                dict_get "VolumeType" tags = Some ty) /\
    (forall k, k <> "Environment" -> k <> "Role" -> k <> "Service" ->
               (k = "VolumeType" -> dict_get "type" fields0 = None) ->
               dict_get k tags = dict_get k (tags_of fields0)).

(** A provider entry of the caller's tree once [consume_map] has read
    it: the five fields the loop deletes are gone. *)
Definition consumed_provider (prov : value) : value :=
  match prov with
  | VDict fields =>
      VDict (dict_del "security_groups"
               (dict_del "volumes"
                  (dict_del "images"
                     (dict_del "sizes" (dict_del "subnets" fields)))))
  | _ => prov
  end.

(* ================================================================== *)
(** ** The tables shared by the providers *)

(** The entry that assignments made in iteration order leave under [k]:
    the last one.  The keys of a dict are unique, and this is its one
    entry (lemma [dict_get_rev]). *)
Definition dict_last {V} (k : string) (d : amap V) : option V :=
  dict_get k (List.rev d).

(** Of the items that declare something, the declaration of the last. *)
Definition last_declared {A V} (declares : A -> option V) (items : list A)
  : option V :=
  fold_left (fun found item =>
               match declares item with
               | Some v => Some v
               | None => found
               end) items None.

(** The environment [env] as the provider [item] declares it, if it
    does. *)
Definition env_declared_by (env : string) (item : string * value)
  : option env_entry :=
  match snd item with
  | VDict fields =>
      match dict_get "subnets" fields with
      | Some (VDict declared) =>
          match dict_last env declared with
          | Some subnets =>
              match build_environment subnets with
              | Ok entry => Some entry
              | _ => None
              end
          | None => None
          end
      | _ => None
      end
  | _ => None
  end.

(** The value the provider [item] declares for the role [role] in its
    field [field] (sizes, images, volumes or security_groups). *)
Definition attr_declared_by (field role : string) (item : string * value)
  : option value :=
  match snd item with
  | VDict fields =>
      match dict_get field fields with
      | Some (VDict per_role) => dict_last role per_role
      | _ => None
      end
  | _ => None
  end.

(** The attribute [attr] of the role [role] in the role table. *)
Definition role_attr (roles : amap dict) (role attr : string)
  : option value :=
  match dict_get role roles with
  | Some d => dict_get attr d
  | None => None
  end.

(** The per-role fields of a provider and the role attribute each one
    feeds. *)
Definition role_fields : list (string * string) :=
  [("sizes", "size"); ("images", "image"); ("volumes", "volumes");
   ("security_groups", "security_groups")].

(* ================================================================== *)
(** ** The Hostname Distributor, as the specification words it *)

(** No [%] in a name: the template built from it has the one conversion
    [consume_map] writes. *)
Fixpoint percent_free (s : string) : bool :=
  match s with
  | EmptyString => true
  | String c s' => negb (Ascii.eqb c "%") && percent_free s'
  end.

(** [<role><2-digit ordinal>.<environment>.<location>.example.com] *)
Definition hostname (role ename pname : string) (i : nat) : string :=
  String.append role
    (String.append (pad2 i)
       (String.append "."
          (String.append ename
             (String.append "."
                (String.append pname ".example.com"))))).

(** The number a padded ordinal is read back as. *)
Definition read_back (s : string) : option nat :=
  option_map Nat.of_uint (NilEmpty.uint_of_string s).

(** The ordinals among [1..n] that fall on position [j] of a cycle of
    length [k]. *)
Definition ordinals_at (k j n : nat) : list nat :=
  filter (fun i => Nat.eqb ((i - 1) mod k) j) (seq 1 n).

(** The hosts a map assigns to the profile [name], and all of them. *)
Definition share (name : string) (data : amap dict) : nat :=
  match dict_get name data with
  | Some hosts => List.length hosts
  | None => 0
  end.

Definition total_hosts (data : amap dict) : nat :=
  list_sum (map (fun kv => List.length (snd kv)) data).

(* ================================================================== *)
(** ** Reproducible runs *)

(** Two runs end alike: in the same value with the same log, in the same
    exception, or both never. *)
Definition same_outcome {rng A} (o0 o1 : outcome (A * world rng)) : Prop :=
  match o0, o1 with
  | Ok (a0, w0), Ok (a1, w1) => a0 = a1 /\ log w0 = log w1
  | Raise e0, Raise e1 => e0 = e1
  | Diverge, Diverge => True
  | _, _ => False
  end.

(** A computation whose outcome does not depend on the state the
    generator is in when it starts. *)
Definition steady {rng A} (m : M rng A) : Prop :=
  forall w0 w1, log w0 = log w1 -> same_outcome (m w0) (m w1).

(** The profile of the zone at position [j] of the cycle [x :: l]. *)
Definition zone_name (profiles : amap string) (x : string) (l : list string)
           (j : nat) : string :=
  match dict_get (nth j (x :: l) x) profiles with
  | Some name => name
  | None => ""
  end.

(** The hosts of position [j] after [n] turns of the loop, for a cycle
    [x :: l] and host names [host]. *)
Definition zone_hosts (map_defaults : value) (host : nat -> string)
           (l : list string) (j n : nat) : dict :=
  map (fun i => (host i, map_defaults)) (ordinals_at (S (List.length l)) j n).

(** The map after [n] turns of the loop. *)
Definition distributed_to (profiles : amap string) (map_defaults : value)
           (host : nat -> string) (x : string) (l : list string) (n : nat)
           (data : amap dict) : Prop :=
  (forall j, j < S (List.length l) ->
             dict_get (zone_name profiles x l j) data =
             match ordinals_at (S (List.length l)) j n with
             | [] => None
             | _ => Some (zone_hosts map_defaults host l j n)
             end) /\
  total_hosts data = n /\
  NoDup (dict_keys data) /\
  (forall name, In name (dict_keys data) ->
                exists j, j < S (List.length l) /\
                          name = zone_name profiles x l j).


(* ================================================================== *)
(** ** The Environment Builder and the Network Interface Synthesizer,
       as their results read *)

(** The subnet declaration of an environment: a list of single-key
    mappings [{label: subnet id}]. *)
Definition labelled (pairs : list (string * value)) : value :=
  VList (map (fun p => VDict [p]) pairs).

(** An entry the Environment Builder can read: a mapping with a key. *)
Definition nonempty_mapping (s : value) : Prop :=
  exists k v d, s = VDict ((k, v) :: d).

(** What [s.keys().pop()] and [s.values().pop()] read of an entry. *)
Definition read_pair (s : value) (p : string * value) : Prop :=
  exists d, s = VDict d /\ pop_key d = Ok (fst p) /\ pop_value d = Ok (snd p).

(** The environment and the per-zone override an [interfaces] entry
    names. *)
Definition interface_reference (entry env_name az_ifaces : value) : Prop :=
  match entry with
  | VDict d =>
      exists k, pop_key d = Ok k /\ pop_value d = Ok az_ifaces /\
                env_name = VStr k
  | _ => env_name = entry /\ az_ifaces = VNone
  end.

(** [iface] is the interface at device index [index] that [entry] asks
    for in the zone [az_name]. *)
Definition interface_for (envs : amap env_entry) (az_name : string)
           (sec_groups : value) (index : nat) (entry iface : value) : Prop :=
  exists env_name az_ifaces subnet fields,
    interface_reference entry env_name az_ifaces /\
    env_subnet envs env_name az_name = Ok subnet /\
    iface = VDict fields /\
    dict_get "DeviceIndex" fields = Some (VInt (Z.of_nat index)) /\
    dict_get "SubnetId" fields = Some subnet /\
    dict_get "SecurityGroupId" fields = Some sec_groups /\
    if py_truthy az_ifaces then
      exists a hyphen,
        py_getitem az_ifaces az_name = Ok a /\
        py_contains "-" a = Ok hyphen /\
        dict_get "NetworkInterfaceId" fields
        = (if (hyphen : bool) then Some a else None) /\
        dict_get "PrivateIpAddress" fields
        = (if hyphen then None else Some a)
    else
      dict_get "NetworkInterfaceId" fields = None /\
      dict_get "PrivateIpAddress" fields = None.


(* ================================================================== *)
(** ** The profile tree and the map tree, entry by entry *)

(** Every profile of a profile tree satisfies [P]. *)
Definition every_profile (P : dict -> Prop) (profiles : amap (amap dict))
  : Prop :=
  forall ename of_env name profile,
    In (ename, of_env) profiles -> In (name, profile) of_env -> P profile.

(** Every host of a map tree, with its value, satisfies [P]. *)
Definition every_host (P : string -> value -> Prop)
           (maps : amap (amap dict)) : Prop :=
  forall ename of_env name hosts h v,
    In (ename, of_env) maps -> In (name, hosts) of_env ->
    In (h, v) hosts -> P h v.

(** The fields the loop over the zones finds in the profile it works on. *)
Definition working_fields : list string :=
  ["size"; "image"; "provider"; "tag"].

(** The fields a finished profile has, and those it has lost. *)
Definition finished_fields : list string :=
  ["size"; "image"; "provider"; "tag"; "network_interfaces"].

Definition stripped_fields : list string :=
  ["security_groups"; "servers"; "interfaces"].

Definition has_fields (fields : list string) (profile : dict) : Prop :=
  forall k, In k fields -> dict_mem k profile = true.

Definition lacks_fields (fields : list string) (profile : dict) : Prop :=
  forall k, In k fields -> dict_mem k profile = false.

(** The keys of [d] once [d[k]] has been assigned. *)
Definition keys_with {V} (k : string) (d : amap V) : list string :=
  if dict_mem k d then dict_keys d else dict_keys d ++ [k].

(* ================================================================== *)
(** ** The file states [managed] calls *)

(** A call of [file.directory] or of [file.managed], with the data
    dumped into the file. *)
Inductive file_call : Type :=
| Directory (path : string)
| Managed (path : string) (data : value).

Definition call_path (c : file_call) : string :=
  match c with
  | Directory path => path
  | Managed path _ => path
  end.

(** The calls for the trees [out] under the directory [dir]: the three
    directories, then a file for each provider, for each environment of
    the profile tree and for each environment of the map tree. *)
Definition file_calls (dir : string) (out : trees) : list file_call :=
  let provider_path := path_join dir "cloud.providers.d" in
  let profile_path := path_join dir "cloud.profiles.d" in
  let map_path := path_join dir "cloud.maps" in
  [Directory provider_path; Directory profile_path; Directory map_path]
  ++ map (fun item : string * dict =>
            Managed (path_join provider_path
                               (String.append (fst item) ".conf"))
                    (VDict [(fst item, VDict (snd item))]))
         (out_providers out)
  ++ map (fun item : string * amap dict =>
            Managed (path_join profile_path
                               (String.append (fst item) ".conf"))
                    (table_value VDict (snd item)))
         (out_profiles out)
  ++ map (fun item : string * amap dict =>
            Managed (path_join map_path (fst item))
                    (table_value VDict (snd item)))
         (out_maps out).

Section FileCalls.
Context {fs : Type}.
Variable file_directory :
  string -> value -> value -> value -> value -> fs -> state_return * fs.
Variable file_managed :
  string -> value -> value -> value -> string -> value -> fs ->
  state_return * fs.
Variable _ordered_dump : value -> string.
Variables file_mode dir_mode user group test : value.

Definition perform (c : file_call) (s : fs) : state_return * fs :=
  match c with
  | Directory path => file_directory path user group dir_mode test s
  | Managed path data =>
      file_managed path user group file_mode (_ordered_dump data) test s
  end.

(** The calls made one after the other: what each returns, and what is
    left of [fs]. *)
Fixpoint perform_all (calls : list file_call) (s : fs)
  : list state_return * fs :=
  match calls with
  | [] => ([], s)
  | c :: rest =>
      let (r, s) := perform c s in
      let (rs, s) := perform_all rest s in
      (r :: rs, s)
  end.

(** One call, on the journal and on [fs]. *)
Definition step (acc : journal * fs) (c : file_call) : journal * fs :=
  let (j, s) := acc in
  let (r, s) := perform c s in
  (note (call_path c) r j, s).

End FileCalls.

(** The journal after the calls [crs] and what they returned. *)
Definition noted (crs : list (file_call * state_return)) (j : journal)
  : journal :=
  fold_left (fun j cr => note (call_path (fst cr)) (snd cr) j) crs j.

(** The changes a call reports for [path], if it is a call on [path]
    that reports any. *)
Definition reported (path : string) (cr : file_call * state_return)
  : option value :=
  if String.eqb path (call_path (fst cr)) && py_truthy (changes_of (snd cr))
  then Some (changes_of (snd cr))
  else None.

(* ================================================================== *)
(** ** The shared environment table, as the interfaces read it *)

(** The interface [iface] is bound to the subnet the table [envs] holds,
    for the zone [az_name], under the environment the entry [entry] of
    an [interfaces] list names. *)
Definition bound_by_table (envs : amap env_entry) (az_name : string)
           (entry iface : value) : Prop :=
  exists named az_ifaces declared subnet fields,
    interface_reference entry (VStr named) az_ifaces /\
    dict_get named envs = Some declared /\
    dict_get az_name (subnets declared) = Some subnet /\
    iface = VDict fields /\
    dict_get "SubnetId" fields = Some subnet.

(* ================================================================== *)
(** ** Pillar data to run the module on *)

(** A generator to run the examples with: the state is a counter, the
    seed of a string its length, and a choice the counter modulo the
    length of the sequence. *)
Definition ex_seed (s : string) : nat := String.length s.
Definition ex_choice (g n : nat) : nat * nat := (g mod n, S g).
Definition ex_world : world nat := mk_world [] 0.

Definition ex_defaults : value :=
  VDict [("providers", VDict [("ssh_username", VStr "ubuntu")]);
         ("profiles", VDict [("sync_after_install", VStr "all")]);
         ("mappings", VDict [("minion", VDict [("master", VStr "salt")])])].

(** One provider with three zones in the environment [test]. *)
Definition ex_provider (sizes images security_groups : dict) : value :=
  VDict [("id", VStr "key-id");
         ("subnets",
          VDict [("test", VList [VDict [("A", VStr "sn-a")];
                                 VDict [("B", VStr "sn-b")];
                                 VDict [("C", VStr "sn-c")]])]);
         ("images", VDict images);
         ("sizes", VDict sizes);
         ("volumes",
          VDict [("db", VList [VDict [("size", VInt 100);
                                      ("device", VStr "/dev/xvdf");
                                      ("type", VStr "gp3")]])]);
         ("security_groups", VDict security_groups);
         ("default_servers", VInt 5)].

Definition ex_providers : value :=
  VDict [("p1", ex_provider [("default", VStr "t2.micro")]
                            [("default", VStr "ami-1")]
                            [("common", VStr "sg-c"); ("web", VStr "sg-w")])].

Definition ex_servers : value :=
  VDict [("p1",
          VDict [("test",
                  VList [VStr "web";
                         VDict [("db", VDict [("servers", VInt 1)])]])])].

(** No provider declares an image: the role [web] is incomplete. *)
Definition ex_providers_no_image : value :=
  VDict [("p1", ex_provider [("default", VStr "t2.micro")] []
                            [("common", VStr "sg-c")])].

(** No provider declares a common security group. *)
Definition ex_providers_no_common : value :=
  VDict [("p1", ex_provider [("default", VStr "t2.micro")]
                            [("default", VStr "ami-1")]
                            [("web", VStr "sg-w")])].

(** A second provider, which declares another size for [web] and no
    environment of its own. *)
Definition ex_other_provider : value :=
  VDict [("subnets", VDict []);
         ("images", VDict []);
         ("sizes", VDict [("web", VStr "c4.2xlarge")]);
         ("volumes", VDict []);
         ("security_groups", VDict []);
         ("default_servers", VInt 1)].

Definition ex_two_providers : value :=
  VDict [("p1", ex_provider [("default", VStr "t2.micro");
                             ("web", VStr "t2.medium")]
                            [("default", VStr "ami-1")]
                            [("common", VStr "sg-c")]);
         ("p2", ex_other_provider)].

Definition ex_one_provider : value :=
  VDict [("p1", ex_provider [("default", VStr "t2.micro");
                             ("web", VStr "t2.medium")]
                            [("default", VStr "ami-1")]
                            [("common", VStr "sg-c")])].

Definition ex_servers_web : value :=
  VDict [("p1", VDict [("test", VList [VStr "web"])])].

(** The size of the profile [name] of the environment [test]. *)
Definition ex_size_of (name : string) (o : outcome (trees * value * world nat))
  : option value :=
  match o with
  | Ok (out, _, _) =>
      match dict_get "test" (out_profiles out) with
      | Some of_env =>
          match dict_get name of_env with
          | Some profile => dict_get "size" profile
          | None => None
          end
      | None => None
      end
  | _ => None
  end.

(** The role table and the defaults the resolver is run with below. *)
Definition ex_role_defaults : dict :=
  [("size", VStr "t2.micro"); ("image", VStr "ami-1")].

Definition ex_role_table : amap dict :=
  [("default", ex_role_defaults);
   ("common", [("security_groups", VStr "sg-c")]);
   ("web", [("security_groups", VList [VStr "sg-c"; VStr "sg-w"])])].

(** A volume whose caller tagged it with an Environment of its own. *)
Definition ex_db_entry : value :=
  VDict [("db",
          VDict [("volumes",
                  VList [VDict [("size", VInt 100);
                                ("type", VStr "gp3");
                                ("tags",
                                 VDict [("Environment", VStr "mine");
                                        ("Owner", VStr "dba")])]])])].

(** The table entry of [test], a working profile of the role [web], and
    the loop over the zones on them. *)
Definition ex_envs : amap env_entry :=
  [("test", mk_env ["A"; "B"; "C"]
                   [("A", VStr "sn-a"); ("B", VStr "sn-b");
                    ("C", VStr "sn-c")])].

Definition ex_working : dict :=
  [("size", VStr "t2.micro"); ("image", VStr "ami-1");
   ("security_groups", VList [VStr "sg-c"]); ("provider", VStr "p1");
   ("tag", VDict [("Environment", VStr "test"); ("Role", VStr "web")])].

Definition ex_zone_loop : dict * amap (amap dict) * amap string :=
  Eval vm_compute in
    match ofold (expand_az ex_envs "p1" "test" (VStr "web")) ["A"; "B"; "C"]
                (ex_working, [], [])
    with
    | Ok r => r
    | _ => ([], [], [])
    end.

(** What the calls on these data give. *)
Definition ex_run : outcome (trees * value * world nat) :=
  consume_map ex_seed ex_choice ex_providers ex_servers ex_defaults ex_world.

Definition ex_result : trees * value * world nat :=
  Eval vm_compute in
    match ex_run with
    | Ok r => r
    | _ => (mk_trees [] [] [], VNone, ex_world)
    end.

Definition ex_tables : tables * world nat :=
  Eval vm_compute in
    match foldM (consume_provider ex_defaults)
                [("p1", ex_provider [("default", VStr "t2.micro")]
                                    [("default", VStr "ami-1")]
                                    [("common", VStr "sg-c");
                                     ("web", VStr "sg-w")])]
                (mk_tables [] [] [] []) ex_world
    with
    | Ok r => r
    | _ => (mk_tables [] [] [] [], ex_world)
    end.

Definition ex_db_resolved : produced * world nat :=
  Eval vm_compute in
    match _produce_profile ex_db_entry ex_role_defaults ex_role_table "test"
                           ex_world
    with
    | Ok r => r
    | _ => (Invalid, ex_world)
    end.

Definition ex_db_profile : dict :=
  match fst ex_db_resolved with
  | Produced profile _ => profile
  | Invalid => []
  end.

Definition ex_db_volumes : list value :=
  Eval vm_compute in
    match dict_get "volumes" ex_db_profile with
    | Some (VList vols) => vols
    | _ => []
    end.

Definition ex_web_resolved : produced * world nat :=
  Eval vm_compute in
    match _produce_profile (VStr "web") ex_role_defaults ex_role_table "test"
                           ex_world
    with
    | Ok r => r
    | _ => (Invalid, ex_world)
    end.

Definition ex_web_profile : dict :=
  match fst ex_web_resolved with
  | Produced profile _ => profile
  | Invalid => []
  end.


(* ================================================================== *)
(** ** More data: interfaces, a role on its way, and file states *)

Definition ex_interfaces : list value :=
  Eval vm_compute in
    match _add_interfaces [] (VList [VStr "test"]) ex_envs "A"
                          (VList [VStr "sg-c"])
    with
    | Ok r => r
    | _ => []
    end.

(** The role [web] through one turn of the loop over the roles. *)
Definition ex_role_run : amap (amap dict) * amap (amap dict) * world nat :=
  Eval vm_compute in
    match expand_role ex_seed ex_choice ex_envs ex_role_defaults
                      ex_role_table ex_defaults "p1" "test" (VInt 2)
                      ([], []) (VStr "web") ex_world
    with
    | Ok r => r
    | _ => ([], [], ex_world)
    end.

(** Servers asked of a provider nobody declares. *)
Definition ex_servers_elsewhere : value :=
  VDict [("p9", VDict [("test", VList [VStr "web"])])].

Definition ex_skipped : trees * value * world nat :=
  Eval vm_compute in
    match consume_map ex_seed ex_choice ex_providers ex_servers_elsewhere
                      ex_defaults ex_world
    with
    | Ok r => r
    | _ => (mk_trees [] [] [], VNone, ex_world)
    end.

(** An environment declared with no subnet at all. *)
Definition ex_envs_zoneless : amap env_entry := [("bare", mk_env [] [])].

Definition ex_web_bare : produced * world nat :=
  Eval vm_compute in
    match _produce_profile (VStr "web") ex_role_defaults ex_role_table "bare"
                           ex_world
    with
    | Ok r => r
    | _ => (Invalid, ex_world)
    end.

Definition ex_web_bare_profile : dict :=
  match fst ex_web_bare with
  | Produced profile _ => profile
  | Invalid => []
  end.

(** File states that keep the list of the calls made: a directory is
    reported as created, a file as unchanged. *)
Definition ex_file_directory (path : string)
           (user group dir_mode test : value) (s : list file_call)
  : state_return * list file_call :=
  (mk_return (VStr (String.append "Directory " path)) (VBool true)
             (VDict [(path, VStr "New Dir")]),
   s ++ [Directory path]).

Definition ex_file_managed (path : string) (user group mode : value)
           (contents : string) (test : value) (s : list file_call)
  : state_return * list file_call :=
  (mk_return (VStr "") (VBool true) (VDict []),
   s ++ [Managed path (VStr contents)]).

Definition ex_dump (data : value) : string :=
  match data with
  | VDict ((k, _) :: _) => String.append k ": ..."
  | _ => "{}"
  end.

Definition ex_pillar_get (key : value) : value :=
  match key with
  | VStr "servers" => ex_servers
  | VStr "providers" => ex_providers
  | VStr "defaults" => ex_defaults
  | _ => VNone
  end.

Definition ex_managed : outcome (dict * world nat) * list file_call :=
  Eval vm_compute in
    managed ex_seed ex_choice ex_pillar_get ex_file_directory
            ex_file_managed ex_dump
            (VStr "cloudfu") (VStr "/etc/salt") (VStr "servers")
            (VStr "providers") (VStr "defaults") (VStr "0600")
            (VStr "0700") (VStr "root") (VStr "root") (VBool false)
            ex_world [].

Definition ex_managed_ret : dict * world nat :=
  match fst ex_managed with
  | Ok r => r
  | _ => ([], ex_world)
  end.

(* ================================================================== *)
(** ** Two providers declaring one environment *)

(** [p1] declares [test] with two zones and [mgmt] with one; [p2],
    processed after it, declares [test] again, with one zone. *)
Definition ex_shared_p1 : value :=
  VDict [("subnets",
          VDict [("test", VList [VDict [("A", VStr "sn-1a")];
                                 VDict [("B", VStr "sn-1b")]]);
                 ("mgmt", VList [VDict [("A", VStr "sn-m")]])]);
         ("images", VDict [("default", VStr "ami-1")]);
         ("sizes", VDict [("default", VStr "t2.micro")]);
         ("volumes", VDict []);
         ("security_groups", VDict [("common", VStr "sg-c")]);
         ("default_servers", VInt 1)].

Definition ex_shared_p2 : value :=
  VDict [("subnets", VDict [("test", VList [VDict [("A", VStr "sn-2a")]])]);
         ("images", VDict []);
         ("sizes", VDict []);
         ("volumes", VDict []);
         ("security_groups", VDict []);
         ("default_servers", VInt 1)].

Definition ex_shared_items : list (string * value) :=
  [("p1", ex_shared_p1); ("p2", ex_shared_p2)].

Definition ex_shared_providers : value := VDict ex_shared_items.

(** The tables after the loop over these providers. *)
Definition ex_shared_tables : tables * world nat :=
  Eval vm_compute in
    match foldM (consume_provider ex_defaults) ex_shared_items
                (mk_tables [] [] [] []) ex_world
    with
    | Ok r => r
    | _ => (mk_tables [] [] [] [], ex_world)
    end.

(** A working profile with an interface in the environment [mgmt]. *)
Definition ex_working_gw : dict :=
  [("size", VStr "t2.micro"); ("image", VStr "ami-1");
   ("interfaces", VList [VStr "mgmt"]);
   ("security_groups", VList [VStr "sg-c"]); ("provider", VStr "p1");
   ("tag", VDict [("Environment", VStr "test"); ("Role", VStr "gw")])].

(** One turn of the loop over the zones of [test], for [p1]: the role
    [web], without interfaces, and the role [gw]. *)
Definition ex_shared_web : dict * amap (amap dict) * amap string :=
  Eval vm_compute in
    match expand_az (environments (fst ex_shared_tables)) "p1" "test"
                    (VStr "web") (ex_working, [], []) "A"
    with
    | Ok r => r
    | _ => ([], [], [])
    end.

Definition ex_shared_gw : dict * amap (amap dict) * amap string :=
  Eval vm_compute in
    match expand_az (environments (fst ex_shared_tables)) "p1" "test"
                    (VStr "gw") (ex_working_gw, [], []) "A"
    with
    | Ok r => r
    | _ => ([], [], [])
    end.

(** Servers for [p2] in [test]: the role [gw], with an interface in
    [mgmt]. *)
Definition ex_servers_gw : value :=
  VDict [("p2",
          VDict [("test",
                  VList [VDict [("gw",
                                 VDict [("interfaces",
                                         VList [VStr "mgmt"])])]])])].

Definition ex_shared_result : trees * value * world nat :=
  Eval vm_compute in
    match consume_map ex_seed ex_choice ex_shared_providers ex_servers_gw
                      ex_defaults ex_world
    with
    | Ok r => r
    | _ => (mk_trees [] [] [], VNone, ex_world)
    end.

(* ================================================================== *)
(** ** A role listed twice, and a role with a percent sign *)





(* ================================================================== *)
(** ** The loop over the servers of [p1], entry by entry *)









(* ================================================================== *)
(** * Properties *)

(** ** Dictionaries *)

Section DictionaryFacts.
Context {V : Type}.
Implicit Types (d e : amap V) (k : string) (v : V).

Lemma dict_get_set_same k v d : dict_get k (dict_set k v d) = Some v.
Proof.
  induction d as [|[k' v'] d IH]; simpl.
  - now rewrite String.eqb_refl.
  - destruct (String.eqb k k') eqn:E; simpl.
    + now rewrite String.eqb_refl.
    + now rewrite E.
Qed.

Lemma dict_get_set_other k k' v d :
  k <> k' -> dict_get k (dict_set k' v d) = dict_get k d.
Proof.
  intros Hne.
  assert (Hkk : String.eqb k k' = false) by now apply String.eqb_neq.
  induction d as [|[k2 v2] d IH]; simpl.
  - now rewrite Hkk.
  - destruct (String.eqb k' k2) eqn:E; simpl.
    + apply String.eqb_eq in E; subst k2. now rewrite Hkk.
    + now rewrite IH.
Qed.

Lemma dict_get_del_same k d : dict_get k (dict_del k d) = None.
Proof.
  induction d as [|[k' v'] d IH]; simpl; auto.
  destruct (String.eqb k k') eqn:E; simpl; auto.
  now rewrite E.
Qed.

Lemma dict_get_del_other k k' d :
  k <> k' -> dict_get k (dict_del k' d) = dict_get k d.
Proof.
  intros Hne.
  assert (Hkk : String.eqb k k' = false) by now apply String.eqb_neq.
  induction d as [|[k2 v2] d IH]; simpl; auto.
  destruct (String.eqb k' k2) eqn:E; simpl.
  - apply String.eqb_eq in E; subst k2. now rewrite Hkk.
  - now rewrite IH.
Qed.

Lemma dict_mem_get k d :
  dict_mem k d = true <-> exists v, dict_get k d = Some v.
Proof.
  unfold dict_mem. destruct (dict_get k d); split; eauto.
  - discriminate.
  - intros [v' Hv]; discriminate.
Qed.

Lemma dict_get_In k v d : dict_get k d = Some v -> In (k, v) d.
Proof.
  induction d as [|[k' v'] d IH]; simpl; [discriminate|].
  destruct (String.eqb k k') eqn:E.
  - apply String.eqb_eq in E; subst. intros [= ->]. now left.
  - auto.
Qed.

Lemma dict_get_None k d : dict_get k d = None <-> ~ In k (dict_keys d).
Proof.
  induction d as [|[k' v'] d IH]; simpl.
  - tauto.
  - destruct (String.eqb k k') eqn:E.
    + apply String.eqb_eq in E; subst. split; [discriminate|tauto].
    + apply String.eqb_neq in E. rewrite IH. split.
      * intros H [H1|H1]; [now subst | tauto].
      * tauto.
Qed.

Lemma dict_get_NoDup k v d :
  NoDup (dict_keys d) -> In (k, v) d -> dict_get k d = Some v.
Proof.
  induction d as [|[k' v'] d IH]; simpl; [tauto|].
  intros Hnd [Hin|Hin].
  - injection Hin as -> ->. now rewrite String.eqb_refl.
  - inversion Hnd as [|? ? Hnot Hnd']; subst.
    destruct (String.eqb k k') eqn:E.
    + apply String.eqb_eq in E; subst.
      exfalso. apply Hnot. apply (in_map fst) in Hin. exact Hin.
    + auto.
Qed.

(** [d.update(e)] looks a key up in [e] first; of two entries of [e]
    under one key the later wins. *)
Lemma dict_get_update k d e :
  dict_get k (dict_update d e) =
  match dict_get k (List.rev e) with
  | Some v => Some v
  | None => dict_get k d
  end.
Proof.
  unfold dict_update. revert d.
  induction e as [|[k' v'] e IH] using rev_ind; intros d; simpl; auto.
  rewrite fold_left_app, rev_app_distr. simpl.
  destruct (String.eqb k k') eqn:E.
  - apply String.eqb_eq in E; subst. apply dict_get_set_same.
  - apply String.eqb_neq in E. rewrite dict_get_set_other by assumption.
    apply IH.
Qed.

Lemma dict_get_rev k d :
  NoDup (dict_keys d) -> dict_get k (List.rev d) = dict_get k d.
Proof.
  intros Hnd. destruct (dict_get k d) as [v|] eqn:E.
  - apply dict_get_NoDup.
    + unfold dict_keys. rewrite map_rev. now apply NoDup_rev.
    + apply -> in_rev. now apply dict_get_In.
  - apply dict_get_None. apply dict_get_None in E.
    unfold dict_keys in *. rewrite map_rev. now rewrite <- in_rev.
Qed.

Lemma dict_keys_set k v d :
  dict_keys (dict_set k v d) =
  if dict_mem k d then dict_keys d else dict_keys d ++ [k].
Proof.
  unfold dict_mem.
  induction d as [|[k' v'] d IH]; simpl; auto.
  destruct (String.eqb k k') eqn:E; simpl.
  - apply String.eqb_eq in E. now subst.
  - rewrite IH. now destruct (dict_get k d).
Qed.

Lemma dict_set_fresh k v d :
  dict_get k d = None -> dict_set k v d = d ++ [(k, v)].
Proof.
  induction d as [|[k' v'] d IH]; simpl; auto.
  destruct (String.eqb k k'); [discriminate|].
  intros H. now rewrite IH.
Qed.

Lemma dict_set_NoDup k v d :
  NoDup (dict_keys d) -> NoDup (dict_keys (dict_set k v d)).
Proof.
  intros Hnd. rewrite dict_keys_set. unfold dict_mem.
  destruct (dict_get k d) eqn:E; auto.
  apply dict_get_None in E.
  apply NoDup_app; auto.
  - constructor; [simpl; tauto | constructor].
  - intros x Hx [<-|[]]. now apply E.
Qed.

End DictionaryFacts.

(** ** Equality of values *)

Section ValueInduction.
Variable P : value -> Prop.
Hypothesis HNone : P VNone.
Hypothesis HBool : forall b, P (VBool b).
Hypothesis HInt : forall z, P (VInt z).
Hypothesis HStr : forall s, P (VStr s).
Hypothesis HList : forall l, Forall P l -> P (VList l).
Hypothesis HDict : forall d, Forall (fun kv => P (snd kv)) d -> P (VDict d).

Fixpoint value_nested_ind (v : value) : P v :=
  match v with
  | VNone => HNone
  | VBool b => HBool b
  | VInt z => HInt z
  | VStr s => HStr s
  | VList l =>
      HList l ((fix all (l : list value) : Forall P l :=
                  match l with
                  | [] => Forall_nil P
                  | x :: l' =>
                      Forall_cons x (value_nested_ind x) (all l')
                  end) l)
  | VDict d =>
      HDict d ((fix all (d : list (string * value))
                 : Forall (fun kv => P (snd kv)) d :=
                  match d with
                  | [] => Forall_nil _
                  | kv :: d' =>
                      Forall_cons kv (value_nested_ind (snd kv)) (all d')
                  end) d)
  end.
End ValueInduction.

Lemma value_eqb_eq (a b : value) : value_eqb a b = true <-> a = b.
Proof.
  revert b. induction a as [| x | x | x | l IH | d IH] using value_nested_ind;
    intros b; destruct b as [| y | y | y | l' | d']; simpl;
    try (split; [discriminate | discriminate]);
    try tauto.
  - rewrite Bool.eqb_true_iff. split; congruence.
  - rewrite Z.eqb_eq. split; congruence.
  - rewrite String.eqb_eq. split; congruence.
  - revert l'. induction IH as [|x l Hx _ IHl]; intros [|y l']; simpl;
      try (split; [discriminate | discriminate]); try tauto.
    rewrite Bool.andb_true_iff, Hx, IHl. split.
    + intros [-> H]. now injection H as ->.
    + intros H. injection H as -> ->. auto.
  - revert d'. induction IH as [|[k x] d Hx _ IHd]; intros [|[k' y] d']; simpl;
      try (split; [discriminate | discriminate]); try tauto.
    simpl in Hx.
    rewrite !Bool.andb_true_iff, String.eqb_eq, Hx, IHd. split.
    + intros [[-> ->] H]. now injection H as ->.
    + intros H. injection H as -> -> ->. auto.
Qed.

Lemma value_eqb_refl (a : value) : value_eqb a a = true.
Proof. now apply value_eqb_eq. Qed.

Lemma occurrences_app (c : value) (l m : list value) :
  occurrences c (l ++ m) = occurrences c l + occurrences c m.
Proof. induction l as [|x l IH]; simpl; auto. rewrite IH. lia. Qed.

Lemma occurrences_zero (c : value) (l : list value) :
  occurrences c l = 0 <-> ~ In c l.
Proof.
  induction l as [|x l IH]; simpl; [tauto|].
  destruct (value_eqb c x) eqn:E.
  - apply value_eqb_eq in E. subst. split; [discriminate | tauto].
  - assert (x <> c).
    { intros ->. rewrite value_eqb_refl in E. discriminate. }
    simpl. rewrite IH. tauto.
Qed.

(** ** Outcomes and computations *)

Lemma obind_Ok {A B} (o : outcome A) (k : A -> outcome B) (b : B) :
  obind o k = Ok b -> exists a, o = Ok a /\ k a = Ok b.
Proof. destruct o; simpl; try discriminate. eauto. Qed.

Lemma bind_Ok {rng A B} (m : M rng A) (k : A -> M rng B) w b w' :
  bind m k w = Ok (b, w') ->
  exists a w1, m w = Ok (a, w1) /\ k a w1 = Ok (b, w').
Proof.
  unfold bind. destruct (m w) as [[a w1]| |]; try discriminate. eauto.
Qed.

Lemma lift_Ok {rng A} (o : outcome A) (w : world rng) a w' :
  lift o w = Ok (a, w') -> o = Ok a /\ w' = w.
Proof. unfold lift. destruct o; try discriminate. now intros [= -> ->]. Qed.

Lemma ret_Ok {rng A} (x : A) (w : world rng) a w' :
  ret x w = Ok (a, w') -> a = x /\ w' = w.
Proof. unfold ret. now intros [= -> ->]. Qed.

(** Take a successful run apart, one [bind] at a time. *)
Ltac run_inv H :=
  lazymatch type of H with
  | bind _ _ _ = Ok _ =>
      let a := fresh "a" in
      let w := fresh "w" in
      let H1 := fresh "Hrun" in
      apply bind_Ok in H; destruct H as (a & w & H1 & H);
      run_inv H1; run_inv H
  | lift _ _ = Ok _ =>
      let E := fresh "Ew" in
      apply lift_Ok in H; destruct H as [H E]; subst
  | ret _ _ = Ok _ =>
      let E := fresh "Ew" in
      apply ret_Ok in H; destruct H as [H E]; subst
  | obind _ _ = Ok _ =>
      let a := fresh "a" in
      let H1 := fresh "Hrun" in
      apply obind_Ok in H; destruct H as (a & H1 & H);
      run_inv H1; run_inv H
  | (match ?x with (_, _) => _ end) _ = Ok _ => destruct x; run_inv H
  | (let (_, _) := ?x in _) = Ok _ => destruct x; run_inv H
  | _ => idtac
  end.

(* ================================================================== *)
(** ** The Role Resolver *)

Lemma omap_Forall2 {A B} (f : A -> outcome B) (R : A -> B -> Prop) :
  (forall x y, f x = Ok y -> R x y) ->
  forall l l', omap f l = Ok l' -> Forall2 R l l'.
Proof.
  intros Hf. induction l as [|x l IH]; simpl; intros l' H.
  - injection H as <-. constructor.
  - run_inv H. injection H as <-. constructor; auto.
Qed.

Lemma tag_volume_tagged environment stname before after :
  tag_volume environment stname before = Ok after ->
  tagged_volume environment stname before after.
Proof.
  unfold tag_volume. destruct before as [| | | | |fields0]; try discriminate.
  intros H. run_inv H. injection H as <-.
  set (fields1 := if dict_mem "tags" fields0 then fields0
                  else dict_set "tags" (VDict []) fields0) in *.
  unfold py_getitem in Hrun.
  destruct (dict_get "tags" fields1) as [t|] eqn:Et; [|discriminate].
  injection Hrun as ->.
  destruct a as [| | | | |tags0]; try discriminate.
  injection Hrun0 as <-.
  assert (Htype : dict_get "type" fields1 = dict_get "type" fields0).
  { unfold fields1. destruct (dict_mem "tags" fields0); auto.
    apply dict_get_set_other. discriminate. }
  assert (Htags0 : tags0 = tags_of fields0).
  { unfold tags_of, fields1 in *. unfold dict_mem in Et.
    destruct (dict_get "tags" fields0) as [t|] eqn:E0.
    - rewrite E0 in Et. now injection Et as ->.
    - rewrite dict_get_set_same in Et. now injection Et as <-. }
  set (tags1 := dict_update tags0 (default_vol_tags environment stname)).
  change (dict_set "Service" (VStr "ebs")
            (dict_set "Role" stname
               (dict_set "Environment" (VStr environment) tags0)))
    with tags1.
  assert (Hdef : forall k, dict_get k tags1 =
            if String.eqb k "Service" then Some (VStr "ebs")
            else if String.eqb k "Role" then Some stname
            else if String.eqb k "Environment" then Some (VStr environment)
            else dict_get k tags0).
  { intros k. unfold tags1. rewrite dict_get_update. simpl.
    destruct (String.eqb k "Service"); auto.
    destruct (String.eqb k "Role"); auto.
    destruct (String.eqb k "Environment"); auto. }
  exists fields0, (dict_set "tags"
            (VDict match dict_get "type" fields1 with
                   | Some ty => dict_set "VolumeType" ty tags1
                   | None => tags1
                   end) fields1).
  eexists. split; [reflexivity|]. split; [reflexivity|].
  split.
  { intros k Hk. rewrite dict_get_set_other by assumption.
    unfold fields1. destruct (dict_mem "tags" fields0); auto.
    now apply dict_get_set_other. }
  split; [apply dict_get_set_same|].
  rewrite Htype.
  destruct (dict_get "type" fields0) as [ty|] eqn:Ety.
  - rewrite !dict_get_set_other by discriminate. rewrite !Hdef. simpl.
    repeat split; auto.
    + intros ty' [= <-]. apply dict_get_set_same.
    + intros k HE HR HS HV.
      assert (k <> "VolumeType") by (intros ->; now specialize (HV eq_refl)).
      rewrite dict_get_set_other by assumption. rewrite Hdef, <- Htags0.
      apply String.eqb_neq in HE, HR, HS. now rewrite HE, HR, HS.
  - rewrite !Hdef. simpl. repeat split; auto.
    + discriminate.
    + intros k HE HR HS _. rewrite Hdef, <- Htags0.
      apply String.eqb_neq in HE, HR, HS. now rewrite HE, HR, HS.
Qed.

(** Tagging touches the volumes only. *)
Lemma tag_profile_volumes_other environment stname profile tagged k :
  tag_profile_volumes environment stname profile = Ok tagged ->
  k <> "volumes" -> dict_get k tagged = dict_get k profile.
Proof.
  unfold tag_profile_volumes. intros H Hk.
  destruct (dict_get "volumes" profile); run_inv H; injection H as <-; auto.
  now apply dict_get_set_other.
Qed.

Lemma tag_profile_volumes_list environment stname profile tagged vols :
  tag_profile_volumes environment stname profile = Ok tagged ->
  dict_get "volumes" tagged = Some (VList vols) ->
  exists vols0, dict_get "volumes" profile = Some (VList vols0) /\
                Forall2 (tagged_volume environment stname) vols0 vols.
Proof.
  unfold tag_profile_volumes. intros H Hv.
  destruct (dict_get "volumes" profile) as [volumes|] eqn:E.
  - run_inv H. injection H as <-. rewrite dict_get_set_same in Hv.
    injection Hv as ->. unfold tag_volumes in Hrun.
    destruct volumes as [| | |s|l|d]; try discriminate.
    + destruct s; discriminate.
    + run_inv Hrun. injection Hrun as <-. exists l. split; auto.
      eapply omap_Forall2; [|eassumption].
      apply tag_volume_tagged.
    + destruct d; discriminate.
  - injection H as <-. congruence.
Qed.

(** The three steps on the security groups, together. *)
Lemma security_groups_steps tagged wrapped common_sec profile :
  wrap_security_groups (init_security_groups tagged) = Ok wrapped ->
  append_common common_sec wrapped = Ok profile ->
  exists c, common_sec = Some c /\
    dict_get "security_groups" profile
    = Some (VList (own_security_groups tagged ++ [c])) /\
    forall k, k <> "security_groups" ->
              dict_get k profile = dict_get k tagged.
Proof.
  unfold wrap_security_groups, append_common, init_security_groups,
    own_security_groups, py_getitem, dict_mem.
  intros Hw Ha.
  destruct (dict_get "security_groups" tagged) as [sg|] eqn:E.
  - rewrite E in Hw. simpl in Hw.
    assert (Hwrapped : dict_get "security_groups" wrapped
                       = Some (VList match sg with VList l => l | v => [v] end)
                       /\ forall k, k <> "security_groups" ->
                                    dict_get k wrapped = dict_get k tagged).
    { destruct sg; injection Hw as <-;
        try (split; [apply dict_get_set_same
                    | intros; now apply dict_get_set_other]).
      split; auto. }
    destruct Hwrapped as [Hsg Hother]. rewrite Hsg in Ha. simpl in Ha.
    destruct common_sec as [c|]; [|discriminate].
    injection Ha as <-. exists c. split; auto. split.
    + rewrite dict_get_set_same. now destruct sg.
    + intros k Hk. rewrite dict_get_set_other by assumption. auto.
  - rewrite dict_get_set_same in Hw. simpl in Hw. injection Hw as <-.
    rewrite dict_get_set_same in Ha. simpl in Ha.
    destruct common_sec as [c|]; [|discriminate].
    injection Ha as <-. exists c. split; auto. split.
    + now rewrite dict_get_set_same.
    + intros k Hk. now rewrite !dict_get_set_other by assumption.
Qed.

(** What a successful resolution went through. *)
Lemma _produce_profile_Produced {rng} (w w' : world rng) server_role defaults
      profile_defs environment profile stname :
  _produce_profile server_role defaults profile_defs environment w
  = Ok (Produced profile stname, w') ->
  exists overrides merged tagged c,
    role_and_overrides server_role = Ok (stname, overrides) /\
    layered_role server_role defaults profile_defs = Ok merged /\
    tag_profile_volumes environment stname merged = Ok tagged /\
    common_security_group profile_defs = Some c /\
    dict_get "security_groups" profile
    = Some (VList (own_security_groups tagged ++ [c])) /\
    forall k, k <> "security_groups" ->
              dict_get k profile = dict_get k tagged.
Proof.
  intros H. unfold _produce_profile in H. run_inv H.
  destruct (forallb _ req_parameters); [|run_inv H; discriminate].
  apply ret_Ok in H. destruct H as [[= <- <-] _].
  destruct (security_groups_steps _ _ _ _ Hrun4 Hrun5) as (c & Hc & Hsg & Hk).
  exists v0, a1, a2, c. repeat split; auto.
  unfold layered_role. rewrite Hrun. simpl. rewrite Hrun1. simpl. exact Hrun2.
Qed.

Lemma own_security_groups_tagged environment stname merged tagged :
  tag_profile_volumes environment stname merged = Ok tagged ->
  own_security_groups tagged = own_security_groups merged.
Proof.
  intros H. unfold own_security_groups.
  now rewrite (tag_profile_volumes_other _ _ _ _ "security_groups" H).
Qed.

(** The precedence of the three layers, for an entry [{name: overrides}]:
    the override, else the role table's attribute, else the default. *)
Lemma layered_role_lookup name overrides defaults profile_defs k :
  NoDup (dict_keys overrides) ->
  (forall d, dict_get name profile_defs = Some d -> NoDup (dict_keys d)) ->
  exists merged,
    layered_role (VDict [(name, VDict overrides)]) defaults profile_defs
    = Ok merged /\
    dict_get k merged =
    match dict_get k overrides with
    | Some v => Some v
    | None =>
        match dict_get name profile_defs with
        | Some d => match dict_get k d with
                    | Some v => Some v
                    | None => dict_get k defaults
                    end
        | None => dict_get k defaults
        end
    end.
Proof.
  intros Hov Hdef.
  exists (dict_update (overlay defaults (dict_get name profile_defs))
                      overrides).
  split; [reflexivity|].
  rewrite dict_get_update, dict_get_rev by assumption.
  destruct (dict_get k overrides); auto.
  unfold overlay. destruct (dict_get name profile_defs) as [d|]; auto.
  rewrite dict_get_update, dict_get_rev by auto.
  now destruct (dict_get k d).
Qed.

(** The same for a bare role name, which has no overrides. *)
Lemma layered_role_lookup_bare name defaults profile_defs k :
  (forall d, dict_get name profile_defs = Some d -> NoDup (dict_keys d)) ->
  exists merged,
    layered_role (VStr name) defaults profile_defs = Ok merged /\
    dict_get k merged =
    match dict_get name profile_defs with
    | Some d => match dict_get k d with
                | Some v => Some v
                | None => dict_get k defaults
                end
    | None => dict_get k defaults
    end.
Proof.
  intros Hdef.
  exists (overlay defaults (dict_get name profile_defs)).
  split; [reflexivity|].
  unfold overlay.
  destruct (dict_get name profile_defs) as [d|]; auto.
  rewrite dict_get_update, dict_get_rev by auto.
  now destruct (dict_get k d).
Qed.

(** C5 (amended).  Every volume of a resolved role carries, after
    resolution, the tags Environment (the environment name), Role (the
    role name) and Service "ebs": [update] writes them over whatever the
    caller supplied under these three keys; the caller's tags under other
    keys are kept; VolumeType is set to the volume's type whenever the
    volume has one.  Nothing else of the volume changes. *)
Theorem volumes_tagged_by_resolution {rng} (w w' : world rng) server_role
        defaults profile_defs environment profile stname vols :
  _produce_profile server_role defaults profile_defs environment w
  = Ok (Produced profile stname, w') ->
  dict_get "volumes" profile = Some (VList vols) ->
  exists merged vols0,
    layered_role server_role defaults profile_defs = Ok merged /\
    dict_get "volumes" merged = Some (VList vols0) /\
    Forall2 (tagged_volume environment stname) vols0 vols.
Proof.
  intros H Hv.
  destruct (_produce_profile_Produced _ _ _ _ _ _ _ _ H)
    as (ov & merged & tagged & c & _ & Hm & Ht & _ & _ & Hk).
  rewrite Hk in Hv by discriminate.
  destruct (tag_profile_volumes_list _ _ _ _ _ Ht Hv) as (vols0 & H0 & HF).
  exists merged, vols0. auto.
Qed.

(** C6 (amended).  When the role table holds a common security group,
    the security groups of every resolved role are the role's own groups
    (none if absent, wrapped in a list if not one) followed by the common
    id, appended after all overrides as the final element.  The id is in
    the list exactly once if and only if the role's own groups do not
    hold it already. *)
Theorem common_group_appended_last {rng} (w w' : world rng) server_role
        defaults profile_defs environment profile stname c :
  common_security_group profile_defs = Some c ->
  _produce_profile server_role defaults profile_defs environment w
  = Ok (Produced profile stname, w') ->
  exists merged,
    layered_role server_role defaults profile_defs = Ok merged /\
    dict_get "security_groups" profile
    = Some (VList (own_security_groups merged ++ [c])) /\
    (occurrences c (own_security_groups merged ++ [c]) = 1
     <-> ~ In c (own_security_groups merged)).
Proof.
  intros Hc H.
  destruct (_produce_profile_Produced _ _ _ _ _ _ _ _ H)
    as (ov & merged & tagged & c' & _ & Hm & Ht & Hc' & Hsg & _).
  assert (c' = c) by congruence. subst c'.
  rewrite (own_security_groups_tagged _ _ _ _ Ht) in Hsg.
  exists merged. repeat split; auto.
  - intros Hocc. apply occurrences_zero.
    rewrite occurrences_app in Hocc. simpl in Hocc.
    rewrite value_eqb_refl in Hocc. lia.
  - intros Hnot. apply occurrences_zero in Hnot.
    rewrite occurrences_app, Hnot. simpl. now rewrite value_eqb_refl.
Qed.

(* ================================================================== *)
(** ** The loop over the providers *)

(** A loop keeps what every turn keeps; [I] sees the items done. *)
Lemma foldM_invariant {rng A B} (f : B -> A -> M rng B)
      (I : list A -> B -> Prop) :
  (forall done x b b' w w',
      I done b -> f b x w = Ok (b', w') -> I (done ++ [x]) b') ->
  forall l done b b' w w',
    I done b -> foldM f l b w = Ok (b', w') -> I (done ++ l) b'.
Proof.
  intros Hstep. induction l as [|x l IH]; simpl; intros done b b' w w' HI H.
  - apply ret_Ok in H. destruct H as [-> _]. now rewrite app_nil_r.
  - apply bind_Ok in H. destruct H as (b1 & w1 & Hx & H).
    replace (done ++ x :: l) with ((done ++ [x]) ++ l)
      by now rewrite <- app_assoc.
    eapply IH; [|exact H]. eapply Hstep; eassumption.
Qed.

Lemma foldM_app {rng A B} (f : B -> A -> M rng B) l1 l2 b w b' w' :
  foldM f (l1 ++ l2) b w = Ok (b', w') ->
  exists b1 w1, foldM f l1 b w = Ok (b1, w1) /\
                foldM f l2 b1 w1 = Ok (b', w').
Proof.
  revert b w. induction l1 as [|x l1 IH]; simpl; intros b w H.
  - exists b, w. split; auto.
  - apply bind_Ok in H. destruct H as (b1 & w1 & Hx & H).
    destruct (IH _ _ H) as (b2 & w2 & H1 & H2).
    exists b2, w2. split; auto. unfold bind. now rewrite Hx.
Qed.

Lemma ofold_invariant {A B} (f : B -> A -> outcome B) (I : B -> Prop) :
  (forall x b b', I b -> f b x = Ok b' -> I b') ->
  forall l b b', I b -> ofold f l b = Ok b' -> I b'.
Proof.
  intros Hstep. induction l as [|x l IH]; simpl; intros b b' HI H.
  - now injection H as <-.
  - run_inv H. eauto.
Qed.

Lemma grab_Ok field attr prov roles prov' roles' :
  grab field attr prov roles = Ok (prov', roles') ->
  exists per_role,
    dict_get field prov = Some (VDict per_role) /\
    prov' = dict_del field prov /\
    roles' = fold_left (fun roles kv =>
                          update_server roles (fst kv) [(attr, snd kv)])
                       per_role roles.
Proof.
  unfold grab, py_getitem. intros H. run_inv H.
  destruct (dict_get field prov) as [v|]; [|discriminate].
  injection Hrun as <-. destruct v; try discriminate.
  injection Hrun0 as <-. injection H as <- <-. eauto.
Qed.

(** What one turn of the loop over the providers does to the tables. *)
Lemma consume_provider_Ok {rng} cloud_defaults t provider_name prov
      (w w' : world rng) t' :
  consume_provider cloud_defaults t (provider_name, prov) w = Ok (t', w') ->
  exists fields declared provider,
    prov = VDict fields /\
    dict_get "subnets" fields = Some (VDict declared) /\
    ofold declare_environment declared (environments t)
    = Ok (environments t') /\
    providers t'
    = dict_set provider_name
               (dict_update provider
                  match consumed_provider prov with
                  | VDict f => f
                  | _ => []
                  end)
               (providers t) /\
    caller_providers t'
    = dict_set provider_name (consumed_provider prov) (caller_providers t).
Proof.
  unfold consume_provider. intros H. run_inv H.
  unfold py_getitem in Hrun1.
  destruct prov as [| | | | |fields]; try discriminate.
  destruct (dict_get "subnets" fields) as [v|] eqn:Es; [|discriminate].
  injection Hrun1 as <-. destruct v; try discriminate.
  injection Hrun2 as <-. run_inv H.
  apply grab_Ok in Hrun1, Hrun2, Hrun5, Hrun6.
  destruct Hrun1 as (? & _ & -> & _), Hrun2 as (? & _ & -> & _),
    Hrun5 as (? & _ & -> & _), Hrun6 as (? & _ & -> & _).
  simpl. exists fields, d, a0. repeat split; auto.
Qed.

Lemma dict_set_middle {V} (k : string) (v v' : V) (pre post : amap V) :
  ~ In k (dict_keys pre) ->
  dict_set k v' (pre ++ (k, v) :: post) = pre ++ (k, v') :: post.
Proof.
  induction pre as [|[k0 v0] pre IH]; simpl; intros Hk.
  - now rewrite String.eqb_refl.
  - destruct (String.eqb k k0) eqn:E.
    + apply String.eqb_eq in E. subst. tauto.
    + rewrite IH; tauto.
Qed.

Lemma consume_provider_caller {rng} cloud_defaults l :
  forall done t t' (w w' : world rng),
    NoDup (dict_keys (done ++ l)) ->
    caller_providers t
    = map (fun kv => (fst kv, consumed_provider (snd kv))) done ++ l ->
    foldM (consume_provider cloud_defaults) l t w = Ok (t', w') ->
    caller_providers t'
    = map (fun kv => (fst kv, consumed_provider (snd kv))) (done ++ l).
Proof.
  induction l as [|[k v] l IH]; simpl; intros done t t' w w' Hnd Ht H.
  - apply ret_Ok in H. destruct H as [-> _]. now rewrite app_nil_r in *.
  - apply bind_Ok in H. destruct H as (t1 & w1 & Hx & H).
    destruct (consume_provider_Ok _ _ _ _ _ _ _ Hx)
      as (fields & declared & provider & _ & _ & _ & _ & Hc).
    replace (done ++ (k, v) :: l) with ((done ++ [(k, v)]) ++ l) in *
      by now rewrite <- app_assoc.
    eapply IH; [exact Hnd| |exact H].
    rewrite Hc, Ht, dict_set_middle.
    + rewrite map_app, <- app_assoc. reflexivity.
    + unfold dict_keys in *. rewrite map_map. simpl.
      rewrite !map_app in Hnd. simpl in Hnd.
      rewrite <- app_assoc in Hnd. simpl in Hnd.
      apply NoDup_remove_2 in Hnd. intros Hin. apply Hnd.
      apply in_or_app. now left.
Qed.

Section Consumption.
Context {rng : Type} (rng_seed : string -> rng)
        (rng_choice : rng -> nat -> nat * rng).

(** The pieces of a successful [consume_map]. *)
Lemma consume_map_Ok in_providers in_servers cloud_defaults
      (w w' : world rng) out after :
  consume_map rng_seed rng_choice in_providers in_servers cloud_defaults w
  = Ok (out, after, w') ->
  exists declared roles t role_defaults wanted w1,
    in_providers = VDict declared /\
    in_servers = VDict wanted /\
    foldM (consume_provider cloud_defaults) declared
          (mk_tables [] roles [] declared) w = Ok (t, w1) /\
    dict_get "default" (server_roles t) = Some role_defaults /\
    foldM (expand_provider rng_seed rng_choice t role_defaults
                           cloud_defaults)
          wanted (mk_trees (providers t) [] []) w1 = Ok (out, w') /\
    after = VDict (caller_providers t).
Proof.
  unfold consume_map. intros H. run_inv H.
  destruct in_providers; try discriminate. injection Hrun1 as <-.
  destruct in_servers; try discriminate. injection Hrun4 as <-.
  destruct (dict_get "default" (server_roles a2)) eqn:E; [|discriminate].
  injection Hrun3 as <-. injection H as -> ->.
  do 6 eexists. split; [reflexivity|]. split; [reflexivity|].
  split; [eassumption|]. split; [eassumption|].
  split; [eassumption|reflexivity].
Qed.

Lemma expand_provider_providers t role_defaults cloud_defaults acc pname
      provider (w w' : world rng) acc' :
  expand_provider rng_seed rng_choice t role_defaults cloud_defaults acc
                  (pname, provider) w = Ok (acc', w') ->
  out_providers acc' =
  match dict_get pname (out_providers acc) with
  | None => out_providers acc
  | Some conf =>
      dict_set pname (dict_del "default_servers" conf) (out_providers acc)
  end.
Proof.
  unfold expand_provider. intros H.
  destruct (dict_get pname (out_providers acc)) as [conf|].
  - run_inv H. reflexivity.
  - run_inv H. reflexivity.
Qed.

(** Where [default_servers] is read it is consumed: for every provider
    name of the servers tree that is present in the provider output tree,
    the key is absent from that provider's output entry. *)
Lemma default_servers_consumed in_providers wanted cloud_defaults
        (w w' : world rng) out after pname conf :
  consume_map rng_seed rng_choice in_providers (VDict wanted)
              cloud_defaults w = Ok (out, after, w') ->
  In pname (dict_keys wanted) ->
  dict_get pname (out_providers out) = Some conf ->
  dict_get "default_servers" conf = None.
Proof.
  intros H Hin Hconf.
  destruct (consume_map_Ok _ _ _ _ _ _ _ H)
    as (declared & roles & t & rd & wanted' & w1 & _ & [= <-] & _ & _
        & Hloop & _).
  revert pname conf Hin Hconf.
  change (dict_keys wanted) with (dict_keys ([] ++ wanted)).
  eapply (foldM_invariant _
            (fun done acc => forall q c,
                 In q (dict_keys done) ->
                 dict_get q (out_providers acc) = Some c ->
                 dict_get "default_servers" c = None));
    [| |exact Hloop].
  - intros done [q provider] b b' w2 w3 IH Hstep q' c Hq Hc.
    apply expand_provider_providers in Hstep. rewrite Hstep in Hc.
    destruct (String.eqb q' q) eqn:E.
    + apply String.eqb_eq in E. subst q'.
      destruct (dict_get q (out_providers b)) as [conf0|] eqn:E0.
      * rewrite dict_get_set_same in Hc. injection Hc as <-.
        apply dict_get_del_same.
      * congruence.
    + apply String.eqb_neq in E.
      assert (Hold : dict_get q' (out_providers b) = Some c).
      { destruct (dict_get q (out_providers b)); auto.
        now rewrite dict_get_set_other in Hc. }
      apply (IH q' c); auto.
      unfold dict_keys in *. rewrite map_app in Hq.
      apply in_app_or in Hq. destruct Hq as [Hq|[Hq|[]]]; auto.
      simpl in Hq. congruence.
  - intros q c [].
Qed.

(** [consume_map] consumes the caller's provider tree in place: when it
    returns, every provider entry of that tree has lost its subnets,
    sizes, images, volumes and security_groups, and keeps its other
    fields with their values; the entries stay in their places. *)
Theorem providers_tree_consumed declared in_servers cloud_defaults
        (w w' : world rng) out after :
  NoDup (dict_keys declared) ->
  consume_map rng_seed rng_choice (VDict declared) in_servers
              cloud_defaults w = Ok (out, after, w') ->
  after = VDict (map (fun kv => (fst kv, consumed_provider (snd kv)))
                     declared).
Proof.
  intros Hnd H.
  destruct (consume_map_Ok _ _ _ _ _ _ _ H)
    as (declared' & roles & t & rd & wanted & w1 & [= <-] & _ & Hloop & _
        & _ & ->).
  f_equal.
  eapply (consume_provider_caller cloud_defaults declared []);
    [exact Hnd| |exact Hloop].
  reflexivity.
Qed.

End Consumption.

(* ================================================================== *)
(** ** The tables shared by the providers *)

Lemma ofold_app {A B} (f : B -> A -> outcome B) l1 l2 b :
  ofold f (l1 ++ l2) b = obind (ofold f l1 b) (ofold f l2).
Proof.
  revert b. induction l1 as [|x l1 IH]; simpl; intros b; auto.
  destruct (f b x); simpl; auto.
Qed.

Lemma dict_last_snoc {V} (k k' : string) (v : V) (d : amap V) :
  dict_last k (d ++ [(k', v)]) =
  if String.eqb k k' then Some v else dict_last k d.
Proof. unfold dict_last. now rewrite rev_app_distr. Qed.

Lemma last_declared_snoc {A V} (declares : A -> option V) items item :
  last_declared declares (items ++ [item]) =
  match declares item with
  | Some v => Some v
  | None => last_declared declares items
  end.
Proof. unfold last_declared. now rewrite fold_left_app. Qed.

(** A loop whose every turn leaves under an observation what the item
    declares, or else what was there, ends with the declaration of the
    last item that declares something. *)
Lemma foldM_last_declared {rng A B V} (f : B -> A -> M rng B)
      (observe : B -> option V) (declares : A -> option V) :
  (forall b x b' w w',
      f b x w = Ok (b', w') ->
      observe b' = match declares x with
                   | Some v => Some v
                   | None => observe b
                   end) ->
  forall items b b' w w',
    foldM f items b w = Ok (b', w') ->
    observe b' = match last_declared declares items with
                 | Some v => Some v
                 | None => observe b
                 end.
Proof.
  intros Hstep items. induction items as [|x items IH] using rev_ind;
    intros b b' w w' H.
  - apply ret_Ok in H. now destruct H as [-> _].
  - apply foldM_app in H. destruct H as (b1 & w1 & H1 & H2).
    simpl in H2. apply bind_Ok in H2. destruct H2 as (b2 & w2 & Hx & H2).
    apply ret_Ok in H2. destruct H2 as [-> _].
    rewrite last_declared_snoc, (Hstep _ _ _ _ _ Hx).
    destruct (declares x); auto. eapply IH; eassumption.
Qed.

Lemma declare_environment_last declared :
  forall envs envs' env,
    ofold declare_environment declared envs = Ok envs' ->
    match dict_last env declared with
    | Some subnets =>
        exists entry, build_environment subnets = Ok entry /\
                      dict_get env envs' = Some entry
    | None => dict_get env envs' = dict_get env envs
    end.
Proof.
  induction declared as [|[k subs] declared IH] using rev_ind;
    intros envs envs' env H.
  - simpl in H. now injection H as <-.
  - rewrite ofold_app in H. apply obind_Ok in H.
    destruct H as (envs1 & H1 & H2). simpl in H2.
    apply obind_Ok in H2. destruct H2 as (envs2 & H2 & [= <-]).
    apply obind_Ok in H2. destruct H2 as (entry & Hb & [= <-]).
    rewrite dict_last_snoc.
    destruct (String.eqb env k) eqn:E.
    + apply String.eqb_eq in E. subst k.
      exists entry. now rewrite dict_get_set_same.
    + apply String.eqb_neq in E. rewrite dict_get_set_other by assumption.
      now apply IH.
Qed.

Lemma consume_provider_environment {rng} cloud_defaults t item
      (w w' : world rng) t' env :
  consume_provider cloud_defaults t item w = Ok (t', w') ->
  dict_get env (environments t') =
  match env_declared_by env item with
  | Some entry => Some entry
  | None => dict_get env (environments t)
  end.
Proof.
  destruct item as [pn prov]. intros H.
  destruct (consume_provider_Ok _ _ _ _ _ _ _ H)
    as (fields & declared & provider & -> & Hs & Henv & _).
  apply (declare_environment_last _ _ _ env) in Henv.
  unfold env_declared_by. simpl. rewrite Hs.
  destruct (dict_last env declared) as [subs|]; auto.
  destruct Henv as (entry & -> & ->). reflexivity.
Qed.

Lemma update_server_attr roles role attr v role' attr' :
  role_attr (update_server roles role [(attr, v)]) role' attr' =
  if String.eqb role' role && String.eqb attr' attr then Some v
  else role_attr roles role' attr'.
Proof.
  unfold update_server, role_attr, dict_mem.
  destruct (String.eqb role' role) eqn:Er; simpl.
  - apply String.eqb_eq in Er. subst role'.
    destruct (dict_get role roles) as [d|] eqn:E.
    + rewrite E, dict_get_set_same. unfold dict_update. simpl.
      destruct (String.eqb attr' attr) eqn:Ea.
      * apply String.eqb_eq in Ea. subst. apply dict_get_set_same.
      * apply String.eqb_neq in Ea. now apply dict_get_set_other.
    + rewrite !dict_get_set_same. unfold dict_update. simpl.
      now destruct (String.eqb attr' attr).
  - apply String.eqb_neq in Er.
    destruct (dict_get role roles) as [d|] eqn:E.
    + rewrite E. now rewrite dict_get_set_other.
    + rewrite dict_get_set_same. now rewrite !dict_get_set_other.
Qed.

Lemma grab_attr attr per_role :
  forall roles role attr',
    role_attr (fold_left (fun roles kv =>
                            update_server roles (fst kv) [(attr, snd kv)])
                         per_role roles) role attr' =
    if String.eqb attr' attr then
      match dict_last role per_role with
      | Some v => Some v
      | None => role_attr roles role attr'
      end
    else role_attr roles role attr'.
Proof.
  induction per_role as [|[k v] per_role IH] using rev_ind;
    intros roles role attr'.
  - simpl. now destruct (String.eqb attr' attr).
  - rewrite fold_left_app, dict_last_snoc. simpl.
    rewrite update_server_attr, IH.
    destruct (String.eqb role k), (String.eqb attr' attr); auto.
Qed.

(** What one turn of the loop over the providers does to the role
    table. *)
Lemma consume_provider_roles {rng} cloud_defaults t item (w w' : world rng)
      t' field attr role :
  consume_provider cloud_defaults t item w = Ok (t', w') ->
  In (field, attr) role_fields ->
  role_attr (server_roles t') role attr =
  match attr_declared_by field role item with
  | Some v => Some v
  | None => role_attr (server_roles t) role attr
  end.
Proof.
  destruct item as [pn prov]. unfold consume_provider. intros H Hin.
  run_inv H. destruct prov as [| | | | |fields]; try discriminate.
  run_inv H.
  apply grab_Ok in Hrun5, Hrun6, Hrun7, Hrun8.
  destruct Hrun5 as (sizes & Hs & -> & ->), Hrun6 as (images & Hi & -> & ->),
    Hrun7 as (vols & Hv & -> & ->), Hrun8 as (sgs & Hg & -> & ->).
  repeat rewrite dict_get_del_other in Hs by discriminate.
  repeat rewrite dict_get_del_other in Hi by discriminate.
  repeat rewrite dict_get_del_other in Hv by discriminate.
  repeat rewrite dict_get_del_other in Hg by discriminate.
  unfold attr_declared_by. simpl.
  destruct Hin as [[= <- <-]|[[= <- <-]|[[= <- <-]|[[= <- <-]|[]]]]];
    rewrite ?Hs, ?Hi, ?Hv, ?Hg, !grab_attr; simpl;
    repeat match goal with
           | |- context [dict_last role ?d] => destruct (dict_last role d)
           end; reflexivity.
Qed.

(* ================================================================== *)
(** ** The Profile Synthesizer *)

Lemma dict_get_del_if {V} (k k' : string) (d : amap V) :
  k <> k' ->
  dict_get k (if dict_mem k' d then dict_del k' d else d) = dict_get k d.
Proof.
  intros Hk. destruct (dict_mem k' d); auto. now apply dict_get_del_other.
Qed.

(** One turn of the loop over the availability zones, for a role without
    [interfaces]: the profile emitted under the zone's name carries one
    interface, bound to the subnet the table has for the zone. *)
Lemma expand_az_default envs pname ename role profile profiles map_profiles
      az_name acc' entry :
  dict_get ename envs = Some entry ->
  dict_mem "interfaces" profile = false ->
  expand_az envs pname ename role (profile, profiles, map_profiles) az_name
  = Ok acc' ->
  exists subnet sgs name of_env finished,
    dict_get az_name (subnets entry) = Some subnet /\
    dict_get ename (snd (fst acc')) = Some of_env /\
    dict_get name of_env = Some finished /\
    dict_get az_name (snd acc') = Some name /\
    dict_get "network_interfaces" finished
    = Some (VList [VDict (_get_network_interface 0 subnet sgs)]).
Proof.
  intros He Hi H. unfold expand_az in H. rewrite Hi in H.
  unfold env_subnet in H. simpl in H. rewrite He in H. simpl in H.
  destruct (dict_get az_name (subnets entry)) as [subnet|]; [|discriminate].
  simpl in H. apply obind_Ok in H. destruct H as (p1 & H1 & H).
  apply obind_Ok in H1. destruct H1 as (sgs & _ & [= <-]).
  apply obind_Ok in H. destruct H as (role_s & _ & H).
  match type of H with
  | match dict_get ename ?P with _ => _ end = _ =>
      destruct (dict_get ename P) as [of_env|] eqn:E; [|discriminate]
  end.
  injection H as <-. simpl.
  exists subnet, sgs. do 3 eexists.
  split; [reflexivity|]. split; [apply dict_get_set_same|].
  split; [apply dict_get_set_same|]. split; [apply dict_get_set_same|].
  rewrite !dict_get_del_if by discriminate.
  rewrite dict_get_del_other by discriminate.
  apply dict_get_set_same.
Qed.

Section RoleExpansion.
Context {rng : Type} (rng_seed : string -> rng)
        (rng_choice : rng -> nat -> nat * rng).

(** What the expansion of one entry of the server list went through:
    the resolution of the role, the loop over the availability zones of
    the environment, and the distribution of the host names. *)
Lemma expand_role_Ok envs role_defaults roles cloud_defaults pname ename
      no_of_servers profiles maps server_role (w w' : world rng)
      profiles' maps' entry :
  dict_get ename envs = Some entry ->
  expand_role rng_seed rng_choice envs role_defaults roles cloud_defaults
              pname ename no_of_servers (profiles, maps) server_role w
  = Ok (profiles', maps', w') ->
  exists profile stname w1 last map_profiles role map_defaults data,
    _produce_profile server_role role_defaults roles ename w
    = Ok (Produced profile stname, w1) /\
    let working :=
      dict_set "tag" (VDict (_get_tags ename stname))
               (dict_set "provider" (VStr pname) profile) in
    ofold (expand_az envs pname ename stname) (availability_zones entry)
          (working, profiles, []) = Ok (last, profiles', map_profiles) /\
    py_str stname = Ok role /\
    py_getitem cloud_defaults "mappings" = Ok map_defaults /\
    _get_map_data rng_seed rng_choice map_profiles
                  (start_servers no_of_servers working) map_defaults
                  (fqdn_template role ename pname) w1 = Ok (data, w') /\
    maps' = dict_set ename
              (dict_update match dict_get ename maps with
                           | Some of_env => of_env
                           | None => []
                           end data)
              (if dict_mem ename maps then maps
               else dict_set ename [] maps).
Proof.
  intros He H. unfold expand_role in H.
  apply bind_Ok in H. destruct H as (made & w1 & Hmade & H).
  destruct made as [|profile stname]; [discriminate|].
  destruct (_produce_profile_Produced _ _ _ _ _ _ _ _ Hmade)
    as (? & ? & ? & c & _ & _ & _ & _ & Hsg & _).
  assert (Htrue : py_truthy (VDict profile) = true).
  { clear - Hsg. destruct profile; [discriminate|reflexivity]. }
  rewrite Htrue in H. cbn [negb] in H. rewrite He in H.
  apply bind_Ok in H. destruct H as ([[last profiles1] mp] & w2 & Hloop & H).
  apply lift_Ok in Hloop. destruct Hloop as [Hloop ->].
  apply bind_Ok in H. destruct H as (role & w3 & Hrole & H).
  apply lift_Ok in Hrole. destruct Hrole as [Hrole ->].
  apply bind_Ok in H. destruct H as (map_defaults & w4 & Hdef & H).
  apply lift_Ok in Hdef. destruct Hdef as [Hdef ->].
  apply bind_Ok in H. destruct H as (data & w5 & Hdata & H).
  exists profile, stname, w1, last, mp, role, map_defaults, data.
  unfold dict_mem in *.
  destruct (dict_get ename maps) as [of_env|] eqn:Em.
  - rewrite Em in H. apply ret_Ok in H. destruct H as [[= <- <-] ->].
    repeat split; auto.
  - rewrite dict_get_set_same in H.
    apply ret_Ok in H. destruct H as [[= <- <-] ->].
    repeat split; auto.
Qed.

End RoleExpansion.

(** After the loop over the providers an environment is as the last
    provider declaring it declares it. *)
Lemma environments_last_declared {rng} cloud_defaults items t0
      (w w' : world rng) t env :
  foldM (consume_provider cloud_defaults) items t0 w = Ok (t, w') ->
  dict_get env (environments t) =
  match last_declared (env_declared_by env) items with
  | Some entry => Some entry
  | None => dict_get env (environments t0)
  end.
Proof.
  intros H.
  eapply (foldM_last_declared (consume_provider cloud_defaults)
            (fun t => dict_get env (environments t))
            (env_declared_by env)); [|exact H].
  intros b x b' w1 w2 Hx.
  now apply (consume_provider_environment _ _ _ _ _ _ env Hx).
Qed.

(** C8 (amended).  The role table is keyed by the role name only and is
    shared by all providers: after the loop over the providers, each
    attribute of a role (size, image, volumes, security groups) is as
    the provider processed last among those declaring it declares it, so
    a declaration of a different provider for the same role name does
    reach the result.  The resolved role then equals, in every attribute
    but volumes and security_groups (which resolution goes on to tag
    and to normalise), the global role defaults, overlaid with what that
    table holds under the role's name, overlaid with the caller's
    overrides. *)
Theorem resolved_role_layers {rng} cloud_defaults items t0 (w w' : world rng)
        t :
  foldM (consume_provider cloud_defaults) items t0 w = Ok (t, w') ->
  (forall field attr role,
      In (field, attr) role_fields ->
      role_attr (server_roles t) role attr =
      match last_declared (attr_declared_by field role) items with
      | Some v => Some v
      | None => role_attr (server_roles t0) role attr
      end) /\
  (forall server_role role_defaults environment (w1 w2 : world rng) profile
          stname,
      _produce_profile server_role role_defaults (server_roles t)
                       environment w1 = Ok (Produced profile stname, w2) ->
      exists merged,
        layered_role server_role role_defaults (server_roles t) = Ok merged /\
        forall k, k <> "volumes" -> k <> "security_groups" ->
                  dict_get k profile = dict_get k merged).
Proof.
  intros H. split.
  - intros field attr role Hin.
    eapply (foldM_last_declared (consume_provider cloud_defaults)
              (fun t => role_attr (server_roles t) role attr)
              (attr_declared_by field role)); [|exact H].
    intros b x b' w1 w2 Hx.
    now apply (consume_provider_roles _ _ _ _ _ _ _ _ _ Hx).
  - intros server_role rd environment w1 w2 profile stname Hp.
    destruct (_produce_profile_Produced _ _ _ _ _ _ _ _ Hp)
      as (ov & merged & tagged & c & _ & Hm & Ht & _ & _ & Hk).
    exists merged. split; auto.
    intros k Hv Hs. rewrite Hk by assumption.
    now apply (tag_profile_volumes_other _ _ _ _ _ Ht).
Qed.

(* ================================================================== *)
(** ** Host names *)

Lemma append_length a b :
  String.length (String.append a b) = String.length a + String.length b.
Proof. induction a; simpl; auto. Qed.

Lemma append_inv_head a b c :
  String.append a b = String.append a c -> b = c.
Proof. induction a; simpl; auto. intros [= H]. auto. Qed.

Lemma append_inv_tail t a b :
  String.append a t = String.append b t -> a = b.
Proof.
  revert b. induction a as [|c a IH]; intros [|c' b] H; auto;
    try (apply (f_equal String.length) in H; simpl in H;
         rewrite append_length in H; lia).
  simpl in H. injection H as -> H. f_equal. auto.
Qed.

Lemma read_back_string_of_uint d :
  read_back (NilZero.string_of_uint d) = Some (Nat.of_uint d).
Proof.
  unfold read_back. destruct d; try reflexivity;
    unfold NilZero.string_of_uint; now rewrite NilEmpty.usu.
Qed.

Lemma read_back_zero s : read_back (String "0" s) = read_back s.
Proof.
  unfold read_back. simpl. now destruct (NilEmpty.uint_of_string s).
Qed.

Lemma read_back_pad2 i : read_back (pad2 i) = Some i.
Proof.
  unfold pad2.
  destruct (Nat.ltb _ 2); simpl String.append; rewrite ?read_back_zero;
    now rewrite read_back_string_of_uint, DecimalNat.Unsigned.of_to.
Qed.

Lemma pad2_inj i j : pad2 i = pad2 j -> i = j.
Proof.
  intros H. apply (f_equal read_back) in H.
  rewrite !read_back_pad2 in H. congruence.
Qed.

Lemma hostname_inj role ename pname i j :
  hostname role ename pname i = hostname role ename pname j -> i = j.
Proof.
  unfold hostname. intros H. apply append_inv_head in H.
  apply append_inv_tail in H. now apply pad2_inj.
Qed.

Lemma percent_free_app a b :
  percent_free (String.append a b) = percent_free a && percent_free b.
Proof.
  induction a as [|c a IH]; simpl; auto. rewrite IH. now rewrite andb_assoc.
Qed.

Lemma py_format_literal s t i used :
  percent_free s = true ->
  py_format (String.append s t) i used =
  obind (py_format t i used) (fun r => Ok (String.append s r)).
Proof.
  induction s as [|c s IH]; simpl; intros H.
  - now destruct (py_format t i used).
  - apply andb_true_iff in H. destruct H as [Hc Hs].
    apply negb_true_iff in Hc. rewrite Hc, IH by assumption.
    now destruct (py_format t i used).
Qed.

Lemma py_format_spent s i :
  percent_free s = true -> py_format s i true = Ok s.
Proof.
  induction s as [|c s IH]; simpl; intros H; auto.
  apply andb_true_iff in H. destruct H as [Hc Hs].
  apply negb_true_iff in Hc. now rewrite Hc, IH.
Qed.

Lemma py_format_conversion t i :
  py_format (String.append "%02d" t) i false =
  obind (py_format t i true) (fun s => Ok (String.append (pad2 i) s)).
Proof. reflexivity. Qed.

(** What [fqdn % i] gives on the template of [consume_map]. *)
Lemma py_format_fqdn role ename pname i :
  percent_free role = true -> percent_free ename = true ->
  percent_free pname = true ->
  py_format (fqdn_template role ename pname) i false
  = Ok (hostname role ename pname i).
Proof.
  intros Hr He Hp. unfold fqdn_template, hostname.
  rewrite py_format_literal by assumption.
  set (rest := String.append ename
                 (String.append "." (String.append pname ".example.com"))).
  change (String.append "%02d." rest)
    with (String.append "%02d" (String.append "." rest)).
  rewrite py_format_conversion, py_format_spent; [reflexivity|].
  unfold rest. rewrite !percent_free_app, He, Hp. reflexivity.
Qed.

(* ================================================================== *)
(** ** Round robin *)

Lemma ordinals_at_S k j n :
  ordinals_at k j (S n) =
  ordinals_at k j n ++ (if Nat.eqb (n mod k) j then [S n] else []).
Proof.
  unfold ordinals_at. rewrite seq_S, filter_app. simpl.
  now rewrite Nat.sub_0_r.
Qed.

Lemma ordinals_at_bound k j n i : In i (ordinals_at k j n) -> 1 <= i <= n.
Proof.
  unfold ordinals_at. rewrite filter_In, in_seq. lia.
Qed.





(* ================================================================== *)
(** ** The Hostname Distributor *)

Lemma total_hosts_set name hosts (data : amap dict) :
  total_hosts (dict_set name hosts data) + share name data
  = total_hosts data + List.length hosts.
Proof.
  unfold total_hosts, share.
  induction data as [|[k v] data IH]; simpl.
  - lia.
  - destruct (String.eqb name k); simpl; lia.
Qed.

Lemma dict_keys_set_In {V} (k q : string) (v : V) (d : amap V) :
  In q (dict_keys (dict_set k v d)) -> q = k \/ In q (dict_keys d).
Proof.
  rewrite dict_keys_set. destruct (dict_mem k d); auto.
  intros H. apply in_app_or in H. destruct H as [H|[H|[]]]; auto.
Qed.

Lemma NoDup_map_inj {A B} (f : A -> B) (l : list A) :
  (forall a b, f a = f b -> a = b) -> NoDup l -> NoDup (map f l).
Proof.
  intros Hf Hnd. induction Hnd as [|a l Ha Hnd IH]; simpl; constructor; auto.
  rewrite in_map_iff. intros (b & Hb & Hin). apply Hf in Hb. now subst.
Qed.

Section Distribution.
Variable profiles : amap string.
Variable map_defaults : value.
Variable fqdn : string.
Variable host : nat -> string.
Variables (x : string) (l : list string).

Local Abbreviation k := (S (List.length l)).

Hypothesis format_ok : forall i, py_format fqdn i false = Ok (host i).
Hypothesis host_inj : forall i j, host i = host j -> i = j.
Hypothesis cycle_NoDup : NoDup (x :: l).
Hypothesis cycle_named :
  forall az, In az (x :: l) -> exists name, dict_get az profiles = Some name.
Hypothesis names_differ :
  forall az az' name,
    dict_get az profiles = Some name -> dict_get az' profiles = Some name ->
    az = az'.

Local Abbreviation name_at := (zone_name profiles x l).
Local Abbreviation hosts_at := (zone_hosts map_defaults host l).
Local Abbreviation distributed := (distributed_to profiles map_defaults host x l).

Lemma name_at_get j :
  j < k -> dict_get (nth j (x :: l) x) profiles = Some (name_at j).
Proof.
  intros Hj. unfold zone_name.
  destruct (cycle_named (nth j (x :: l) x)) as [name ->]; auto.
  apply nth_In. exact Hj.
Qed.

Lemma name_at_inj i j : i < k -> j < k -> name_at i = name_at j -> i = j.
Proof.
  intros Hi Hj H.
  pose proof (name_at_get i Hi) as Gi. pose proof (name_at_get j Hj) as Gj.
  rewrite H in Gi.
  apply (proj1 (NoDup_nth (x :: l) x) cycle_NoDup i j Hi Hj).
  eapply names_differ; eassumption.
Qed.

Lemma host_fresh j n : dict_get (host (S n)) (hosts_at j n) = None.
Proof.
  apply dict_get_None. unfold zone_hosts, dict_keys. rewrite map_map. simpl.
  rewrite in_map_iff. intros (i & Hi & Hin).
  apply host_inj in Hi. apply ordinals_at_bound in Hin. lia.
Qed.

Lemma hosts_at_NoDup j n : NoDup (dict_keys (hosts_at j n)).
Proof.
  unfold zone_hosts, dict_keys. rewrite map_map. simpl.
  apply NoDup_map_inj; [exact host_inj|].
  unfold ordinals_at. apply NoDup_filter, seq_NoDup.
Qed.

Lemma assign_host_step n data :
  distributed n data ->
  exists data',
    assign_host profiles map_defaults fqdn (cycle_at x l n) data (S n)
    = Ok data' /\
    distributed (S n) data'.
Proof.
  intros (Hget & Htotal & Hnd & Hkeys).
  set (j := n mod k).
  assert (Hj : j < k) by (apply Nat.mod_upper_bound; discriminate).
  unfold assign_host, cycle_at. fold j.
  rewrite (name_at_get j Hj), format_ok. simpl obind.
  set (data1 := if dict_mem (name_at j) data then data
                else dict_set (name_at j) [] data).
  assert (H1 : dict_get (name_at j) data1 =
               Some match ordinals_at k j n with
                    | [] => []
                    | _ => hosts_at j n
                    end).
  { unfold data1, dict_mem. rewrite (Hget j Hj).
    destruct (ordinals_at k j n) eqn:E.
    - apply dict_get_set_same.
    - now rewrite (Hget j Hj), E. }
  assert (Hshare : share (name_at j) data1
                   = List.length (ordinals_at k j n)).
  { unfold share. rewrite H1. unfold zone_hosts.
    destruct (ordinals_at k j n); [reflexivity|]. now rewrite length_map. }
  assert (Htotal1 : total_hosts data1 = n).
  { unfold data1, dict_mem. rewrite (Hget j Hj).
    destruct (ordinals_at k j n) eqn:E; auto.
    pose proof (total_hosts_set (name_at j) [] data) as T.
    unfold share in T. rewrite (Hget j Hj), E in T.
    simpl List.length in T. rewrite !Nat.add_0_r in T.
    etransitivity; [exact T|exact Htotal]. }
  assert (Hother : forall j', j' < k -> j' <> j ->
                              dict_get (name_at j') data1
                              = dict_get (name_at j') data).
  { intros j' Hj' Hne. unfold data1.
    destruct (dict_mem (name_at j) data); auto.
    apply dict_get_set_other. intros E. apply Hne.
    now apply name_at_inj. }
  rewrite H1.
  match goal with
  | |- context [dict_set (host (S n)) map_defaults ?d] =>
      assert (Hnew : dict_set (host (S n)) map_defaults d
                     = hosts_at j (S n))
  end.
  { unfold zone_hosts at 2. rewrite ordinals_at_S. fold j.
    rewrite Nat.eqb_refl, map_app. simpl.
    destruct (ordinals_at k j n) eqn:E; [reflexivity|].
    rewrite <- E. fold (hosts_at j n).
    apply dict_set_fresh, host_fresh. }
  rewrite Hnew. eexists. split; [reflexivity|]. split; [|split; [|split]].
  - intros j' Hj'. rewrite ordinals_at_S. fold j.
    destruct (Nat.eqb_spec j j') as [<-|Hne].
    + rewrite dict_get_set_same.
      destruct (ordinals_at k j n ++ [S n]) eqn:E; auto.
      now destruct (ordinals_at k j n).
    + rewrite app_nil_r.
      rewrite dict_get_set_other
        by (intros E; apply Hne; symmetry; now apply name_at_inj).
      rewrite Hother by auto. rewrite (Hget j' Hj').
      destruct (ordinals_at k j' n) eqn:E; auto.
      unfold zone_hosts. rewrite ordinals_at_S. fold j.
      destruct (Nat.eqb_spec j j'); [tauto|]. now rewrite app_nil_r.
  - pose proof (total_hosts_set (name_at j) (hosts_at j (S n)) data1) as T.
    rewrite Hshare in T. unfold zone_hosts at 2 in T.
    rewrite length_map, ordinals_at_S in T. fold j in T.
    rewrite Nat.eqb_refl, length_app in T. simpl List.length in T.
    assert (Harith : forall a b c, a + c = b + (c + 1) -> b = n -> a = S n)
      by (intros; lia).
    eapply Harith; [exact T|exact Htotal1].
  - apply dict_set_NoDup. unfold data1.
    destruct (dict_mem (name_at j) data); auto.
    now apply dict_set_NoDup.
  - intros name Hin. apply dict_keys_set_In in Hin.
    destruct Hin as [->|Hin]; [now exists j|].
    unfold data1 in Hin. destruct (dict_mem (name_at j) data); auto.
    apply dict_keys_set_In in Hin.
    destruct Hin as [->|Hin]; [now exists j|auto].
Qed.

Lemma distribution_loop n :
  exists data,
    ofold (fun rp i =>
             assign_host profiles map_defaults fqdn (cycle_at x l (i - 1))
                         rp i)
          (seq 1 n) [] = Ok data /\
    distributed n data.
Proof.
  induction n as [|n (data & Hrun & Hinv)].
  - exists []. split; [reflexivity|]. split; [|split; [|split]].
    + intros j Hj. reflexivity.
    + reflexivity.
    + constructor.
    + intros name [].
  - destruct (assign_host_step n data Hinv) as (data' & Hstep & Hinv').
    exists data'. split; auto.
    rewrite seq_S, ofold_app, Hrun. simpl.
    rewrite Nat.sub_0_r, Hstep. reflexivity.
Qed.

End Distribution.


Lemma list_remove_incl first in_list az :
  In az (list_remove first in_list) -> In az in_list.
Proof.
  induction in_list as [|y in_list IH]; simpl; [tauto|].
  destruct (String.eqb first y); simpl; tauto.
Qed.

Lemma list_remove_NoDup first in_list :
  NoDup in_list -> NoDup (first :: list_remove first in_list).
Proof.
  intros Hnd.
  assert (Hrest : NoDup (list_remove first in_list) /\
                  ~ In first (list_remove first in_list)).
  { induction Hnd as [|y in_list Hy Hnd [IH1 IH2]]; simpl.
    - split; [constructor|tauto].
    - destruct (String.eqb first y) eqn:E.
      + apply String.eqb_eq in E. subst y. auto.
      + apply String.eqb_neq in E. split.
        * constructor; auto. intros H. apply Hy.
          now apply list_remove_incl in H.
        * simpl. intros [H|H]; [now subst | tauto]. }
  constructor; tauto.
Qed.

Lemma list_remove_length first in_list :
  In first in_list ->
  List.length (first :: list_remove first in_list) = List.length in_list.
Proof.
  induction in_list as [|y in_list IH]; simpl; [tauto|].
  destruct (String.eqb first y) eqn:E; auto.
  apply String.eqb_neq in E. intros [H|H]; [congruence|].
  simpl in *. now rewrite IH.
Qed.

Lemma values_differ (profiles : amap string) az az' name :
  NoDup (dict_values profiles) ->
  dict_get az profiles = Some name -> dict_get az' profiles = Some name ->
  az = az'.
Proof.
  intros Hnd H1 H2. apply dict_get_In in H1, H2.
  induction profiles as [|[a n] profiles IH]; simpl in *; [tauto|].
  inversion Hnd as [|? ? Hnot Hnd']; subst.
  destruct H1 as [H1|H1], H2 as [H2|H2]; [congruence| | |auto].
  - injection H1 as ? ?. subst. exfalso. apply Hnot.
    change name with (snd (az', name)). now apply in_map.
  - injection H2 as ? ?. subst. exfalso. apply Hnot.
    change name with (snd (az, name)). now apply in_map.
Qed.

Section EvenDistribution.
Context {rng : Type} (rng_seed : string -> rng)
        (rng_choice : rng -> nat -> nat * rng).

(** [random.choice] picks an index inside the sequence. *)
Hypothesis choice_in_range :
  forall g n, 0 < n -> fst (rng_choice g n) < n.

Lemma _get_cycle_list_Ok seed in_list (w : world rng) :
  in_list <> [] ->
  exists first w',
    _get_cycle_list rng_seed rng_choice seed in_list w
    = Ok (first :: list_remove first in_list, w') /\
    nth_error in_list
              (fst (rng_choice (rng_seed seed) (List.length in_list)))
    = Some first.
Proof.
  intros Hne. unfold _get_cycle_list, bind, random_seed, random_choice, ret.
  simpl generator.
  destruct in_list as [|y in_list]; [congruence|].
  pose proof (choice_in_range (rng_seed seed) (List.length (y :: in_list))
                              ltac:(simpl; lia)) as Hlt.
  destruct (rng_choice (rng_seed seed) (List.length (y :: in_list)))
    as [i g].
  simpl fst in *.
  destruct (nth_error (y :: in_list) i) as [first|] eqn:E.
  - eauto.
  - apply nth_error_None in E. lia.
Qed.


End EvenDistribution.

(* ================================================================== *)
(** ** The zones of a combination and their profiles *)






(* ================================================================== *)
(** ** Reproducible runs *)

Section Steady.
Context {rng : Type} (rng_seed : string -> rng)
        (rng_choice : rng -> nat -> nat * rng).

Lemma steady_ret {A} (a : A) : steady (ret (rng:=rng) a).
Proof. intros w0 w1 H. simpl. auto. Qed.

Lemma steady_raise {A} e : steady (raise (rng:=rng) (A:=A) e).
Proof. intros w0 w1 H. reflexivity. Qed.

Lemma steady_lift {A} (o : outcome A) : steady (lift (rng:=rng) o).
Proof. intros w0 w1 H. unfold lift. destruct o; simpl; auto. Qed.

Lemma steady_LOG_info msg args : steady (LOG_info (rng:=rng) msg args).
Proof. intros w0 w1 H. simpl. now rewrite H. Qed.

Lemma steady_LOG_warn msg args : steady (LOG_warn (rng:=rng) msg args).
Proof. intros w0 w1 H. simpl. now rewrite H. Qed.

Lemma steady_LOG_info_text template operand :
  steady (LOG_info_text (rng:=rng) template operand).
Proof. intros w0 w1 H. simpl. now rewrite H. Qed.

Lemma steady_bind {A B} (m : M rng A) (k : A -> M rng B) :
  steady m -> (forall a, steady (k a)) -> steady (bind m k).
Proof.
  intros Hm Hk w0 w1 H. specialize (Hm w0 w1 H). unfold bind.
  destruct (m w0) as [[a0 w0']| |], (m w1) as [[a1 w1']| |];
    simpl in Hm; try tauto.
  destruct Hm as [-> Hlog]. now apply Hk.
Qed.

Lemma steady_foldM {A B} (f : B -> A -> M rng B) l :
  (forall b x, steady (f b x)) -> forall b, steady (foldM f l b).
Proof.
  intros Hf. induction l as [|x l IH]; intros b; simpl.
  - apply steady_ret.
  - apply steady_bind; auto.
Qed.

(** The rotation reseeds the generator before it draws: the state it
    finds is not read. *)
Lemma _get_cycle_list_seeded seed in_list (w : world rng) :
  _get_cycle_list rng_seed rng_choice seed in_list w =
  match nth_error in_list
                  (fst (rng_choice (rng_seed seed) (List.length in_list)))
  with
  | Some first =>
      Ok (first :: list_remove first in_list,
          mk_world (log w)
                   (snd (rng_choice (rng_seed seed)
                                    (List.length in_list))))
  | None => Raise IndexError
  end.
Proof.
  unfold _get_cycle_list, bind, random_seed, random_choice, ret. simpl.
  destruct in_list as [|y in_list].
  - now destruct (fst (rng_choice (rng_seed seed) (@List.length string []))).
  - destruct (rng_choice (rng_seed seed) (List.length (y :: in_list)))
      as [i g]. simpl fst. simpl snd.
    now destruct (nth_error (y :: in_list) i).
Qed.

Lemma steady_get_cycle_list seed in_list :
  steady (_get_cycle_list rng_seed rng_choice seed in_list).
Proof.
  intros w0 w1 H. rewrite !_get_cycle_list_seeded.
  destruct (nth_error _ _); simpl; auto.
Qed.

Ltac steady_step :=
  first
    [ apply steady_ret | apply steady_raise | apply steady_lift
    | apply steady_LOG_info | apply steady_LOG_warn
    | apply steady_LOG_info_text
    | apply steady_get_cycle_list
    | apply steady_bind; [|intros ?]
    | apply steady_foldM; intros ? ?
    | match goal with
      | |- steady (match ?x with _ => _ end) => destruct x
      | |- steady (let (_, _) := ?x in _) => destruct x
      end ].

Lemma steady_produce_profile server_role defaults profile_defs environment :
  steady (_produce_profile (rng:=rng) server_role defaults profile_defs
                           environment).
Proof. unfold _produce_profile. repeat steady_step. Qed.

Lemma steady_get_map_data profiles no_of_servers map_defaults fqdn :
  steady (_get_map_data rng_seed rng_choice profiles no_of_servers
                        map_defaults fqdn).
Proof. unfold _get_map_data. repeat steady_step. Qed.

Lemma steady_consume_provider cloud_defaults t item :
  steady (consume_provider (rng:=rng) cloud_defaults t item).
Proof. unfold consume_provider. repeat steady_step. Qed.

Lemma steady_expand_role envs role_defaults roles cloud_defaults pname
      ename no_of_servers acc server_role :
  steady (expand_role rng_seed rng_choice envs role_defaults roles
                      cloud_defaults pname ename no_of_servers acc
                      server_role).
Proof.
  unfold expand_role. destruct acc.
  apply steady_bind; [apply steady_produce_profile|intros made].
  destruct made; [apply steady_raise|].
  destruct (negb _); [repeat steady_step|].
  apply steady_bind; [apply steady_lift|intros [[? ?] ?]].
  apply steady_bind; [apply steady_lift|intros ?].
  apply steady_bind; [apply steady_lift|intros ?].
  apply steady_bind; [apply steady_get_map_data|intros ?].
  repeat steady_step.
Qed.

Lemma steady_expand_environment envs role_defaults roles cloud_defaults
      pname no_of_servers acc item :
  steady (expand_environment rng_seed rng_choice envs role_defaults roles
                             cloud_defaults pname no_of_servers acc item).
Proof.
  unfold expand_environment. destruct item.
  destruct (negb _); [repeat steady_step|].
  apply steady_bind; [apply steady_lift|intros ?].
  apply steady_foldM. intros ? ?. apply steady_expand_role.
Qed.

Lemma steady_expand_provider t role_defaults cloud_defaults acc item :
  steady (expand_provider rng_seed rng_choice t role_defaults
                          cloud_defaults acc item).
Proof.
  unfold expand_provider. destruct item.
  destruct (dict_get _ _); [|repeat steady_step].
  apply steady_bind; [apply steady_lift|intros ?].
  apply steady_bind; [apply steady_lift|intros ?].
  apply steady_bind; [|intros [? ?]; apply steady_ret].
  apply steady_foldM. intros ? ?. apply steady_expand_environment.
Qed.

Lemma steady_consume_map in_providers in_servers cloud_defaults :
  steady (consume_map rng_seed rng_choice in_providers in_servers
                      cloud_defaults).
Proof.
  unfold consume_map.
  apply steady_bind; [apply steady_lift|intros ?].
  apply steady_bind; [apply steady_lift|intros ?].
  apply steady_bind; [apply steady_lift|intros ?].
  apply steady_bind;
    [apply steady_foldM; intros ? ?; apply steady_consume_provider
    |intros ?].
  apply steady_bind; [apply steady_lift|intros ?].
  apply steady_bind; [apply steady_lift|intros ?].
  apply steady_bind;
    [apply steady_foldM; intros ? ?; apply steady_expand_provider
    |intros ?].
  apply steady_ret.
Qed.

(** C4.  Two runs of [consume_map] on the same input trees return the
    same trees (and leave the same caller's tree and the same log, or
    raise the same exception), whatever state the process-wide random
    generator is in when each run starts.  The rotation of the Hostname
    Distributor reseeds the generator with the host name template
    before it draws, so the zone placed first is a function of the
    template (and of the zones to choose from): the same template
    always gives the same first zone. *)
Theorem consume_map_reproducible in_providers in_servers cloud_defaults
        (records : list log_record) (g0 g1 : rng) :
  same_outcome
    (consume_map rng_seed rng_choice in_providers in_servers
                 cloud_defaults (mk_world records g0))
    (consume_map rng_seed rng_choice in_providers in_servers
                 cloud_defaults (mk_world records g1)) /\
  forall seed in_list,
    _get_cycle_list rng_seed rng_choice seed in_list (mk_world records g0)
    = _get_cycle_list rng_seed rng_choice seed in_list
                      (mk_world records g1) /\
    _get_cycle_list rng_seed rng_choice seed in_list (mk_world records g0)
    = match nth_error in_list
                      (fst (rng_choice (rng_seed seed)
                                       (List.length in_list)))
      with
      | Some first =>
          Ok (first :: list_remove first in_list,
              mk_world records
                       (snd (rng_choice (rng_seed seed)
                                        (List.length in_list))))
      | None => Raise IndexError
      end.
Proof.
  split.
  - now apply steady_consume_map.
  - intros seed in_list. now rewrite !_get_cycle_list_seeded.
Qed.

End Steady.

(* ================================================================== *)
(** * The properties on concrete pillar data *)

Lemma ex_choice_in_range g n : 0 < n -> fst (ex_choice g n) < n.
Proof. intros H. simpl. apply Nat.mod_upper_bound. lia. Qed.

Ltac distinct_strings :=
  repeat (constructor; [simpl; intuition discriminate|]); constructor.

(** C1: on a role without an image the run is aborted.  [web] has a size
    and no image; [_produce_profile] logs its warning and returns
    [False], and the unpacking of that result in [consume_map] raises
    [TypeError]: no tree is returned at all. *)
Theorem incomplete_role_aborts_run (rng : Type) (rng_seed : string -> rng)
        (rng_choice : rng -> nat -> nat * rng) (w : world rng) :
  (exists w', _produce_profile (VStr "web") [("size", VStr "t2.micro")]
                               ex_role_table "test" w = Ok (Invalid, w')) /\
  consume_map rng_seed rng_choice ex_providers_no_image ex_servers_web
              ex_defaults w = Raise TypeError.
Proof. split; [eexists|]; vm_compute; reflexivity. Qed.

(** C2: an exception reaches the caller.  No provider declares a common
    security group, [common_sec] is never bound, and appending it raises
    [UnboundLocalError] out of [consume_map]. *)
Theorem missing_common_group_raises (rng : Type) (rng_seed : string -> rng)
        (rng_choice : rng -> nat -> nat * rng) (w : world rng) :
  consume_map rng_seed rng_choice ex_providers_no_common ex_servers_web
              ex_defaults w = Raise UnboundLocalError.
Proof. vm_compute. reflexivity. Qed.

(** C5 as stated fails: the caller tagged the volume with Environment
    "mine", and after resolution the tag is the environment name. *)
Lemma caller_tag_overwritten :
  exists caller_fields caller_tags fields tags,
    ex_db_entry = VDict [("db", VDict [("volumes",
                                        VList [VDict caller_fields])])] /\
    dict_get "tags" caller_fields = Some (VDict caller_tags) /\
    dict_get "Environment" caller_tags = Some (VStr "mine") /\
    _produce_profile ex_db_entry ex_role_defaults ex_role_table "test"
                     ex_world = Ok ex_db_resolved /\
    dict_get "volumes" ex_db_profile = Some (VList [VDict fields]) /\
    dict_get "tags" fields = Some (VDict tags) /\
    dict_get "Environment" tags = Some (VStr "test") /\
    dict_get "Environment" tags <> dict_get "Environment" caller_tags.
Proof.
  do 4 eexists. split; [reflexivity|]. split; [reflexivity|].
  split; [reflexivity|]. split; [vm_compute; reflexivity|].
  split; [vm_compute; reflexivity|]. split; [reflexivity|].
  split; [reflexivity|discriminate].
Qed.

(** C5 (amended) on that volume. *)
Lemma volumes_tagged_by_resolution_witness :
  _produce_profile ex_db_entry ex_role_defaults ex_role_table "test" ex_world
  = Ok (Produced ex_db_profile (VStr "db"), snd ex_db_resolved) /\
  dict_get "volumes" ex_db_profile = Some (VList ex_db_volumes) /\
  exists merged vols0,
    layered_role ex_db_entry ex_role_defaults ex_role_table = Ok merged /\
    dict_get "volumes" merged = Some (VList vols0) /\
    Forall2 (tagged_volume "test" (VStr "db")) vols0 ex_db_volumes.
Proof.
  assert (h1 : _produce_profile ex_db_entry ex_role_defaults ex_role_table
                                "test" ex_world
               = Ok (Produced ex_db_profile (VStr "db"), snd ex_db_resolved))
    by (vm_compute; reflexivity).
  assert (h2 : dict_get "volumes" ex_db_profile = Some (VList ex_db_volumes))
    by (vm_compute; reflexivity).
  split; [exact h1|]. split; [exact h2|].
  exact (volumes_tagged_by_resolution _ _ _ _ _ _ _ _ _ h1 h2).
Defined.

(** C6 as stated fails: the role [web] lists the common group among its
    own, and the resolved list holds it twice. *)
Lemma common_group_twice :
  common_security_group ex_role_table = Some (VStr "sg-c") /\
  _produce_profile (VStr "web") ex_role_defaults ex_role_table "test"
                   ex_world = Ok ex_web_resolved /\
  dict_get "security_groups" ex_web_profile
  = Some (VList [VStr "sg-c"; VStr "sg-w"; VStr "sg-c"]) /\
  occurrences (VStr "sg-c") [VStr "sg-c"; VStr "sg-w"; VStr "sg-c"] = 2.
Proof. repeat split; vm_compute; reflexivity. Qed.

(** C6 (amended) on the role [db], which has no groups of its own. *)
Lemma common_group_appended_last_witness :
  common_security_group ex_role_table = Some (VStr "sg-c") /\
  _produce_profile ex_db_entry ex_role_defaults ex_role_table "test" ex_world
  = Ok (Produced ex_db_profile (VStr "db"), snd ex_db_resolved) /\
  exists merged,
    layered_role ex_db_entry ex_role_defaults ex_role_table = Ok merged /\
    dict_get "security_groups" ex_db_profile
    = Some (VList (own_security_groups merged ++ [VStr "sg-c"])) /\
    (occurrences (VStr "sg-c") (own_security_groups merged ++ [VStr "sg-c"])
     = 1 <-> ~ In (VStr "sg-c") (own_security_groups merged)).
Proof.
  assert (h1 : common_security_group ex_role_table = Some (VStr "sg-c"))
    by reflexivity.
  assert (h2 : _produce_profile ex_db_entry ex_role_defaults ex_role_table
                                "test" ex_world
               = Ok (Produced ex_db_profile (VStr "db"), snd ex_db_resolved))
    by (vm_compute; reflexivity).
  split; [exact h1|]. split; [exact h2|].
  exact (common_group_appended_last _ _ _ _ _ _ _ _ _ h1 h2).
Defined.

(** C7: default_servers reaches the provider output tree.  The servers
    tree names [p1] and not [p2]: the entry of [p1] has lost the key,
    the entry of [p2], which the loop over the servers never reads,
    still has it. *)
Theorem default_servers_left_in_output :
  exists out after w' conf1 conf2,
    consume_map ex_seed ex_choice ex_two_providers ex_servers_web ex_defaults
                ex_world = Ok (out, after, w') /\
    dict_get "p1" (out_providers out) = Some conf1 /\
    dict_get "default_servers" conf1 = None /\
    dict_get "p2" (out_providers out) = Some conf2 /\
    dict_get "default_servers" conf2 = Some (VInt 1).
Proof.
  do 5 eexists. split; [vm_compute; reflexivity|].
  repeat split; reflexivity.
Qed.

(** The providers the servers tree names do lose the key. *)
Example default_servers_consumed_p1 :
  forall conf,
    dict_get "p1" (out_providers (fst (fst ex_result))) = Some conf ->
    dict_get "default_servers" conf = None.
Proof.
  intros conf H.
  assert (h1 : consume_map ex_seed ex_choice ex_providers ex_servers
                           ex_defaults ex_world = Ok ex_result)
    by (vm_compute; reflexivity).
  apply (default_servers_consumed ex_seed ex_choice ex_providers _ ex_defaults
           ex_world (snd ex_result) (fst (fst ex_result))
           (snd (fst ex_result)) "p1" conf h1); [simpl; auto|exact H].
Qed.

(** C8 as stated fails: [p1] declares the size t2.medium for [web], the
    other provider [p2] declares c4.2xlarge, and the profile of [p1]
    comes out with the size of [p2]; without [p2] it has its own. *)
Lemma other_provider_size_wins :
  ex_size_of "web_test_p1A"
             (consume_map ex_seed ex_choice ex_two_providers ex_servers_web
                          ex_defaults ex_world)
  = Some (VStr "c4.2xlarge") /\
  ex_size_of "web_test_p1A"
             (consume_map ex_seed ex_choice ex_one_provider ex_servers_web
                          ex_defaults ex_world)
  = Some (VStr "t2.medium").
Proof. split; vm_compute; reflexivity. Qed.

(** C9: the caller's providers tree is written in place.  [consume_map]
    returns on these trees, and the providers tree the caller handed in
    is left without the subnets, sizes, images, volumes and
    security_groups of [p1]: [del(prov[...])] is applied to the caller's
    own object, where the defaults next to it are copied before they are
    changed. *)
Lemma caller_tree_changed :
  consume_map ex_seed ex_choice ex_providers ex_servers ex_defaults ex_world
  = Ok ex_result /\
  snd (fst ex_result)
  = VDict [("p1", VDict [("id", VStr "key-id");
                         ("default_servers", VInt 5)])] /\
  snd (fst ex_result) <> ex_providers.
Proof.
  split; [vm_compute; reflexivity|]. split; [reflexivity|discriminate].
Qed.

(** The caller's provider tree after that call, entry by entry. *)
Lemma providers_tree_consumed_witness :
  NoDup (dict_keys [("p1", ex_provider [("default", VStr "t2.micro")]
                                       [("default", VStr "ami-1")]
                                       [("common", VStr "sg-c");
                                        ("web", VStr "sg-w")])]) /\
  consume_map ex_seed ex_choice ex_providers ex_servers ex_defaults ex_world
  = Ok ex_result /\
  snd (fst ex_result)
  = VDict (map (fun kv => (fst kv, consumed_provider (snd kv)))
               [("p1", ex_provider [("default", VStr "t2.micro")]
                                   [("default", VStr "ami-1")]
                                   [("common", VStr "sg-c");
                                    ("web", VStr "sg-w")])]).
Proof.
  assert (h1 : NoDup (dict_keys
                        [("p1", ex_provider [("default", VStr "t2.micro")]
                                            [("default", VStr "ami-1")]
                                            [("common", VStr "sg-c");
                                             ("web", VStr "sg-w")])]))
    by distinct_strings.
  assert (h2 : consume_map ex_seed ex_choice ex_providers ex_servers
                           ex_defaults ex_world = Ok ex_result)
    by (vm_compute; reflexivity).
  split; [exact h1|]. split; [exact h2|].
  exact (providers_tree_consumed ex_seed ex_choice _ ex_servers ex_defaults
           ex_world (snd ex_result) (fst (fst ex_result))
           (snd (fst ex_result)) h1 h2).
Defined.

(** C8 (amended) on the loop over the one provider [p1]. *)
Lemma resolved_role_layers_witness :
  foldM (consume_provider ex_defaults)
        [("p1", ex_provider [("default", VStr "t2.micro")]
                            [("default", VStr "ami-1")]
                            [("common", VStr "sg-c"); ("web", VStr "sg-w")])]
        (mk_tables [] [] [] []) ex_world = Ok ex_tables /\
  role_attr (server_roles (fst ex_tables)) "default" "size"
  = Some (VStr "t2.micro") /\
  exists merged,
    layered_role ex_db_entry ex_role_defaults (server_roles (fst ex_tables))
    = Ok merged /\
    forall k, k <> "volumes" -> k <> "security_groups" ->
              dict_get k ex_db_profile = dict_get k merged.
Proof.
  assert (h : foldM (consume_provider ex_defaults)
                    [("p1", ex_provider [("default", VStr "t2.micro")]
                                        [("default", VStr "ami-1")]
                                        [("common", VStr "sg-c");
                                         ("web", VStr "sg-w")])]
                    (mk_tables [] [] [] []) ex_world = Ok ex_tables)
    by (vm_compute; reflexivity).
  pose proof (resolved_role_layers _ _ _ _ (snd ex_tables) (fst ex_tables) h)
    as [Htable Hrole].
  split; [exact h|]. split.
  - rewrite (Htable "sizes" "size" "default"); [reflexivity|].
    simpl. auto.
  - apply (Hrole ex_db_entry ex_role_defaults "test" ex_world
                 (snd ex_db_resolved) ex_db_profile (VStr "db")).
    vm_compute. reflexivity.
Defined.

(** Two providers declare the environment [test]: the one processed
    last has its zones and subnets in the table. *)
Example environment_replaced :
  forall t w',
    foldM (consume_provider ex_defaults)
          [("p1", ex_provider [] [] []);
           ("p2", VDict [("subnets",
                          VDict [("test", VList [VDict [("Z",
                                                         VStr "sn-z")]])]);
                         ("images", VDict []); ("sizes", VDict []);
                         ("volumes", VDict []);
                         ("security_groups", VDict [])])]
          (mk_tables [] [] [] []) ex_world = Ok (t, w') ->
    dict_get "test" (environments t)
    = Some (mk_env ["Z"] [("Z", VStr "sn-z")]).
Proof.
  intros t w' H.
  rewrite (environments_last_declared _ _ _ _ _ _ "test" H).
  reflexivity.
Qed.

(* ================================================================== *)
(** * Further properties of the module *)

(** ** [update_server] *)

Lemma dict_update_NoDup {V} (d e : amap V) :
  NoDup (dict_keys d) -> NoDup (dict_keys (dict_update d e)).
Proof.
  unfold dict_update. revert d.
  induction e as [|[k v] e IH]; simpl; intros d H; auto.
  apply IH. now apply dict_set_NoDup.
Qed.

Lemma update_server_entry roles role values :
  dict_get role (update_server roles role values)
  = Some (dict_update match dict_get role roles with
                      | Some d => d
                      | None => []
                      end values).
Proof.
  unfold update_server, dict_mem.
  destruct (dict_get role roles) as [d|] eqn:E.
  - rewrite E. apply dict_get_set_same.
  - rewrite dict_get_set_same. apply dict_get_set_same.
Qed.

(** [update_server] writes the values into the entry of the role, which
    it creates if the table has none: an attribute of the role is then
    the value given for it (the last one, if given twice), else what it
    was; the other roles keep their entries. *)
Theorem update_server_merges roles role values role' attr :
  dict_mem role (update_server roles role values) = true /\
  role_attr (update_server roles role values) role' attr
  = (if String.eqb role' role then
       match dict_last attr values with
       | Some v => Some v
       | None => role_attr roles role attr
       end
     else role_attr roles role' attr) /\
  (if String.eqb role' role then True
   else dict_get role' (update_server roles role values)
        = dict_get role' roles).
Proof.
  assert (Hother : role' <> role ->
                   dict_get role' (update_server roles role values)
                   = dict_get role' roles).
  { intros Hne. unfold update_server, dict_mem.
    destruct (dict_get role roles) as [d|] eqn:E.
    - rewrite E. now apply dict_get_set_other.
    - rewrite dict_get_set_same. now rewrite !dict_get_set_other. }
  split; [|split].
  - unfold dict_mem. now rewrite update_server_entry.
  - unfold role_attr at 1. destruct (String.eqb role' role) eqn:E.
    + apply String.eqb_eq in E. subst role'.
      rewrite update_server_entry, dict_get_update. unfold dict_last.
      destruct (dict_get attr (List.rev values)); auto.
      unfold role_attr. now destruct (dict_get role roles).
    + apply String.eqb_neq in E. now rewrite Hother.
  - destruct (String.eqb role' role) eqn:E; auto.
    apply String.eqb_neq in E. auto.
Qed.

(** ** The Environment Builder *)

Lemma pop_key_nonempty k v (d : dict) :
  exists k', pop_key ((k, v) :: d) = Ok k'.
Proof.
  unfold pop_key. destruct (List.rev ((k, v) :: d)) as [|[k' v'] r] eqn:E.
  - apply (f_equal (@List.length _)) in E. rewrite length_rev in E.
    discriminate.
  - eauto.
Qed.

Lemma pop_value_nonempty k v (d : dict) :
  exists v', pop_value ((k, v) :: d) = Ok v'.
Proof.
  unfold pop_value. destruct (List.rev ((k, v) :: d)) as [|[k' v'] r] eqn:E.
  - apply (f_equal (@List.length _)) in E. rewrite length_rev in E.
    discriminate.
  - eauto.
Qed.

Lemma read_pair_nonempty s :
  nonempty_mapping s <-> exists p, read_pair s p.
Proof.
  split.
  - intros (k & v & d & ->).
    destruct (pop_key_nonempty k v d) as [k' Hk].
    destruct (pop_value_nonempty k v d) as [v' Hv].
    exists (k', v'), ((k, v) :: d). auto.
  - intros (p & d & -> & Hk & _). destruct d as [|[k v] d].
    + discriminate.
    + now exists k, v, d.
Qed.

(** The two comprehensions over entries that can be read. *)
Lemma build_environment_read entries pairs :
  Forall2 read_pair entries pairs ->
  build_environment (VList entries)
  = Ok (mk_env (map fst pairs) (dict_update [] pairs)).
Proof.
  intros H. unfold build_environment. simpl py_iter. simpl obind.
  assert (Hazs : omap (fun s => d <-? py_dict s ;; pop_key d) entries
                 = Ok (map fst pairs)).
  { induction H as [|s p entries pairs (d & -> & Hk & _) _ IH]; simpl; auto.
    now rewrite Hk, IH. }
  assert (Hsub : forall acc,
             ofold (fun acc s =>
                      d <-? py_dict s ;;
                      k <-? pop_key d ;;
                      d <-? py_dict s ;;
                      v <-? pop_value d ;;
                      Ok (dict_set k v acc)) entries acc
             = Ok (dict_update acc pairs)).
  { clear Hazs.
    induction H as [|s p entries pairs (d & -> & Hk & Hv) _ IH];
      intros acc; simpl; auto.
    rewrite Hk. simpl. rewrite Hv. simpl. apply IH. }
  now rewrite Hazs, Hsub.
Qed.

(** A successful build has read every entry. *)
Lemma build_environment_Ok subnets e :
  build_environment subnets = Ok e ->
  exists entries pairs,
    py_iter subnets = Ok entries /\
    Forall2 read_pair entries pairs /\
    e = mk_env (map fst pairs) (dict_update [] pairs).
Proof.
  unfold build_environment. intros H.
  apply obind_Ok in H. destruct H as (entries & Hiter & H).
  apply obind_Ok in H. destruct H as (azs & Hazs & H).
  apply obind_Ok in H. destruct H as (sub & Hsub & [= <-]).
  assert (Hread : exists pairs, Forall2 read_pair entries pairs).
  { clear Hazs Hiter. revert Hsub. generalize (@nil (string * value)).
    induction entries as [|s entries IH]; intros acc H.
    - exists []. constructor.
    - simpl in H. apply obind_Ok in H. destruct H as (acc1 & Hs & H).
      destruct (IH _ H) as (pairs & Hp).
      apply obind_Ok in Hs. destruct Hs as (d & Hd & Hs).
      apply obind_Ok in Hs. destruct Hs as (k & Hk & Hs).
      apply obind_Ok in Hs. destruct Hs as (d' & Hd' & Hs).
      apply obind_Ok in Hs. destruct Hs as (v & Hv & _).
      destruct s; try discriminate. injection Hd as <-. injection Hd' as <-.
      exists ((k, v) :: pairs). constructor; auto. now exists d0. }
  destruct Hread as (pairs & Hread).
  exists entries, pairs. split; auto. split; auto.
  pose proof (build_environment_read _ _ Hread) as Hb.
  unfold build_environment in Hb. simpl py_iter in Hb. simpl obind in Hb.
  rewrite Hazs in Hb. simpl in Hb. rewrite Hsub in Hb. simpl in Hb.
  injection Hb as -> ->. reflexivity.
Qed.

(** For a list of single-key mappings the zones are the labels, in the
    order declared, and the subnet of a label is the one declared for
    it, the last one if the label comes twice. *)
Theorem build_environment_labelled pairs :
  exists sub,
    build_environment (labelled pairs) = Ok (mk_env (map fst pairs) sub) /\
    NoDup (dict_keys sub) /\
    forall az, dict_get az sub = dict_last az pairs.
Proof.
  exists (dict_update [] pairs). split; [|split].
  - apply build_environment_read.
    induction pairs as [|[k v] pairs IH]; simpl; constructor; auto.
    now exists [(k, v)].
  - apply dict_update_NoDup. constructor.
  - intros az. rewrite dict_get_update. unfold dict_last.
    now destruct (dict_get az (List.rev pairs)).
Qed.

(** The builder succeeds exactly on the lists of non-empty mappings. *)
Theorem build_environment_succeeds_iff entries :
  (exists e, build_environment (VList entries) = Ok e) <->
  Forall nonempty_mapping entries.
Proof.
  split.
  - intros (e & H). apply build_environment_Ok in H.
    destruct H as (entries' & pairs & [= <-] & Hread & _).
    induction Hread as [|s p entries pairs Hs _ IH]; constructor; auto.
    apply read_pair_nonempty. eauto.
  - intros H.
    assert (Hread : exists pairs, Forall2 read_pair entries pairs).
    { induction H as [|s entries Hs _ (pairs & IH)].
      - exists []. constructor.
      - apply read_pair_nonempty in Hs. destruct Hs as (p & Hp).
        exists (p :: pairs). now constructor. }
    destruct Hread as (pairs & Hread).
    eexists. apply build_environment_read. exact Hread.
Qed.

(** The first entry that is no non-empty mapping decides the exception:
    [IndexError] for an empty mapping, [AttributeError] for a value that
    is no mapping. *)
Theorem build_environment_first_bad_entry before s after :
  Forall nonempty_mapping before ->
  ~ nonempty_mapping s ->
  build_environment (VList (before ++ s :: after))
  = Raise match s with
          | VDict _ => IndexError
          | _ => AttributeError
          end.
Proof.
  intros Hbefore Hs.
  unfold build_environment. simpl py_iter. simpl obind.
  assert (Hazs : omap (fun s => d <-? py_dict s ;; pop_key d)
                      (before ++ s :: after)
                 = Raise match s with
                         | VDict _ => IndexError
                         | _ => AttributeError
                         end).
  { induction Hbefore as [|s0 before Hs0 _ IH]; simpl.
    - destruct s as [| | | | |d]; try reflexivity. simpl.
      destruct d as [|[k v] d]; [reflexivity|].
      exfalso. apply Hs. now exists k, v, d.
    - destruct Hs0 as (k & v & d & ->). simpl.
      destruct (pop_key_nonempty k v d) as [k' ->]. simpl.
      now rewrite IH. }
  now rewrite Hazs.
Qed.

Lemma last_declared_Some {A V} (declares : A -> option V) items v :
  last_declared declares items = Some v ->
  exists item, In item items /\ declares item = Some v.
Proof.
  induction items as [|x items IH] using rev_ind; [discriminate|].
  rewrite last_declared_snoc. intros H.
  destruct (declares x) as [v'|] eqn:E.
  - injection H as <-. exists x. split; auto. apply in_or_app. simpl. auto.
  - destruct (IH H) as (item & Hin & Hd). exists item. split; auto.
    apply in_or_app. now left.
Qed.

Lemma dict_update_declared (pairs : list (string * value)) k v :
  In (k, v) pairs -> exists v', dict_get k (dict_update [] pairs) = Some v'.
Proof.
  intros Hin. rewrite dict_get_update.
  destruct (dict_get k (List.rev pairs)) as [v'|] eqn:E; eauto.
  apply dict_get_None in E. exfalso. apply E.
  unfold dict_keys. rewrite map_rev, <- in_rev.
  apply (in_map fst) in Hin. exact Hin.
Qed.

(** In the environment table the loop over the providers builds, every
    zone of every environment has a subnet: the lookup of the subnet of
    an environment's own zone, which the default interface makes, finds
    one. *)
Theorem zones_have_subnets {rng} cloud_defaults items t0 (w w' : world rng)
        t env entry az_name :
  environments t0 = [] ->
  foldM (consume_provider cloud_defaults) items t0 w = Ok (t, w') ->
  dict_get env (environments t) = Some entry ->
  In az_name (availability_zones entry) ->
  exists subnet,
    env_subnet (environments t) (VStr env) az_name = Ok subnet.
Proof.
  intros H0 H He Hin.
  pose proof (environments_last_declared _ _ _ _ _ _ env H) as Hlast.
  rewrite He, H0 in Hlast. simpl in Hlast.
  destruct (last_declared (env_declared_by env) items) as [entry'|] eqn:E;
    [|discriminate].
  injection Hlast as ->.
  apply last_declared_Some in E. destruct E as (item & _ & Hd).
  unfold env_declared_by in Hd.
  destruct (snd item) as [| | | | |fields]; try discriminate.
  destruct (dict_get "subnets" fields) as [[| | | | |declared]|];
    try discriminate.
  destruct (dict_last env declared) as [subs|]; [|discriminate].
  destruct (build_environment subs) as [e| |] eqn:Eb; try discriminate.
  injection Hd as ->.
  apply build_environment_Ok in Eb.
  destruct Eb as (entries & pairs & _ & _ & ->). simpl in Hin.
  apply in_map_iff in Hin. destruct Hin as ([k v] & <- & Hin).
  destruct (dict_update_declared pairs k v Hin) as (subnet & Hs).
  exists subnet. unfold env_subnet. simpl. rewrite He. simpl.
  now rewrite Hs.
Qed.

(** ** The Network Interface Synthesizer *)

(** One turn of the loop adds the interface the entry asks for, at the
    index the loop has reached. *)
Lemma add_interface_Ok envs az_name sec_groups index add_to entry acc' :
  add_interface envs az_name sec_groups (index, add_to) entry = Ok acc' ->
  exists iface,
    acc' = (S index, add_to ++ [iface]) /\
    interface_for envs az_name sec_groups index entry iface.
Proof.
  unfold add_interface. intros H.
  apply obind_Ok in H. destruct H as ([env_name az_ifaces] & Href & H).
  apply obind_Ok in H. destruct H as (subnet & Hsub & H).
  apply obind_Ok in H. destruct H as (fields & Hf & [= <-]).
  exists (VDict fields). split; auto.
  exists env_name, az_ifaces, subnet, fields.
  split.
  { unfold interface_reference. destruct entry as [| | | | |d];
      try (injection Href as <- <-; auto).
    apply obind_Ok in Href. destruct Href as (k & Hk & Href).
    apply obind_Ok in Href. destruct Href as (v & Hv & [= <- <-]).
    eauto. }
  split; auto. split; auto.
  destruct (py_truthy az_ifaces).
  - apply obind_Ok in Hf. destruct Hf as (a & Ha & Hf).
    apply obind_Ok in Hf. destruct Hf as (hyphen & Hh & Hf).
    destruct hyphen; injection Hf as <-;
      (repeat split; [reflexivity..|]); exists a; eexists;
      (split; [exact Ha|]); (split; [exact Hh|]); split; reflexivity.
  - injection Hf as <-. repeat split; reflexivity.
Qed.

Lemma add_interfaces_loop envs az_name sec_groups entries :
  forall index add_to acc',
    ofold (add_interface envs az_name sec_groups) entries (index, add_to)
    = Ok acc' ->
    exists ifaces,
      acc' = (index + List.length entries, add_to ++ ifaces) /\
      List.length ifaces = List.length entries /\
      forall i entry,
        nth_error entries i = Some entry ->
        exists iface,
          nth_error ifaces i = Some iface /\
          interface_for envs az_name sec_groups (index + i) entry iface.
Proof.
  induction entries as [|e entries IH]; simpl; intros index add_to acc' H.
  - injection H as <-. exists []. rewrite Nat.add_0_r, app_nil_r.
    repeat split; auto. intros [|i] entry; discriminate.
  - apply obind_Ok in H. destruct H as (acc1 & Hstep & H).
    destruct (add_interface_Ok _ _ _ _ _ _ _ Hstep) as (iface & -> & Hi).
    destruct (IH _ _ _ H) as (ifaces & -> & Hlen & Hnth).
    exists (iface :: ifaces). split; [|split].
    + rewrite <- app_assoc. simpl. f_equal. lia.
    + simpl. now rewrite Hlen.
    + intros [|i] entry Hentry; simpl in *.
      * injection Hentry as <-. exists iface. rewrite Nat.add_0_r. auto.
      * destruct (Hnth i entry Hentry) as (iface' & Hn & Hf).
        exists iface'. split; auto.
        replace (index + S i) with (S index + i) by lia. exact Hf.
Qed.

Lemma _add_interfaces_Ok add_to interfaces envs az_name sec_groups result :
  _add_interfaces add_to interfaces envs az_name sec_groups = Ok result ->
  exists entries ifaces,
    py_iter interfaces = Ok entries /\
    result = add_to ++ ifaces /\
    List.length ifaces = List.length entries /\
    forall i entry,
      nth_error entries i = Some entry ->
      exists iface,
        nth_error ifaces i = Some iface /\
        interface_for envs az_name sec_groups i entry iface.
Proof.
  unfold _add_interfaces. intros H.
  apply obind_Ok in H. destruct H as (entries & Hiter & H).
  apply obind_Ok in H. destruct H as (r & Hloop & [= <-]).
  destruct (add_interfaces_loop _ _ _ _ _ _ _ Hloop)
    as (ifaces & -> & Hlen & Hnth).
  exists entries, ifaces. repeat split; auto.
Qed.

(** [_add_interfaces] appends one interface per entry of [interfaces],
    in the order declared: the interface of the entry at position [i]
    has the device index [i], the subnet the environment it names has
    for the current zone, and the role's security groups; an override
    with a hyphen is its [NetworkInterfaceId], any other override its
    [PrivateIpAddress], and it never has both. *)
Theorem _add_interfaces_indexed add_to interfaces envs az_name sec_groups
        result :
  _add_interfaces add_to interfaces envs az_name sec_groups = Ok result ->
  exists entries ifaces,
    py_iter interfaces = Ok entries /\
    result = add_to ++ ifaces /\
    List.length ifaces = List.length entries /\
    forall i entry,
      nth_error entries i = Some entry ->
      exists iface,
        nth_error ifaces i = Some iface /\
        interface_for envs az_name sec_groups i entry iface.
Proof. apply _add_interfaces_Ok. Qed.

(** An entry that names an environment the table does not have, or one
    that has no subnet for the current zone, is not skipped: the call
    raises. *)
Theorem _add_interfaces_unknown_reference add_to interfaces envs az_name
        sec_groups entries entry name az_ifaces :
  py_iter interfaces = Ok entries ->
  In entry entries ->
  interface_reference entry (VStr name) az_ifaces ->
  (dict_get name envs = None \/
   exists e, dict_get name envs = Some e /\
             dict_get az_name (subnets e) = None) ->
  forall result,
    _add_interfaces add_to interfaces envs az_name sec_groups <> Ok result.
Proof.
  intros Hiter Hin Href Hmissing result H.
  destruct (_add_interfaces_Ok _ _ _ _ _ _ H)
    as (entries' & ifaces & Hiter' & _ & _ & Hnth).
  assert (entries' = entries) by congruence. subst entries'.
  apply In_nth_error in Hin. destruct Hin as (i & Hi).
  destruct (Hnth i entry Hi)
    as (iface & _ & env_name & az' & subnet & fields & Href' & Hsub & _).
  assert (env_name = VStr name).
  { unfold interface_reference in *. destruct entry as [| | | | |d];
      try (destruct Href as [E1 _], Href' as [E2 _]; congruence).
    destruct Href as (k & Hk & _ & Ek), Href' as (k' & Hk' & _ & ->).
    congruence. }
  subst env_name. unfold env_subnet in Hsub. simpl in Hsub.
  destruct Hmissing as [Hnone|(e & He & Hz)].
  - rewrite Hnone in Hsub. discriminate.
  - rewrite He in Hsub. simpl in Hsub. rewrite Hz in Hsub. discriminate.
Qed.

(** ** The Hostname Distributor *)

Lemma list_remove_Permutation first in_list :
  In first in_list ->
  Permutation (first :: list_remove first in_list) in_list.
Proof.
  induction in_list as [|y in_list IH]; simpl; [tauto|].
  destruct (String.eqb first y) eqn:E.
  - apply String.eqb_eq in E. now subst.
  - apply String.eqb_neq in E. intros [H|H]; [congruence|].
    etransitivity; [apply perm_swap|]. now apply perm_skip, IH.
Qed.

(** [pad2_wide]: the text of a number has a digit. *)
Lemma string_of_uint_length d :
  1 <= String.length (NilZero.string_of_uint d).
Proof. destruct d; simpl; lia. Qed.

(** The two-digit ordinal is read back as the number it was made from,
    so different ordinals give different texts; it has at least two
    characters, exactly two below 100, and is not cut above 99. *)
Theorem ordinal_format_round_trip i :
  read_back (pad2 i) = Some i /\
  2 <= String.length (pad2 i) /\
  (forall j, pad2 i = pad2 j -> i = j) /\
  (if Nat.ltb i 100 then String.length (pad2 i) = 2 else True).
Proof.
  split; [apply read_back_pad2|]. split; [|split].
  - unfold pad2.
    pose proof (string_of_uint_length (Nat.to_uint i)) as H.
    destruct (Nat.ltb_spec (String.length
                              (NilZero.string_of_uint (Nat.to_uint i))) 2).
    + simpl. lia.
    + lia.
  - intros j. apply pad2_inj.
  - destruct (Nat.ltb_spec i 100) as [H|H]; [|trivial].
    do 100 (destruct i as [|i]; [reflexivity|]). lia.
Qed.

Section Placement.
Context {rng : Type} (rng_seed : string -> rng)
        (rng_choice : rng -> nat -> nat * rng).

(** [random.choice] picks an index inside the sequence. *)
Hypothesis choice_in_range :
  forall g n, 0 < n -> fst (rng_choice g n) < n.

(** The rotation returns the zones it was given, each as often as
    before, with the chosen one moved to the front; it logs nothing. *)
Theorem _get_cycle_list_rotates seed in_list (w : world rng) :
  in_list <> [] ->
  exists first w',
    _get_cycle_list rng_seed rng_choice seed in_list w
    = Ok (first :: list_remove first in_list, w') /\
    In first in_list /\
    Permutation (first :: list_remove first in_list) in_list /\
    log w' = log w.
Proof.
  intros Hne. rewrite _get_cycle_list_seeded.
  pose proof (choice_in_range (rng_seed seed) (List.length in_list)) as Hlt.
  destruct (nth_error in_list
              (fst (rng_choice (rng_seed seed) (List.length in_list))))
    as [first|] eqn:E.
  - apply nth_error_In in E.
    exists first. eexists. split; [reflexivity|]. split; auto.
    split; [now apply list_remove_Permutation|reflexivity].
  - apply nth_error_None in E.
    destruct in_list; [congruence|]. simpl in *. lia.
Qed.

(** With zones to choose from and no server to place ([servers] is zero,
    negative, [False] or [None]) the map is empty. *)
Theorem _get_map_data_no_servers profiles no_of_servers map_defaults fqdn
        (w : world rng) :
  profiles <> [] ->
  loop_bound no_of_servers = Some 0 ->
  exists w',
    _get_map_data rng_seed rng_choice profiles no_of_servers map_defaults
                  fqdn w = Ok ([], w') /\
    log w' = log w.
Proof.
  intros Hne Hbound.
  assert (Hne' : dict_keys profiles <> []).
  { destruct profiles; [congruence|discriminate]. }
  destruct (_get_cycle_list_Ok rng_seed rng_choice choice_in_range fqdn
              (dict_keys profiles) w Hne') as (first & w' & Hcycle & _).
  exists w'. unfold _get_map_data, bind. rewrite Hcycle. unfold lift.
  rewrite Hbound. simpl. split; auto.
  rewrite _get_cycle_list_seeded in Hcycle.
  destruct (nth_error _ _); [|discriminate].
  injection Hcycle as _ _ <-. reflexivity.
Qed.

(** A [servers] value that is a string, a list or a mapping is above
    every ordinal in Python 2's order of types: once the first host
    name is made the loop never ends. *)
Theorem _get_map_data_never_ends profiles no_of_servers map_defaults role
        ename pname (w : world rng) :
  profiles <> [] ->
  percent_free role = true ->
  percent_free ename = true ->
  percent_free pname = true ->
  loop_bound no_of_servers = None ->
  _get_map_data rng_seed rng_choice profiles no_of_servers map_defaults
                (fqdn_template role ename pname) w = Diverge.
Proof.
  intros Hne Hr He Hp Hbound.
  assert (Hne' : dict_keys profiles <> []).
  { destruct profiles; [congruence|discriminate]. }
  destruct (_get_cycle_list_Ok rng_seed rng_choice choice_in_range
              (fqdn_template role ename pname) (dict_keys profiles) w Hne')
    as (first & w' & Hcycle & Hfirst).
  apply nth_error_In in Hfirst.
  unfold _get_map_data, bind. rewrite Hcycle. unfold lift.
  rewrite Hbound. unfold assign_host, cycle_at.
  rewrite Nat.Div0.mod_0_l. simpl nth.
  destruct (dict_get first profiles) as [name|] eqn:E.
  - rewrite py_format_fqdn by assumption. simpl.
    now rewrite String.eqb_refl.
  - apply dict_get_None in E. tauto.
Qed.

(** Round robin: the host with the ordinal [i] goes to the profile of
    the zone at position [(i - 1) mod k] of the rotated list, under the
    name [<role><i, two digits>.<environment>.<provider>.example.com] and
    with the per-host defaults as its value; the map holds no other
    host. *)
Theorem hosts_placed_round_robin profiles no_of_servers map_defaults role
        ename pname N (w : world rng) :
  NoDup (dict_keys profiles) ->
  NoDup (dict_values profiles) ->
  profiles <> [] ->
  percent_free role = true ->
  percent_free ename = true ->
  percent_free pname = true ->
  loop_bound no_of_servers = Some N ->
  exists cycle w0 data w',
    _get_cycle_list rng_seed rng_choice (fqdn_template role ename pname)
                    (dict_keys profiles) w = Ok (cycle, w0) /\
    _get_map_data rng_seed rng_choice profiles no_of_servers map_defaults
                  (fqdn_template role ename pname) w = Ok (data, w') /\
    (forall i,
        1 <= i <= N ->
        exists az name hosts,
          nth_error cycle ((i - 1) mod List.length profiles) = Some az /\
          dict_get az profiles = Some name /\
          dict_get name data = Some hosts /\
          dict_get (hostname role ename pname i) hosts = Some map_defaults) /\
    (forall name hosts h v,
        dict_get name data = Some hosts ->
        In (h, v) hosts ->
        v = map_defaults /\
        exists i, 1 <= i <= N /\ h = hostname role ename pname i).
Proof.
  intros Hkeys Hvalues Hne Hr He Hp Hbound.
  assert (Hne' : dict_keys profiles <> []).
  { destruct profiles; [congruence|discriminate]. }
  destruct (_get_cycle_list_Ok rng_seed rng_choice choice_in_range
              (fqdn_template role ename pname) (dict_keys profiles) w Hne')
    as (first & w0 & Hcycle & Hfirst).
  apply nth_error_In in Hfirst.
  set (l := list_remove first (dict_keys profiles)) in *.
  assert (Hnd : NoDup (first :: l)) by now apply list_remove_NoDup.
  assert (Hlen : S (List.length l) = List.length profiles).
  { change (S (List.length l)) with (List.length (first :: l)).
    unfold l. rewrite list_remove_length by assumption.
    unfold dict_keys. apply length_map. }
  assert (Hnamed : forall az, In az (first :: l) ->
                              exists name, dict_get az profiles = Some name).
  { intros az [<-|Hin].
    - destruct (dict_get first profiles) eqn:E; eauto.
      apply dict_get_None in E. tauto.
    - apply list_remove_incl in Hin.
      destruct (dict_get az profiles) eqn:E; eauto.
      apply dict_get_None in E. tauto. }
  destruct (distribution_loop profiles map_defaults
              (fqdn_template role ename pname) (hostname role ename pname)
              first l
              (fun i => py_format_fqdn role ename pname i Hr He Hp)
              (hostname_inj role ename pname) Hnd Hnamed
              (fun az az' name => values_differ profiles az az' name Hvalues)
              N)
    as (data & Hloop & Hget & _ & _ & Hnames).
  exists (first :: l), w0, data, w0.
  split; [exact Hcycle|]. split; [|split].
  - unfold _get_map_data, bind. rewrite Hcycle. unfold lift.
    now rewrite Hbound, Hloop.
  - intros i Hi. rewrite <- Hlen.
    set (j := (i - 1) mod S (List.length l)).
    assert (Hj : j < S (List.length l))
      by (apply Nat.mod_upper_bound; discriminate).
    assert (Hin : In i (ordinals_at (S (List.length l)) j N)).
    { unfold ordinals_at. apply filter_In. split.
      - apply in_seq. lia.
      - apply Nat.eqb_refl. }
    exists (nth j (first :: l) first), (zone_name profiles first l j),
      (zone_hosts map_defaults (hostname role ename pname) l j N).
    split; [now apply nth_error_nth'|].
    split; [now apply name_at_get|].
    split.
    + rewrite (Hget j Hj).
      destruct (ordinals_at (S (List.length l)) j N); [destruct Hin|].
      reflexivity.
    + apply dict_get_NoDup; [apply hosts_at_NoDup, hostname_inj|].
      unfold zone_hosts.
      apply (in_map (fun i => (hostname role ename pname i, map_defaults)))
        in Hin. exact Hin.
  - intros name hosts h v Hh Hin.
    assert (Hk : In name (dict_keys data)).
    { apply dict_get_In in Hh. apply (in_map fst) in Hh. exact Hh. }
    destruct (Hnames name Hk) as (j & Hj & ->).
    rewrite (Hget j Hj) in Hh.
    destruct (ordinals_at (S (List.length l)) j N) eqn:E; [discriminate|].
    injection Hh as <-. unfold zone_hosts in Hin. rewrite E in Hin.
    apply in_map_iff in Hin. destruct Hin as (i & [= <- <-] & Hi).
    split; auto. exists i. split; auto.
    rewrite <- E in Hi. now apply ordinals_at_bound in Hi.
Qed.

End Placement.

(** ** The Role Resolver *)

Lemma security_groups_present tagged wrapped common_sec profile :
  wrap_security_groups (init_security_groups tagged) = Ok wrapped ->
  append_common common_sec wrapped = Ok profile ->
  dict_mem "security_groups" profile = true /\
  forall k, k <> "security_groups" ->
            dict_mem k profile = dict_mem k tagged.
Proof.
  intros Hw Ha.
  destruct (security_groups_steps _ _ _ _ Hw Ha) as (c & _ & Hsg & Hk).
  unfold dict_mem. rewrite Hsg. split; auto.
  intros k Hne. now rewrite Hk.
Qed.

(** Without a common security group in the role table no role is ever
    resolved: [_produce_profile] returns nothing, whatever the role. *)
Theorem _produce_profile_needs_common {rng} (w : world rng) server_role
        defaults profile_defs environment :
  common_security_group profile_defs = None ->
  forall r w',
    _produce_profile server_role defaults profile_defs environment w
    <> Ok (r, w').
Proof.
  intros Hc r w' H. unfold _produce_profile in H. rewrite Hc in H.
  run_inv H.
  unfold append_common in Hrun5.
  apply obind_Ok in Hrun5. destruct Hrun5 as (sg & _ & Hrun5).
  discriminate.
Qed.

(** The required-field gate: a resolution that returns returns [False]
    exactly when the layered role has no size or no image.  A role
    without security groups passes, since the list is made before the
    check.  One record is logged for the role, and the warning after it
    exactly when the role is refused; the generator is not touched. *)
Theorem _produce_profile_gate {rng} (w w' : world rng) server_role defaults
        profile_defs environment r :
  _produce_profile server_role defaults profile_defs environment w
  = Ok (r, w') ->
  exists stname overrides merged,
    role_and_overrides server_role = Ok (stname, overrides) /\
    layered_role server_role defaults profile_defs = Ok merged /\
    (r = Invalid <->
     dict_mem "size" merged = false \/ dict_mem "image" merged = false) /\
    generator w' = generator w /\
    match r with
    | Produced _ name =>
        name = stname /\
        log w' = log w ++ [LogInfo "Updating profile %s..." [stname]]
    | Invalid =>
        exists profile,
          log w' = log w ++
                   [LogInfo "Updating profile %s..." [stname];
                    LogWarn
                      "Server type %s does not have %s defined, it only has %s..."
                      [stname; VList (map VStr req_parameters);
                       VDict profile]]
    end.
Proof.
  intros H. unfold _produce_profile in H. run_inv H.
  destruct (security_groups_present _ _ _ _ Hrun4 Hrun5) as [Hsg Hother].
  assert (Hsize : dict_mem "size" a4 = dict_mem "size" a1).
  { rewrite Hother by discriminate. unfold dict_mem.
    now rewrite (tag_profile_volumes_other _ _ _ _ "size" Hrun3). }
  assert (Himage : dict_mem "image" a4 = dict_mem "image" a1).
  { rewrite Hother by discriminate. unfold dict_mem.
    now rewrite (tag_profile_volumes_other _ _ _ _ "image" Hrun3). }
  assert (Hlayered : layered_role server_role defaults profile_defs = Ok a1).
  { unfold layered_role. rewrite Hrun. simpl. rewrite Hrun1. simpl.
    exact Hrun2. }
  unfold LOG_info in Hrun0. injection Hrun0 as _ <-.
  exists v, v0, a1. split; auto. split; auto.
  change (forallb (fun reqs => dict_mem reqs a4) req_parameters)
    with (dict_mem "size" a4 &&
          (dict_mem "image" a4 && (dict_mem "security_groups" a4 && true)))%bool
    in H.
  rewrite Hsg, Hsize, Himage in H.
  destruct (dict_mem "size" a1), (dict_mem "image" a1); simpl in H;
    try (apply bind_Ok in H; destruct H as (u & w1 & Hwarn & H);
         unfold LOG_warn in Hwarn; injection Hwarn as _ <-;
         apply ret_Ok in H; destruct H as [E1 E2]; subst r w'; simpl;
         split; [split; auto|];
         split; [reflexivity|];
         eexists; rewrite <- app_assoc; reflexivity).
  apply ret_Ok in H. destruct H as [E1 E2]. subst r w'. simpl.
  split; [split; [discriminate|intros [?|?]; discriminate]|].
  auto.
Qed.

(* ================================================================== *)
(** ** The trees [consume_map] returns *)

Lemma dict_set_In {V} (k k0 : string) (v v0 : V) (d : amap V) :
  In (k, v) (dict_set k0 v0 d) -> (k = k0 /\ v = v0) \/ In (k, v) d.
Proof.
  induction d as [|[k' v'] d IH]; simpl.
  - intros [[= <- <-]|[]]. auto.
  - destruct (String.eqb k0 k'); simpl.
    + intros [[= <- <-]|H]; auto.
    + intros [H|H]; auto. destruct (IH H); auto.
Qed.

Lemma dict_update_In {V} (p : string * V) (d e : amap V) :
  In p (dict_update d e) -> In p d \/ In p e.
Proof.
  unfold dict_update. revert d.
  induction e as [|[k v] e IH]; intros d; simpl; auto.
  intros H. destruct (IH _ H) as [H1|H1]; auto.
  destruct p as [k' v']. destruct (dict_set_In _ _ _ _ _ H1) as [[-> ->]|H2];
    auto.
Qed.

Lemma dict_get_or_empty_In {V} (k k' : string) (v : V) (d : amap (amap V)) :
  In (k', v) match dict_get k d with Some o => o | None => [] end ->
  exists o, In (k, o) d /\ In (k', v) o.
Proof.
  destruct (dict_get k d) as [o|] eqn:E; [|intros []].
  intros H. exists o. split; auto. now apply dict_get_In.
Qed.

Lemma dict_get_setdefault {V} (k : string) (d : amap (amap V)) :
  dict_get k (if dict_mem k d then d else dict_set k [] d)
  = Some match dict_get k d with Some o => o | None => [] end.
Proof.
  unfold dict_mem. destruct (dict_get k d) eqn:E; auto.
  apply dict_get_set_same.
Qed.

Lemma dict_setdefault_In {V} (k k' : string) (o : amap V)
      (d : amap (amap V)) :
  In (k', o) (if dict_mem k d then d else dict_set k [] d) ->
  In (k', o) d \/ o = [].
Proof.
  destruct (dict_mem k d); auto.
  intros H. destruct (dict_set_In _ _ _ _ _ H) as [[_ ->]|]; auto.
Qed.

Lemma dict_keys_setdefault {V} (k : string) (v : amap V)
      (d : amap (amap V)) :
  dict_keys (dict_set k v (if dict_mem k d then d else dict_set k [] d))
  = keys_with k d.
Proof.
  unfold keys_with. rewrite dict_keys_set.
  destruct (dict_mem k d) eqn:E.
  - now rewrite E.
  - unfold dict_mem at 1. rewrite dict_get_set_same.
    rewrite dict_keys_set. now rewrite E.
Qed.

Lemma dict_get_del_if_same {V} (k : string) (d : amap V) :
  dict_get k (if dict_mem k d then dict_del k d else d) = None.
Proof.
  unfold dict_mem. destruct (dict_get k d) eqn:E; auto.
  apply dict_get_del_same.
Qed.

(** One turn of the loop over the availability zones. *)
Lemma expand_az_Ok envs pname ename stname profile profiles map_profiles
      az_name acc' :
  expand_az envs pname ename stname (profile, profiles, map_profiles) az_name
  = Ok acc' ->
  exists profile' role ifaces finished,
    py_str stname = Ok role /\
    acc' = (profile',
            dict_set ename
              (dict_set (profile_name role ename pname az_name) finished
                        match dict_get ename profiles with
                        | Some of_env => of_env
                        | None => []
                        end)
              (if dict_mem ename profiles then profiles
               else dict_set ename [] profiles),
            dict_set az_name (profile_name role ename pname az_name)
                     map_profiles) /\
    dict_get "network_interfaces" profile' = Some (VList ifaces) /\
    (forall k, k <> "network_interfaces" ->
               dict_get k profile' = dict_get k profile) /\
    lacks_fields stripped_fields finished /\
    (forall k, ~ In k stripped_fields ->
               dict_get k finished = dict_get k profile').
Proof.
  unfold expand_az. intros H.
  apply obind_Ok in H. destruct H as (profile' & Hp & H).
  apply obind_Ok in H. destruct H as (role & Hrole & H).
  rewrite dict_get_setdefault in H. injection H as <-.
  assert (Hni : exists ifaces,
             dict_get "network_interfaces" profile' = Some (VList ifaces) /\
             forall k, k <> "network_interfaces" ->
                       dict_get k profile' = dict_get k profile).
  { destruct (dict_mem "interfaces" profile).
    - run_inv Hp. injection Hp as <-. eexists. split.
      + apply dict_get_set_same.
      + intros k Hk. now rewrite !dict_get_set_other by exact Hk.
    - run_inv Hp. injection Hp as <-. eexists. split.
      + apply dict_get_set_same.
      + intros k Hk. now rewrite dict_get_set_other by exact Hk. }
  destruct Hni as (ifaces & Hni & Hother).
  exists profile', role, ifaces. eexists.
  split; [exact Hrole|]. split; [reflexivity|].
  split; [exact Hni|]. split; [exact Hother|]. split.
  - assert (Hnone : forall k d, dict_get k d = None ->
                               @dict_mem value k d = false).
    { intros k d E. unfold dict_mem. now rewrite E. }
    intros k [<-|[<-|[<-|[]]]]; apply Hnone.
    + rewrite !dict_get_del_if by discriminate.
      apply dict_get_del_same.
    + rewrite dict_get_del_if by discriminate.
      apply dict_get_del_if_same.
    + apply dict_get_del_if_same.
  - intros k Hk.
    assert (k <> "security_groups" /\ k <> "servers" /\ k <> "interfaces")
      as (H1 & H2 & H3).
    { repeat split; intros ->; apply Hk; simpl; auto. }
    rewrite !dict_get_del_if by assumption.
    now apply dict_get_del_other.
Qed.

Lemma every_profile_set (P : dict -> Prop) ename name finished profiles :
  every_profile P profiles -> P finished ->
  every_profile P
    (dict_set ename
       (dict_set name finished
                 match dict_get ename profiles with
                 | Some of_env => of_env
                 | None => []
                 end)
       (if dict_mem ename profiles then profiles
        else dict_set ename [] profiles)).
Proof.
  intros Hall Hp e o n p H1 H2.
  destruct (dict_set_In _ _ _ _ _ H1) as [[-> ->]| H1'].
  - destruct (dict_set_In _ _ _ _ _ H2) as [[-> ->]|H2']; auto.
    destruct (dict_get_or_empty_In _ _ _ _ H2') as (o & Ho & Hn).
    eapply Hall; eauto.
  - destruct (dict_setdefault_In _ _ _ _ H1') as [H| ->]; [|destruct H2].
    eapply Hall; eauto.
Qed.

Lemma every_host_update (P : string -> value -> Prop) ename data maps :
  every_host P maps ->
  (forall name hosts h v,
      In (name, hosts) data -> In (h, v) hosts -> P h v) ->
  every_host P
    (dict_set ename
       (dict_update match dict_get ename maps with
                    | Some of_env => of_env
                    | None => []
                    end data)
       (if dict_mem ename maps then maps else dict_set ename [] maps)).
Proof.
  intros Hall Hd e o n hosts h v H1 H2 H3.
  destruct (dict_set_In _ _ _ _ _ H1) as [[-> ->]| H1'].
  - destruct (dict_update_In _ _ _ H2) as [H2'|H2']; [|eauto].
    destruct (dict_get_or_empty_In _ _ _ _ H2') as (o & Ho & Hn).
    eapply Hall; eauto.
  - destruct (dict_setdefault_In _ _ _ _ H1') as [H| ->]; [|destruct H2].
    eapply Hall; eauto.
Qed.

Lemma dict_mem_In {V} (k : string) (d : amap V) :
  dict_mem k d = true <-> In k (dict_keys d).
Proof.
  unfold dict_mem. destruct (dict_get k d) eqn:E.
  - split; auto. intros _. apply dict_get_In in E.
    unfold dict_keys. change k with (fst (k, v)). now apply in_map.
  - apply dict_get_None in E. split; [discriminate|contradiction].
Qed.

Lemma keys_with_In {V} (k k' : string) (d : amap V) :
  In k' (keys_with k d) <-> k' = k \/ In k' (dict_keys d).
Proof.
  unfold keys_with. destruct (dict_mem k d) eqn:E.
  - apply dict_mem_In in E. split; auto. now intros [->|].
  - rewrite in_app_iff. simpl. intuition.
Qed.

(** The loop over the availability zones, on the profile tree. *)
Lemma expand_az_loop_profiles envs pname ename stname (P : dict -> Prop) :
  (forall finished,
      has_fields finished_fields finished ->
      lacks_fields stripped_fields finished -> P finished) ->
  forall azs acc acc',
    ofold (expand_az envs pname ename stname) azs acc = Ok acc' ->
    has_fields working_fields (fst (fst acc)) ->
    every_profile P (snd (fst acc)) ->
    every_profile P (snd (fst acc')) /\
    dict_keys (snd (fst acc')) =
    match azs with
    | [] => dict_keys (snd (fst acc))
    | _ => keys_with ename (snd (fst acc))
    end.
Proof.
  intros HP.
  induction azs as [|az azs IH]; intros [[profile profiles] mp] acc' H Hw Hall.
  - injection H as <-. auto.
  - simpl in H. apply obind_Ok in H. destruct H as (acc1 & Hstep & H).
    destruct (expand_az_Ok _ _ _ _ _ _ _ _ _ Hstep)
      as (profile' & role & ifaces & finished & Hrole & -> & Hni & Hother
          & Hlacks & Hkeep).
    simpl fst in *; simpl snd in *.
    assert (Hw' : has_fields working_fields profile').
    { intros k Hk. unfold dict_mem. rewrite Hother.
      - apply (Hw k Hk).
      - intros ->. simpl in Hk. intuition discriminate. }
    assert (Hfin : has_fields finished_fields finished).
    { intros k Hk. unfold dict_mem. rewrite Hkeep.
      - destruct Hk as [<-|[<-|[<-|[<-|[<-|[]]]]]];
          try solve [apply (Hw' _); simpl; auto 6].
        now rewrite Hni.
      - unfold stripped_fields. simpl in Hk |- *.
        intuition (subst; discriminate). }
    specialize (IH _ _ H Hw'
                   (every_profile_set P _ _ _ _ Hall (HP _ Hfin Hlacks))).
    simpl fst in IH; simpl snd in IH.
    destruct IH as [IH1 IH2]. split; [exact IH1|].
    rewrite IH2. rewrite dict_keys_setdefault.
    destruct azs; auto.
    unfold keys_with at 1. unfold dict_mem at 1.
    rewrite dict_get_set_same. apply dict_keys_setdefault.
Qed.

Section Trees.
Context {rng : Type} (rng_seed : string -> rng)
        (rng_choice : rng -> nat -> nat * rng).

(** What [_get_map_data] returns when it returns: every host carries
    [map_defaults]; there was a zone to place it in; the log is as it
    was. *)
Lemma _get_map_data_Ok profiles no_of_servers map_defaults fqdn
      (w w' : world rng) data :
  _get_map_data rng_seed rng_choice profiles no_of_servers map_defaults fqdn w
  = Ok (data, w') ->
  log w' = log w /\ profiles <> [] /\
  forall name hosts h v,
    In (name, hosts) data -> In (h, v) hosts -> v = map_defaults.
Proof.
  unfold _get_map_data. intros H.
  apply bind_Ok in H. destruct H as (cycle & w0 & Hc & H).
  apply lift_Ok in H. destruct H as [H ->].
  unfold _get_cycle_list in Hc.
  apply bind_Ok in Hc. destruct Hc as (u & w1 & Hs & Hc).
  apply bind_Ok in Hc. destruct Hc as (first & w2 & Hch & Hc).
  apply ret_Ok in Hc. destruct Hc as [-> ->].
  unfold random_seed in Hs. injection Hs as _ <-.
  unfold random_choice in Hch. simpl in Hch.
  assert (Hne : profiles <> []).
  { intros ->. discriminate. }
  assert (Hlog : log w2 = log w).
  { destruct (dict_keys profiles); [discriminate|].
    destruct (rng_choice _ _) as [i g].
    destruct (nth_error _ i); [|discriminate].
    now injection Hch as _ <-. }
  split; [exact Hlog|]. split; [exact Hne|].
  destruct (loop_bound no_of_servers) as [n|].
  - refine (ofold_invariant _
              (fun rp : amap dict =>
                 forall name hosts h v,
                   In (name, hosts) rp -> In (h, v) hosts ->
                   v = map_defaults) _ _ _ _ _ H);
      [|intros ? ? ? ? []].
    intros i rp rp' Hall Hstep. unfold assign_host in Hstep.
    destruct (dict_get _ profiles) as [pname|]; [|discriminate].
    apply obind_Ok in Hstep. destruct Hstep as (host & _ & Hstep).
    rewrite (dict_get_setdefault (V:=value)) in Hstep.
    injection Hstep as <-.
    intros name hosts h v H1 H2.
    destruct (dict_set_In _ _ _ _ _ H1) as [[-> ->]| H1'].
    + destruct (dict_set_In _ _ _ _ _ H2) as [[_ ->]|H2']; auto.
      destruct (dict_get_or_empty_In (V:=value) _ _ _ _ H2')
        as (o & Ho & Hn).
      eauto.
    + destruct (dict_setdefault_In _ _ _ _ H1') as [Hin| ->]; [|destruct H2].
      eauto.
  - apply obind_Ok in H. destruct H as (? & _ & H). discriminate.
Qed.

(** A role the resolver accepts has a size and an image, and has been
    logged once. *)
Lemma _produce_profile_checked (w w' : world rng) server_role defaults
      profile_defs environment profile stname :
  _produce_profile server_role defaults profile_defs environment w
  = Ok (Produced profile stname, w') ->
  dict_mem "size" profile = true /\ dict_mem "image" profile = true /\
  log w' = log w ++ [LogInfo "Updating profile %s..." [stname]].
Proof.
  intros H. unfold _produce_profile in H. run_inv H.
  destruct (forallb _ req_parameters) eqn:E; [|run_inv H; discriminate].
  apply ret_Ok in H. destruct H as [[= <- <-] ->].
  unfold LOG_info in Hrun0. injection Hrun0 as _ <-.
  change (forallb (fun reqs => dict_mem reqs profile) req_parameters)
    with (dict_mem "size" profile &&
          (dict_mem "image" profile &&
           (dict_mem "security_groups" profile && true)))%bool
    in E.
  apply andb_true_iff in E. destruct E as [E1 E].
  apply andb_true_iff in E. destruct E as [E2 _].
  auto.
Qed.

(** One turn of the loop over the roles of an environment, on the two
    trees and on the log. *)
Lemma expand_role_step envs role_defaults roles cloud_defaults pname ename
      no_of_servers profiles maps server_role (w w' : world rng)
      profiles' maps' entry (P : dict -> Prop) :
  (forall finished,
      has_fields finished_fields finished ->
      lacks_fields stripped_fields finished -> P finished) ->
  dict_get ename envs = Some entry ->
  expand_role rng_seed rng_choice envs role_defaults roles cloud_defaults
              pname ename no_of_servers (profiles, maps) server_role w
  = Ok (profiles', maps', w') ->
  (every_profile P profiles -> every_profile P profiles') /\
  (exists map_defaults,
      py_getitem cloud_defaults "mappings" = Ok map_defaults /\
      (every_host (fun _ v => v = map_defaults) maps ->
       every_host (fun _ v => v = map_defaults) maps')) /\
  dict_keys profiles' = keys_with ename profiles /\
  dict_keys maps' = keys_with ename maps /\
  availability_zones entry <> [] /\
  exists stname,
    log w' = log w ++ [LogInfo "Updating profile %s..." [stname]].
Proof.
  intros HP He H.
  destruct (expand_role_Ok _ _ _ _ _ _ _ _ _ _ _ _ _ _ _ _ _ He H)
    as (profile & stname & w1 & last & map_profiles & role & map_defaults
        & data & Hprod & Hloop & Hstr & Hmd & Hdata & ->).
  destruct (_produce_profile_checked _ _ _ _ _ _ _ _ Hprod)
    as (Hsize & Himage & Hlog).
  destruct (_get_map_data_Ok _ _ _ _ _ _ _ Hdata) as (Hlog' & Hne & Hall).
  assert (Hw : has_fields working_fields
                 (dict_set "tag" (VDict (_get_tags ename stname))
                           (dict_set "provider" (VStr pname) profile))).
  { intros k [<-|[<-|[<-|[<-|[]]]]]; unfold dict_mem.
    - rewrite !dict_get_set_other by discriminate. exact Hsize.
    - rewrite !dict_get_set_other by discriminate. exact Himage.
    - rewrite dict_get_set_other by discriminate.
      now rewrite dict_get_set_same.
    - now rewrite dict_get_set_same. }
  assert (Hazs : availability_zones entry <> []).
  { intros E. rewrite E in Hloop. injection Hloop as _ _ <-.
    now apply Hne. }
  split; [|split; [|split; [|split; [|split]]]].
  - intros Hprofiles.
    apply (expand_az_loop_profiles _ _ _ _ P HP _ _ _ Hloop Hw Hprofiles).
  - exists map_defaults. split; [exact Hmd|]. intros Hmaps.
    apply every_host_update; [exact Hmaps|].
    intros name hosts h v H1 H2. eapply Hall; eauto.
  - destruct (expand_az_loop_profiles _ _ _ _ (fun _ => True)
                (fun _ _ _ => I) _ _ _ Hloop Hw) as [_ Hkeys].
    + intros ? ? ? ? _ _. exact I.
    + simpl in Hkeys. rewrite Hkeys.
      destruct (availability_zones entry); congruence.
  - apply dict_keys_setdefault.
  - exact Hazs.
  - exists stname. now rewrite Hlog'.
Qed.

(** An invariant of the two trees that every expanded role keeps is kept
    by the whole pass over [in_servers]. *)
Lemma servers_pass_invariant t role_defaults cloud_defaults
      (I : amap (amap dict) -> amap (amap dict) -> Prop) :
  (forall pname ename no_of_servers profiles maps server_role
          (w w' : world rng) profiles' maps' entry,
      dict_get ename (environments t) = Some entry ->
      I profiles maps ->
      expand_role rng_seed rng_choice (environments t) role_defaults
                  (server_roles t) cloud_defaults pname ename no_of_servers
                  (profiles, maps) server_role w
      = Ok (profiles', maps', w') ->
      I profiles' maps') ->
  forall wanted acc acc' (w w' : world rng),
    I (out_profiles acc) (out_maps acc) ->
    foldM (expand_provider rng_seed rng_choice t role_defaults
                           cloud_defaults) wanted acc w = Ok (acc', w') ->
    I (out_profiles acc') (out_maps acc').
Proof.
  intros Hstep wanted acc acc' w w' Hacc H.
  refine (foldM_invariant _ (fun _ a => I (out_profiles a) (out_maps a))
            _ wanted [] acc acc' w w' Hacc H).
  clear Hacc H. clear w w' acc acc'.
  intros _ [pname provider] a a' w w' Ha H.
  unfold expand_provider in H.
  destruct (dict_get pname (out_providers a)) as [conf|].
  2:{ run_inv H. exact Ha. }
  run_inv H. simpl.
  refine (foldM_invariant _ (fun _ pm => I (fst pm) (snd pm))
            _ _ [] (out_profiles a, out_maps a) (_, _) _ _ Ha Hrun1).
  intros _ [ename environment] pm pm' w1 w2 Hpm Hx.
  unfold expand_environment in Hx.
  destruct (dict_mem ename (environments t)) eqn:Hmem; simpl in Hx.
  2:{ run_inv Hx. exact Hpm. }
  apply dict_mem_get in Hmem. destruct Hmem as [entry He].
  run_inv Hx.
  refine (foldM_invariant _ (fun _ pm => I (fst pm) (snd pm))
            _ _ [] pm pm' _ _ Hpm Hx).
  intros _ server_role [p m] [p' m'] w3 w4 Hp Hr.
  simpl in *. eapply Hstep; eauto.
Qed.

(** Every profile of the profile tree is a finished one: it has a size,
    an image, a provider, a tag and its network interfaces, and it has no
    [security_groups], [servers] or [interfaces] left. *)
Theorem profiles_tree_finished in_providers in_servers cloud_defaults
        (w w' : world rng) out after :
  consume_map rng_seed rng_choice in_providers in_servers cloud_defaults w
  = Ok (out, after, w') ->
  every_profile (fun profile => has_fields finished_fields profile /\
                                lacks_fields stripped_fields profile)
                (out_profiles out).
Proof.
  intros H.
  destruct (consume_map_Ok _ _ _ _ _ _ _ _ _ H)
    as (declared & roles & t & role_defaults & wanted & w1 & _ & _ & _ & _
        & Hpass & _).
  refine (servers_pass_invariant t role_defaults cloud_defaults
            (fun profiles _ => every_profile _ profiles)
            _ wanted _ out w1 w' _ Hpass).
  - intros pname ename n profiles maps server_role w2 w3 profiles' maps'
           entry He Hall Hrole.
    eapply (expand_role_step _ _ _ _ _ _ _ _ _ _ _ _ _ _ _
              (fun profile => has_fields finished_fields profile /\
                              lacks_fields stripped_fields profile))
      in Hrole; [|auto|exact He].
    now apply Hrole.
  - intros ? ? ? ? [].
Qed.

(** Every host of the map tree carries [cloud_defaults['mappings']]. *)
Theorem maps_tree_defaults in_providers in_servers cloud_defaults
        (w w' : world rng) out after :
  consume_map rng_seed rng_choice in_providers in_servers cloud_defaults w
  = Ok (out, after, w') ->
  every_host (fun _ v => py_getitem cloud_defaults "mappings" = Ok v)
             (out_maps out).
Proof.
  intros H.
  destruct (consume_map_Ok _ _ _ _ _ _ _ _ _ H)
    as (declared & roles & t & role_defaults & wanted & w1 & _ & _ & _ & _
        & Hpass & _).
  refine (servers_pass_invariant t role_defaults cloud_defaults
            (fun _ maps => every_host _ maps)
            _ wanted _ out w1 w' _ Hpass).
  - intros pname ename n profiles maps server_role w2 w3 profiles' maps'
           entry He Hall Hrole.
    eapply (expand_role_step _ _ _ _ _ _ _ _ _ _ _ _ _ _ _ (fun _ => True))
      in Hrole; [|auto|exact He].
    destruct Hrole as (_ & (md & Hmd & Hmaps) & _).
    assert (Hmd' : every_host (fun _ v => v = md) maps).
    { intros e o name hosts h v H1 H2 H3.
      specialize (Hall _ _ _ _ _ _ H1 H2 H3). simpl in Hall. congruence. }
    intros e o name hosts h v H1 H2 H3.
    rewrite (Hmaps Hmd' _ _ _ _ _ _ H1 H2 H3). exact Hmd.
  - intros ? ? ? ? ? ? [].
Qed.

(** The profile tree and the map tree have the same environments, in
    the same order and each once; every one of them is an environment a
    provider declares, with at least one availability zone. *)
Theorem trees_environments in_providers in_servers cloud_defaults
        (w w' : world rng) out after :
  consume_map rng_seed rng_choice in_providers in_servers cloud_defaults w
  = Ok (out, after, w') ->
  dict_keys (out_profiles out) = dict_keys (out_maps out) /\
  NoDup (dict_keys (out_profiles out)) /\
  forall ename,
    In ename (dict_keys (out_profiles out)) ->
    exists declared entry,
      in_providers = VDict declared /\
      last_declared (env_declared_by ename) declared = Some entry /\
      availability_zones entry <> [].
Proof.
  intros H.
  destruct (consume_map_Ok _ _ _ _ _ _ _ _ _ H)
    as (declared & roles & t & role_defaults & wanted & w1 & -> & _ & Ht & _
        & Hpass & _).
  assert (Hinv :
            dict_keys (out_profiles out) = dict_keys (out_maps out) /\
            NoDup (dict_keys (out_profiles out)) /\
            forall ename,
              In ename (dict_keys (out_profiles out)) ->
              exists entry,
                dict_get ename (environments t) = Some entry /\
                availability_zones entry <> []).
  { refine (servers_pass_invariant t role_defaults cloud_defaults
              (fun profiles maps =>
                 dict_keys profiles = dict_keys maps /\
                 NoDup (dict_keys profiles) /\
                 forall ename,
                   In ename (dict_keys profiles) ->
                   exists entry,
                     dict_get ename (environments t) = Some entry /\
                     availability_zones entry <> [])
              _ wanted _ out w1 w' _ Hpass).
    - intros pname ename n profiles maps server_role w2 w3 profiles' maps'
             entry He (Hsame & Hnd & Hdecl) Hrole.
      eapply (expand_role_step _ _ _ _ _ _ _ _ _ _ _ _ _ _ _ (fun _ => True))
        in Hrole; [|auto|exact He].
      destruct Hrole as (_ & _ & Hp & Hm & Hazs & _).
      rewrite Hp, Hm. split; [|split].
      + unfold keys_with, dict_mem.
        assert (Hmem : forall k, dict_mem k profiles = dict_mem k maps).
        { intros k. apply eq_true_iff_eq. rewrite !dict_mem_In.
          now rewrite Hsame. }
        specialize (Hmem ename). unfold dict_mem in Hmem.
        rewrite Hmem, Hsame. reflexivity.
      + unfold keys_with. destruct (dict_mem ename profiles) eqn:E; auto.
        apply NoDup_app; [exact Hnd|repeat constructor; intros []|].
        intros k Hk [<-|[]].
        apply dict_mem_In in Hk. congruence.
      + intros e He'. apply keys_with_In in He'. destruct He' as [->|He'].
        * eauto.
        * now apply Hdecl.
    - simpl. split; [reflexivity|]. split; [constructor|intros ? []]. }
  destruct Hinv as (Hsame & Hnd & Hdecl).
  split; [exact Hsame|]. split; [exact Hnd|].
  intros ename He. destruct (Hdecl _ He) as (entry & Hentry & Hazs).
  exists declared, entry. split; [reflexivity|]. split; [|exact Hazs].
  rewrite (environments_last_declared _ _ _ _ _ _ ename Ht) in Hentry.
  simpl in Hentry.
  destruct (last_declared (env_declared_by ename) declared);
    [exact Hentry|discriminate].
Qed.

(** A role is never skipped: when the loop over the roles gets past
    one, the role is in both trees under its environment, and the log
    has the resolver's one record and no warning.  The branch that would
    warn and continue is never taken. *)
Theorem role_never_skipped envs role_defaults roles cloud_defaults pname
        ename no_of_servers profiles maps server_role (w w' : world rng)
        profiles' maps' :
  expand_role rng_seed rng_choice envs role_defaults roles cloud_defaults
              pname ename no_of_servers (profiles, maps) server_role w
  = Ok (profiles', maps', w') ->
  In ename (dict_keys profiles') /\ In ename (dict_keys maps') /\
  exists stname,
    log w' = log w ++ [LogInfo "Updating profile %s..." [stname]].
Proof.
  intros H.
  destruct (dict_get ename envs) as [entry|] eqn:He.
  - eapply (expand_role_step _ _ _ _ _ _ _ _ _ _ _ _ _ _ _ (fun _ => True))
      in H; [|auto|exact He].
    destruct H as (_ & _ & Hp & Hm & _ & Hlog).
    rewrite Hp, Hm, !keys_with_In. auto.
  - exfalso. unfold expand_role in H.
    apply bind_Ok in H. destruct H as (made & w1 & Hmade & H).
    destruct made as [|profile stname]; [discriminate|].
    destruct (_produce_profile_Produced _ _ _ _ _ _ _ _ Hmade)
      as (? & ? & ? & c & _ & _ & _ & _ & Hsg & _).
    assert (Htruthy : py_truthy (VDict profile) = true).
    { destruct profile; [discriminate|reflexivity]. }
    rewrite Htruthy, He in H. simpl in H.
    apply bind_Ok in H. destruct H as (? & ? & H & _). discriminate.
Qed.

Lemma providers_pass_names cloud_defaults :
  forall items t0 t (w w' : world rng),
    foldM (consume_provider cloud_defaults) items t0 w = Ok (t, w') ->
    NoDup (dict_keys (providers t0)) ->
    NoDup (dict_keys (providers t)) /\
    forall k, In k (dict_keys (providers t)) <->
              In k (dict_keys (providers t0)) \/ In k (dict_keys items).
Proof.
  induction items as [|[name prov] items IH]; intros t0 t w w' H Hnd.
  - apply ret_Ok in H. destruct H as [-> _]. simpl. intuition.
  - simpl in H. apply bind_Ok in H. destruct H as (t1 & w1 & Hstep & H).
    destruct (consume_provider_Ok _ _ _ _ _ _ _ Hstep)
      as (fields & declared & provider & _ & _ & _ & Hp & _).
    assert (Hkeys : dict_keys (providers t1) = keys_with name (providers t0)).
    { rewrite Hp. apply dict_keys_set. }
    destruct (IH _ _ _ _ H) as [Hnd' Hin].
    + rewrite Hkeys. unfold keys_with.
      destruct (dict_mem name (providers t0)) eqn:E; auto.
      apply NoDup_app; [exact Hnd|repeat constructor; intros []|].
      intros k Hk [<-|[]]. apply dict_mem_In in Hk. congruence.
    + split; [exact Hnd'|]. intros k. rewrite Hin, Hkeys, keys_with_In.
      simpl. intuition.
Qed.

Lemma servers_pass_names t role_defaults cloud_defaults :
  forall wanted acc acc' (w w' : world rng),
    foldM (expand_provider rng_seed rng_choice t role_defaults
                           cloud_defaults) wanted acc w = Ok (acc', w') ->
    dict_keys (out_providers acc') = dict_keys (out_providers acc).
Proof.
  induction wanted as [|[pname provider] wanted IH]; intros acc acc' w w' H.
  - apply ret_Ok in H. now destruct H as [-> _].
  - simpl in H. apply bind_Ok in H. destruct H as (acc1 & w1 & Hstep & H).
    rewrite (IH _ _ _ _ H).
    rewrite (expand_provider_providers _ _ _ _ _ _ _ _ _ _ _ Hstep).
    destruct (dict_get pname (out_providers acc)) eqn:E; auto.
    rewrite dict_keys_set. unfold dict_mem. now rewrite E.
Qed.

(** The providers tree has the providers [in_providers] declares, each
    once, whatever [in_servers] asks for. *)
Theorem providers_tree_names in_providers in_servers cloud_defaults
        (w w' : world rng) out after :
  consume_map rng_seed rng_choice in_providers in_servers cloud_defaults w
  = Ok (out, after, w') ->
  exists declared,
    in_providers = VDict declared /\
    NoDup (dict_keys (out_providers out)) /\
    forall name, In name (dict_keys (out_providers out)) <->
                 In name (dict_keys declared).
Proof.
  intros H.
  destruct (consume_map_Ok _ _ _ _ _ _ _ _ _ H)
    as (declared & roles & t & role_defaults & wanted & w1 & -> & _ & Ht & _
        & Hpass & _).
  exists declared. split; [reflexivity|].
  rewrite (servers_pass_names _ _ _ _ _ _ _ _ Hpass). simpl.
  destruct (providers_pass_names _ _ _ _ _ _ Ht) as [Hnd Hin].
  - constructor.
  - split; [exact Hnd|]. intros name. rewrite Hin. simpl. intuition.
Qed.

(** Servers asked of providers that are not declared produce nothing:
    the profile tree and the map tree stay empty, and every such
    provider is warned about once, in order. *)
Theorem undeclared_providers_skipped in_providers in_servers cloud_defaults
        (w w' : world rng) out after declared wanted :
  in_providers = VDict declared ->
  in_servers = VDict wanted ->
  (forall name, In name (dict_keys wanted) ->
                ~ In name (dict_keys declared)) ->
  consume_map rng_seed rng_choice in_providers in_servers cloud_defaults w
  = Ok (out, after, w') ->
  out_profiles out = [] /\ out_maps out = [] /\
  exists before,
    log w' =
    before ++
    map (fun name =>
           LogWarn "No provider with name %s in %s."
                   [VStr name;
                    VList (map VStr (dict_keys (out_providers out)))])
        (dict_keys wanted).
Proof.
  intros -> -> Hnone H.
  destruct (consume_map_Ok _ _ _ _ _ _ _ _ _ H)
    as (declared' & roles & t & role_defaults & wanted' & w1 & [= <-]
        & [= <-] & Ht & _ & Hpass & _).
  destruct (providers_pass_names _ _ _ _ _ _ Ht (NoDup_nil _)) as [_ Hin].
  simpl in Hin.
  assert (Hskip :
            forall items acc acc' (wa wb : world rng),
              (forall name, In name (dict_keys items) ->
                            ~ In name (dict_keys (out_providers acc))) ->
              foldM (expand_provider rng_seed rng_choice t role_defaults
                                     cloud_defaults) items acc wa
              = Ok (acc', wb) ->
              acc' = acc /\
              log wb =
              log wa ++
              map (fun name =>
                     LogWarn "No provider with name %s in %s."
                             [VStr name;
                              VList (map VStr
                                         (dict_keys (out_providers acc)))])
                  (dict_keys items)).
  { induction items as [|[name provider] items IH];
      intros acc acc' wa wb Hun Hf.
    - apply ret_Ok in Hf. destruct Hf as [-> ->]. simpl.
      now rewrite app_nil_r.
    - simpl in Hf. apply bind_Ok in Hf. destruct Hf as (acc1 & wc & Hstep & Hf).
      unfold expand_provider in Hstep.
      destruct (dict_get name (out_providers acc)) eqn:E.
      { exfalso. apply (Hun name); [simpl; auto|].
        apply dict_mem_In. unfold dict_mem. now rewrite E. }
      apply bind_Ok in Hstep. destruct Hstep as (u & wd & Hwarn & Hstep).
      apply ret_Ok in Hstep. destruct Hstep as [-> ->].
      unfold LOG_warn in Hwarn. injection Hwarn as _ <-.
      destruct (IH _ _ _ _ (fun n Hn => Hun n (or_intror Hn)) Hf)
        as [-> Hlog].
      split; [reflexivity|]. rewrite Hlog. simpl.
      now rewrite <- app_assoc. }
  destruct (Hskip wanted (mk_trees (providers t) [] []) out w1 w')
    as [-> Hlog]; [|exact Hpass|].
  - intros n Hn Hp. simpl in Hp. apply (Hnone n Hn).
    apply Hin in Hp. destruct Hp as [[]|Hp]. exact Hp.
  - simpl. split; [reflexivity|]. split; [reflexivity|].
    exists (log w1). exact Hlog.
Qed.

(** An environment declared with an empty list of subnets has no
    availability zone, and a role the resolver accepts for it stops the
    run: [random.choice] is handed the empty list of zones. *)
Theorem zoneless_environment_aborts envs role_defaults roles cloud_defaults
        pname ename no_of_servers acc server_role (w w1 : world rng)
        entry profile stname role map_defaults :
  dict_get ename envs = Some entry ->
  availability_zones entry = [] ->
  _produce_profile server_role role_defaults roles ename w
  = Ok (Produced profile stname, w1) ->
  py_str stname = Ok role ->
  py_getitem cloud_defaults "mappings" = Ok map_defaults ->
  expand_role rng_seed rng_choice envs role_defaults roles cloud_defaults
              pname ename no_of_servers acc server_role w
  = Raise IndexError.
Proof.
  intros He Hazs Hprod Hrole Hmd. destruct acc as [profiles maps].
  destruct (_produce_profile_Produced _ _ _ _ _ _ _ _ Hprod)
    as (? & ? & ? & c & _ & _ & _ & _ & Hsg & _).
  assert (Htruthy : py_truthy (VDict profile) = true).
  { destruct profile; [discriminate|reflexivity]. }
  unfold expand_role, bind. rewrite Hprod, Htruthy. simpl negb. cbv iota.
  rewrite He, Hazs. unfold lift at 1. simpl ofold. cbv iota beta.
  rewrite Hrole. unfold lift at 1. cbv iota beta.
  rewrite Hmd. unfold lift at 1. cbv iota beta.
  reflexivity.
Qed.

End Trees.

(* ================================================================== *)
(** ** The state [managed] *)

Lemma fold_left_map_ext {A B C} (f : A -> B -> A) (g : A -> C -> A)
      (h : B -> C) :
  (forall a x, f a x = g a (h x)) ->
  forall l a, fold_left f l a = fold_left g (map h l) a.
Proof.
  intros Hfg. induction l as [|x l IH]; intros a; simpl; auto.
  now rewrite Hfg, IH.
Qed.

Lemma noted_snoc crs cr j :
  noted (crs ++ [cr]) j = note (call_path (fst cr)) (snd cr) (noted crs j).
Proof. unfold noted. now rewrite fold_left_app. Qed.

Lemma noted_comments crs j :
  comments (noted crs j)
  = comments j ++ map (fun cr => comment_of (snd cr)) crs.
Proof.
  induction crs as [|cr crs IH] using rev_ind.
  - simpl. now rewrite app_nil_r.
  - rewrite noted_snoc, map_app. simpl. rewrite IH. now rewrite app_assoc.
Qed.

Lemma noted_results crs j :
  results (noted crs j)
  = results j ++ map (fun cr => result_of (snd cr)) crs.
Proof.
  induction crs as [|cr crs IH] using rev_ind.
  - simpl. now rewrite app_nil_r.
  - rewrite noted_snoc, map_app. simpl. rewrite IH. now rewrite app_assoc.
Qed.

Lemma noted_changes path crs j :
  dict_get path (changes (noted crs j)) =
  match last_declared (reported path) crs with
  | Some c => Some c
  | None => dict_get path (changes j)
  end.
Proof.
  induction crs as [|cr crs IH] using rev_ind; [reflexivity|].
  rewrite noted_snoc, last_declared_snoc. unfold reported at 1. simpl.
  destruct (py_truthy (changes_of (snd cr))).
  - destruct (String.eqb path (call_path (fst cr))) eqn:E; simpl.
    + apply String.eqb_eq in E. subst. apply dict_get_set_same.
    + apply String.eqb_neq in E. now rewrite dict_get_set_other.
  - rewrite andb_false_r. exact IH.
Qed.

Lemma dict_set_Forall {V} (P : string * V -> Prop) k v (d : amap V) :
  Forall P d -> P (k, v) -> Forall P (dict_set k v d).
Proof.
  intros Hd Hp. induction Hd as [|[k' v'] d Hkv Hd IH]; simpl.
  - repeat constructor. exact Hp.
  - destruct (String.eqb k k'); constructor; auto.
Qed.

Lemma noted_truthy crs j :
  Forall (fun sc => py_truthy (snd sc) = true) (changes j) ->
  Forall (fun sc => py_truthy (snd sc) = true) (changes (noted crs j)).
Proof.
  intros Hj. induction crs as [|cr crs IH] using rev_ind; [exact Hj|].
  rewrite noted_snoc. simpl.
  destruct (py_truthy (changes_of (snd cr))) eqn:E; [|exact IH].
  now apply dict_set_Forall.
Qed.

Lemma filter_all {A} (f : A -> bool) (l : list A) :
  Forall (fun x => f x = true) l -> filter f l = l.
Proof.
  induction 1 as [|x l Hx Hl IH]; simpl; auto.
  now rewrite Hx, IH.
Qed.

Lemma map_snd_combined {A B C} (f : B -> C) (l : list A) :
  forall rs, List.length rs = List.length l ->
             map (fun cr => f (snd cr)) (combine l rs) = map f rs.
Proof.
  induction l as [|x l IH]; intros [|r rs] Hlen; try discriminate; auto.
  simpl. f_equal. apply IH. now injection Hlen.
Qed.

Section StateFacts.
Context {rng fs : Type} (rng_seed : string -> rng)
        (rng_choice : rng -> nat -> nat * rng).
Variable pillar_get : value -> value.
Variable file_directory :
  string -> value -> value -> value -> value -> fs -> state_return * fs.
Variable file_managed :
  string -> value -> value -> value -> string -> value -> fs ->
  state_return * fs.
Variable _ordered_dump : value -> string.
Variables file_mode dir_mode user group test : value.

Local Abbreviation perform' :=
  (perform file_directory file_managed _ordered_dump file_mode dir_mode
           user group test).
Local Abbreviation perform_all' :=
  (perform_all file_directory file_managed _ordered_dump file_mode dir_mode
               user group test).
Local Abbreviation step' :=
  (step file_directory file_managed _ordered_dump file_mode dir_mode
        user group test).

Lemma perform_all_length calls :
  forall s, List.length (fst (perform_all' calls s)) = List.length calls.
Proof.
  induction calls as [|c calls IH]; intros s; simpl; auto.
  destruct (perform' c s) as [r s1]. specialize (IH s1).
  destruct (perform_all' calls s1) as [rs s2]. simpl in *. now rewrite IH.
Qed.

Lemma step_all calls :
  forall j s,
    fold_left step' calls (j, s)
    = (noted (combine calls (fst (perform_all' calls s))) j,
       snd (perform_all' calls s)).
Proof.
  induction calls as [|c calls IH]; intros j s; simpl; auto.
  destruct (perform' c s) as [r s1]. rewrite IH.
  destruct (perform_all' calls s1) as [rs s2]. reflexivity.
Qed.

(** The three directories and the three loops are the calls of
    [file_calls], one after the other. *)
Lemma managed_steps dir out (j : journal) (s : fs) :
  let provider_path := path_join dir "cloud.providers.d" in
  let profile_path := path_join dir "cloud.profiles.d" in
  let map_path := path_join dir "cloud.maps" in
  fold_left (manage_map file_managed _ordered_dump map_path file_mode user
                        group test)
    (out_maps out)
    (fold_left (manage_profiles file_managed _ordered_dump profile_path
                                file_mode user group test)
       (out_profiles out)
       (fold_left (manage_provider file_managed _ordered_dump provider_path
                                   file_mode user group test)
          (out_providers out)
          (manage_directory file_directory map_path user group dir_mode test
             (manage_directory file_directory profile_path user group
                dir_mode test
                (manage_directory file_directory provider_path user group
                   dir_mode test (j, s))))))
  = fold_left step' (file_calls dir out) (j, s).
Proof.
  intros provider_path profile_path map_path.
  unfold file_calls. fold provider_path profile_path map_path.
  rewrite !fold_left_app.
  rewrite <- (fold_left_map_ext
                (manage_map file_managed _ordered_dump map_path file_mode
                            user group test) step')
    by (intros [j' s'] [k v]; reflexivity).
  rewrite <- (fold_left_map_ext
                (manage_profiles file_managed _ordered_dump profile_path
                                 file_mode user group test) step')
    by (intros [j' s'] [k v]; reflexivity).
  rewrite <- (fold_left_map_ext
                (manage_provider file_managed _ordered_dump provider_path
                                 file_mode user group test) step')
    by (intros [j' s'] [k v]; reflexivity).
  reflexivity.
Qed.

Local Abbreviation managed' :=
  (managed rng_seed rng_choice pillar_get file_directory file_managed
           _ordered_dump).

(** [managed] once [consume_map] has returned. *)
Lemma managed_run name dir servers_pillar providers_pillar defaults_pillar
      (w w' : world rng) (s : fs) out after :
  consume_map rng_seed rng_choice (pillar_get providers_pillar)
              (pillar_get servers_pillar) (pillar_get defaults_pillar) w
  = Ok (out, after, w') ->
  let calls := file_calls dir out in
  let returns := fst (perform_all' calls s) in
  let j := noted (combine calls returns) (mk_journal [] [] []) in
  managed' name (VStr dir) servers_pillar providers_pillar defaults_pillar
           file_mode dir_mode user group test w s
  = (comment <-? py_join newline (filter py_truthy (comments j)) ;;
     Ok ([("name", name);
          ("result", VBool (forallb py_truthy (results j)));
          ("comment", VStr comment);
          ("changes", VDict (changes j))], w'),
     snd (perform_all' calls s)).
Proof.
  intros H calls returns j. unfold managed.
  unfold os_path_join. simpl obind. cbv iota beta. rewrite H.
  rewrite (managed_steps dir out), step_all. fold calls returns j.
  rewrite (filter_all _ (changes j))
    by (apply noted_truthy; constructor).
  destruct (py_join newline (filter py_truthy (comments j))); reflexivity.
Qed.

(** [managed] calls the file states only once [consume_map] has
    returned: with a [conf_dir] that is no string, or a pillar
    [consume_map] raises on or never returns from, nothing is touched.
    Otherwise it makes the calls of [file_calls] in their order, whatever
    they return: the three directories, then one file for each provider,
    for each environment of the profile tree and for each environment of
    the map tree. *)
Theorem managed_files name conf_dir servers_pillar providers_pillar
        defaults_pillar (w : world rng) (s : fs) :
  snd (managed' name conf_dir servers_pillar providers_pillar
                defaults_pillar file_mode dir_mode user group test w s)
  = match conf_dir with
    | VStr dir =>
        match consume_map rng_seed rng_choice (pillar_get providers_pillar)
                          (pillar_get servers_pillar)
                          (pillar_get defaults_pillar) w with
        | Ok (out, _, _) => snd (perform_all' (file_calls dir out) s)
        | _ => s
        end
    | _ => s
    end.
Proof.
  destruct conf_dir as [| | |dir| |]; try reflexivity.
  destruct (consume_map _ _ _ _ _ w) as [[[out after] w']| |] eqn:H.
  - now rewrite (managed_run _ _ _ _ _ _ _ _ _ _ H).
  - unfold managed. simpl. now rewrite H.
  - unfold managed. simpl. now rewrite H.
Qed.

(** What [managed] returns: the name it was given; as result, whether
    the result of every call is true; as comment, the non-empty comments
    of the calls joined by newlines.  It raises only if one of these
    comments is no string.  The log and the generator are as
    [consume_map] leaves them. *)
Theorem managed_returns name dir servers_pillar providers_pillar
        defaults_pillar (w w' : world rng) (s : fs) out after :
  consume_map rng_seed rng_choice (pillar_get providers_pillar)
              (pillar_get servers_pillar) (pillar_get defaults_pillar) w
  = Ok (out, after, w') ->
  let returns := fst (perform_all' (file_calls dir out) s) in
  exists changes,
    fst (managed' name (VStr dir) servers_pillar providers_pillar
                  defaults_pillar file_mode dir_mode user group test w s)
    = (comment <-? py_join newline
                     (filter py_truthy (map comment_of returns)) ;;
       Ok ([("name", name);
            ("result", VBool (forallb py_truthy (map result_of returns)));
            ("comment", VStr comment);
            ("changes", VDict changes)], w')).
Proof.
  intros H returns. rewrite (managed_run _ _ _ _ _ _ _ _ _ _ H).
  fold returns. cbn [fst].
  rewrite noted_comments, noted_results. cbn [comments results app].
  assert (Hlen : List.length returns = List.length (file_calls dir out))
    by apply perform_all_length.
  rewrite !map_snd_combined by exact Hlen. eexists. reflexivity.
Qed.

(** The changes [managed] returns: under a path, what the last call on
    that path that reported any change reported; a call that reports
    none leaves no entry.  Every entry holds changes, so the filter at
    the end removes nothing. *)
Theorem managed_changes name dir servers_pillar providers_pillar
        defaults_pillar (w w' w'' : world rng) (s : fs) out after ret :
  consume_map rng_seed rng_choice (pillar_get providers_pillar)
              (pillar_get servers_pillar) (pillar_get defaults_pillar) w
  = Ok (out, after, w') ->
  fst (managed' name (VStr dir) servers_pillar providers_pillar
                defaults_pillar file_mode dir_mode user group test w s)
  = Ok (ret, w'') ->
  let calls := file_calls dir out in
  let returns := fst (perform_all' calls s) in
  exists changes,
    dict_get "changes" ret = Some (VDict changes) /\
    (forall path,
        dict_get path changes
        = last_declared (reported path) (combine calls returns)) /\
    forall path c, In (path, c) changes -> py_truthy c = true.
Proof.
  intros H Hret calls returns.
  rewrite (managed_run _ _ _ _ _ _ _ _ _ _ H) in Hret.
  fold calls returns in Hret. cbn [fst] in Hret.
  apply obind_Ok in Hret. destruct Hret as (comment & _ & [= <- _]).
  eexists. split; [reflexivity|]. split.
  - intros path. rewrite noted_changes. cbn [changes dict_get].
    now destruct (last_declared _ _).
  - intros path c Hin.
    pose proof (noted_truthy (combine calls returns) (mk_journal [] [] [])
                              (Forall_nil _)) as Hall.
    rewrite Forall_forall in Hall. apply (Hall _ Hin).
Qed.

End StateFacts.

(** *** The paths of the files *)

Lemma string_append_assoc (a b c : string) :
  String.append (String.append a b) c = String.append a (String.append b c).
Proof. induction a as [|x a IH]; simpl; [reflexivity|now rewrite IH]. Qed.

Lemma path_join_relative path b :
  starts_with_sep b = false ->
  exists rest, path_join path b = String.append path rest.
Proof.
  intros Hb. unfold path_join. rewrite Hb.
  destruct (String.eqb path "" || ends_with_sep path); eauto.
Qed.

Lemma starts_with_sep_append name suffix :
  starts_with_sep name = false -> starts_with_sep suffix = false ->
  starts_with_sep (String.append name suffix) = false.
Proof. destruct name; simpl; auto. Qed.

(** With provider and environment names that do not begin with a slash,
    every path handed to a file state begins with [conf_dir]. *)
Theorem files_under_conf_dir dir out :
  (forall name, In name (dict_keys (out_providers out)) ->
                starts_with_sep name = false) ->
  (forall name, In name (dict_keys (out_profiles out)) ->
                starts_with_sep name = false) ->
  (forall name, In name (dict_keys (out_maps out)) ->
                starts_with_sep name = false) ->
  forall c, In c (file_calls dir out) ->
            exists rest, call_path c = String.append dir rest.
Proof.
  intros Hproviders Hprofiles Hmaps c Hc.
  assert (Hunder : forall sub name,
             starts_with_sep sub = false -> starts_with_sep name = false ->
             exists rest,
               path_join (path_join dir sub) name = String.append dir rest).
  { intros sub name Hsub Hname.
    destruct (path_join_relative dir sub Hsub) as [r1 ->].
    destruct (path_join_relative (String.append dir r1) name Hname)
      as [r2 ->].
    exists (String.append r1 r2). apply string_append_assoc. }
  assert (Hkey : forall {V} (item : string * V) (d : amap V),
             In item d -> In (fst item) (dict_keys d)).
  { intros V item d Hin. unfold dict_keys. now apply in_map. }
  unfold file_calls in Hc.
  apply in_app_or in Hc. destruct Hc as [[<-|[<-|[<-|[]]]]|Hc];
    try (apply path_join_relative; reflexivity).
  apply in_app_or in Hc.
  destruct Hc as [Hc|Hc];
    [|apply in_app_or in Hc; destruct Hc as [Hc|Hc]];
    apply in_map_iff in Hc; destruct Hc as (item & <- & Hin); simpl.
  - apply Hunder; [reflexivity|].
    apply starts_with_sep_append; [|reflexivity].
    apply Hproviders. now apply Hkey.
  - apply Hunder; [reflexivity|].
    apply starts_with_sep_append; [|reflexivity].
    apply Hprofiles. now apply Hkey.
  - apply Hunder; [reflexivity|].
    apply Hmaps. now apply Hkey.
Qed.

(** A provider or an environment whose name begins with a slash has its
    file written at that name, whatever [conf_dir] is. *)
Theorem absolute_name_leaves_conf_dir dir out name :
  starts_with_sep name = true ->
  (forall provider,
      In (name, provider) (out_providers out) ->
      In (Managed (String.append name ".conf")
                  (VDict [(name, VDict provider)]))
         (file_calls dir out)) /\
  (forall profile_data,
      In (name, profile_data) (out_profiles out) ->
      In (Managed (String.append name ".conf")
                  (table_value VDict profile_data))
         (file_calls dir out)) /\
  (forall map_data,
      In (name, map_data) (out_maps out) ->
      In (Managed name (table_value VDict map_data)) (file_calls dir out)).
Proof.
  intros Hname.
  assert (Hconf : forall path,
             path_join path (String.append name ".conf")
             = String.append name ".conf").
  { intros path. unfold path_join.
    destruct name; [discriminate|]. simpl in *. now rewrite Hname. }
  assert (Hbare : forall path, path_join path name = name).
  { intros path. unfold path_join. now rewrite Hname. }
  unfold file_calls. repeat split; intros data Hin;
    apply in_or_app; right; rewrite !in_app_iff.
  - left. apply in_map_iff. exists (name, data). simpl.
    now rewrite Hconf.
  - right; left. apply in_map_iff. exists (name, data). simpl.
    now rewrite Hconf.
  - right; right. apply in_map_iff. exists (name, data). simpl.
    now rewrite Hbare.
Qed.

(* ================================================================== *)
(** * The further properties on concrete data *)

Lemma build_environment_first_bad_entry_witness :
  Forall nonempty_mapping [VDict [("A", VStr "sn-a")]] /\
  ~ nonempty_mapping (VStr "B") /\
  build_environment (VList ([VDict [("A", VStr "sn-a")]]
                            ++ VStr "B" :: [VDict [("C", VStr "sn-c")]]))
  = Raise AttributeError.
Proof.
  assert (h1 : Forall nonempty_mapping [VDict [("A", VStr "sn-a")]]).
  { repeat constructor. unfold nonempty_mapping. eauto. }
  assert (h2 : ~ nonempty_mapping (VStr "B")).
  { intros (k & v & d & E). discriminate. }
  split; [exact h1|]. split; [exact h2|].
  exact (build_environment_first_bad_entry _ (VStr "B")
           [VDict [("C", VStr "sn-c")]] h1 h2).
Defined.

Lemma zones_have_subnets_witness :
  environments (mk_tables [] [] [] []) = [] /\
  foldM (consume_provider ex_defaults)
        [("p1", ex_provider [("default", VStr "t2.micro")]
                            [("default", VStr "ami-1")]
                            [("common", VStr "sg-c"); ("web", VStr "sg-w")])]
        (mk_tables [] [] [] []) ex_world = Ok ex_tables /\
  dict_get "test" (environments (fst ex_tables))
  = Some (mk_env ["A"; "B"; "C"]
                 [("A", VStr "sn-a"); ("B", VStr "sn-b");
                  ("C", VStr "sn-c")]) /\
  In "B" ["A"; "B"; "C"] /\
  exists subnet,
    env_subnet (environments (fst ex_tables)) (VStr "test") "B" = Ok subnet.
Proof.
  assert (h2 : foldM (consume_provider ex_defaults)
                     [("p1", ex_provider [("default", VStr "t2.micro")]
                                         [("default", VStr "ami-1")]
                                         [("common", VStr "sg-c");
                                          ("web", VStr "sg-w")])]
                     (mk_tables [] [] [] []) ex_world = Ok ex_tables)
    by (vm_compute; reflexivity).
  assert (h3 : dict_get "test" (environments (fst ex_tables))
               = Some (mk_env ["A"; "B"; "C"]
                              [("A", VStr "sn-a"); ("B", VStr "sn-b");
                               ("C", VStr "sn-c")]))
    by reflexivity.
  assert (h4 : In "B" ["A"; "B"; "C"]) by (simpl; auto).
  split; [reflexivity|]. split; [exact h2|]. split; [exact h3|].
  split; [exact h4|].
  exact (zones_have_subnets ex_defaults _ (mk_tables [] [] [] []) ex_world
           (snd ex_tables) (fst ex_tables) "test" _ "B" eq_refl h2 h3 h4).
Defined.

Lemma _add_interfaces_indexed_witness :
  _add_interfaces [] (VList [VStr "test"]) ex_envs "A" (VList [VStr "sg-c"])
  = Ok ex_interfaces /\
  exists entries ifaces,
    py_iter (VList [VStr "test"]) = Ok entries /\
    ex_interfaces = [] ++ ifaces /\
    List.length ifaces = List.length entries /\
    forall i entry,
      nth_error entries i = Some entry ->
      exists iface,
        nth_error ifaces i = Some iface /\
        interface_for ex_envs "A" (VList [VStr "sg-c"]) i entry iface.
Proof.
  assert (h : _add_interfaces [] (VList [VStr "test"]) ex_envs "A"
                              (VList [VStr "sg-c"]) = Ok ex_interfaces)
    by reflexivity.
  split; [exact h|].
  exact (_add_interfaces_indexed _ _ _ _ _ _ h).
Defined.

Lemma _add_interfaces_unknown_reference_witness :
  py_iter (VList [VStr "prod"]) = Ok [VStr "prod"] /\
  In (VStr "prod") [VStr "prod"] /\
  interface_reference (VStr "prod") (VStr "prod") VNone /\
  dict_get "prod" ex_envs = None /\
  forall result,
    _add_interfaces [] (VList [VStr "prod"]) ex_envs "A"
                    (VList [VStr "sg-c"]) <> Ok result.
Proof.
  assert (h2 : In (VStr "prod") [VStr "prod"]) by (simpl; auto).
  assert (h3 : interface_reference (VStr "prod") (VStr "prod") VNone)
    by (simpl; auto).
  split; [reflexivity|]. split; [exact h2|]. split; [exact h3|].
  split; [reflexivity|].
  exact (_add_interfaces_unknown_reference [] (VList [VStr "prod"]) ex_envs
           "A" (VList [VStr "sg-c"]) [VStr "prod"] (VStr "prod") "prod"
           VNone eq_refl h2 h3 (or_introl eq_refl)).
Defined.

Lemma _get_cycle_list_rotates_witness :
  (forall g n, 0 < n -> fst (ex_choice g n) < n) /\
  ["A"; "B"; "C"] <> [] /\
  exists first w',
    _get_cycle_list ex_seed ex_choice "web%02d.test.p1.example.com"
                    ["A"; "B"; "C"] ex_world
    = Ok (first :: list_remove first ["A"; "B"; "C"], w') /\
    In first ["A"; "B"; "C"] /\
    Permutation (first :: list_remove first ["A"; "B"; "C"])
                ["A"; "B"; "C"] /\
    log w' = log ex_world.
Proof.
  assert (h : ["A"; "B"; "C"] <> []) by discriminate.
  split; [exact ex_choice_in_range|]. split; [exact h|].
  exact (_get_cycle_list_rotates ex_seed ex_choice ex_choice_in_range
           "web%02d.test.p1.example.com" ["A"; "B"; "C"] ex_world h).
Defined.

Lemma _get_map_data_no_servers_witness :
  (forall g n, 0 < n -> fst (ex_choice g n) < n) /\
  [("A", "web_test_p1A")] <> [] /\
  loop_bound (VInt 0) = Some 0 /\
  exists w',
    _get_map_data ex_seed ex_choice [("A", "web_test_p1A")] (VInt 0)
                  (VStr "salt") "web%02d.test.p1.example.com" ex_world
    = Ok ([], w') /\
    log w' = log ex_world.
Proof.
  assert (h : [("A", "web_test_p1A")] <> []) by discriminate.
  split; [exact ex_choice_in_range|]. split; [exact h|].
  split; [reflexivity|].
  exact (_get_map_data_no_servers ex_seed ex_choice ex_choice_in_range
           [("A", "web_test_p1A")] (VInt 0) (VStr "salt")
           "web%02d.test.p1.example.com" ex_world h eq_refl).
Defined.

Lemma _get_map_data_never_ends_witness :
  (forall g n, 0 < n -> fst (ex_choice g n) < n) /\
  [("A", "web_test_p1A")] <> [] /\
  percent_free "web" = true /\
  percent_free "test" = true /\
  percent_free "p1" = true /\
  loop_bound (VStr "3") = None /\
  _get_map_data ex_seed ex_choice [("A", "web_test_p1A")] (VStr "3")
                (VStr "salt") (fqdn_template "web" "test" "p1") ex_world
  = Diverge.
Proof.
  assert (h : [("A", "web_test_p1A")] <> []) by discriminate.
  split; [exact ex_choice_in_range|]. split; [exact h|].
  repeat (split; [reflexivity|]).
  exact (_get_map_data_never_ends ex_seed ex_choice ex_choice_in_range
           [("A", "web_test_p1A")] (VStr "3") (VStr "salt") "web" "test"
           "p1" ex_world h eq_refl eq_refl eq_refl eq_refl).
Defined.

Lemma hosts_placed_round_robin_witness :
  (forall g n, 0 < n -> fst (ex_choice g n) < n) /\
  NoDup (dict_keys [("A", "web_test_p1A"); ("B", "web_test_p1B")]) /\
  NoDup (dict_values [("A", "web_test_p1A"); ("B", "web_test_p1B")]) /\
  [("A", "web_test_p1A"); ("B", "web_test_p1B")] <> [] /\
  percent_free "web" = true /\
  percent_free "test" = true /\
  percent_free "p1" = true /\
  loop_bound (VInt 3) = Some 3 /\
  exists data w',
    _get_map_data ex_seed ex_choice
                  [("A", "web_test_p1A"); ("B", "web_test_p1B")] (VInt 3)
                  (VStr "salt") (fqdn_template "web" "test" "p1") ex_world
    = Ok (data, w') /\
    forall name hosts h v,
      dict_get name data = Some hosts -> In (h, v) hosts ->
      v = VStr "salt" /\
      exists i, 1 <= i <= 3 /\ h = hostname "web" "test" "p1" i.
Proof.
  assert (h1 : NoDup (dict_keys [("A", "web_test_p1A");
                                 ("B", "web_test_p1B")]))
    by distinct_strings.
  assert (h2 : NoDup (dict_values [("A", "web_test_p1A");
                                   ("B", "web_test_p1B")]))
    by distinct_strings.
  assert (h3 : [("A", "web_test_p1A"); ("B", "web_test_p1B")] <> [])
    by discriminate.
  split; [exact ex_choice_in_range|]. split; [exact h1|].
  split; [exact h2|]. split; [exact h3|].
  repeat (split; [reflexivity|]).
  destruct (hosts_placed_round_robin ex_seed ex_choice ex_choice_in_range
              [("A", "web_test_p1A"); ("B", "web_test_p1B")] (VInt 3)
              (VStr "salt") "web" "test" "p1" 3 ex_world
              h1 h2 h3 eq_refl eq_refl eq_refl eq_refl)
    as (cycle & w0 & data & w' & _ & Hdata & _ & Hall).
  exists data, w'. split; [exact Hdata|exact Hall].
Defined.

Lemma _produce_profile_needs_common_witness :
  common_security_group [("default", ex_role_defaults)] = None /\
  forall r w',
    _produce_profile (VStr "web") ex_role_defaults
                     [("default", ex_role_defaults)] "test" ex_world
    <> Ok (r, w').
Proof.
  split; [reflexivity|].
  exact (_produce_profile_needs_common ex_world (VStr "web") ex_role_defaults
           [("default", ex_role_defaults)] "test" eq_refl).
Defined.

Lemma _produce_profile_gate_witness :
  _produce_profile (VStr "web") ex_role_defaults ex_role_table "test"
                   ex_world
  = Ok (fst ex_web_resolved, snd ex_web_resolved) /\
  exists merged,
    layered_role (VStr "web") ex_role_defaults ex_role_table = Ok merged /\
    (fst ex_web_resolved = Invalid <->
     dict_mem "size" merged = false \/ dict_mem "image" merged = false) /\
    generator (snd ex_web_resolved) = generator ex_world.
Proof.
  assert (h : _produce_profile (VStr "web") ex_role_defaults ex_role_table
                               "test" ex_world
              = Ok (fst ex_web_resolved, snd ex_web_resolved))
    by (vm_compute; reflexivity).
  split; [exact h|].
  destruct (_produce_profile_gate _ _ _ _ _ _ _ h)
    as (stname & overrides & merged & _ & Hm & Hiff & Hgen & _).
  exists merged. split; [exact Hm|]. split; [exact Hiff|exact Hgen].
Defined.

Lemma profiles_tree_finished_witness :
  consume_map ex_seed ex_choice ex_providers ex_servers ex_defaults ex_world
  = Ok (fst (fst ex_result), snd (fst ex_result), snd ex_result) /\
  every_profile (fun profile => has_fields finished_fields profile /\
                                lacks_fields stripped_fields profile)
                (out_profiles (fst (fst ex_result))).
Proof.
  assert (h : consume_map ex_seed ex_choice ex_providers ex_servers
                          ex_defaults ex_world
              = Ok (fst (fst ex_result), snd (fst ex_result), snd ex_result))
    by (vm_compute; reflexivity).
  split; [exact h|].
  exact (profiles_tree_finished ex_seed ex_choice _ _ _ _ _ _ _ h).
Defined.

Lemma maps_tree_defaults_witness :
  consume_map ex_seed ex_choice ex_providers ex_servers ex_defaults ex_world
  = Ok (fst (fst ex_result), snd (fst ex_result), snd ex_result) /\
  every_host (fun _ v => py_getitem ex_defaults "mappings" = Ok v)
             (out_maps (fst (fst ex_result))).
Proof.
  assert (h : consume_map ex_seed ex_choice ex_providers ex_servers
                          ex_defaults ex_world
              = Ok (fst (fst ex_result), snd (fst ex_result), snd ex_result))
    by (vm_compute; reflexivity).
  split; [exact h|].
  exact (maps_tree_defaults ex_seed ex_choice _ _ _ _ _ _ _ h).
Defined.

Lemma trees_environments_witness :
  consume_map ex_seed ex_choice ex_providers ex_servers ex_defaults ex_world
  = Ok (fst (fst ex_result), snd (fst ex_result), snd ex_result) /\
  dict_keys (out_profiles (fst (fst ex_result)))
  = dict_keys (out_maps (fst (fst ex_result))) /\
  NoDup (dict_keys (out_profiles (fst (fst ex_result)))).
Proof.
  assert (h : consume_map ex_seed ex_choice ex_providers ex_servers
                          ex_defaults ex_world
              = Ok (fst (fst ex_result), snd (fst ex_result), snd ex_result))
    by (vm_compute; reflexivity).
  split; [exact h|].
  destruct (trees_environments ex_seed ex_choice _ _ _ _ _ _ _ h)
    as (Hsame & Hnd & _).
  split; [exact Hsame|exact Hnd].
Defined.

Lemma role_never_skipped_witness :
  expand_role ex_seed ex_choice ex_envs ex_role_defaults ex_role_table
              ex_defaults "p1" "test" (VInt 2) ([], []) (VStr "web") ex_world
  = Ok (fst (fst ex_role_run), snd (fst ex_role_run), snd ex_role_run) /\
  In "test" (dict_keys (fst (fst ex_role_run))) /\
  In "test" (dict_keys (snd (fst ex_role_run))) /\
  exists stname,
    log (snd ex_role_run)
    = log ex_world ++ [LogInfo "Updating profile %s..." [stname]].
Proof.
  assert (h : expand_role ex_seed ex_choice ex_envs ex_role_defaults
                          ex_role_table ex_defaults "p1" "test" (VInt 2)
                          ([], []) (VStr "web") ex_world
              = Ok (fst (fst ex_role_run), snd (fst ex_role_run),
                    snd ex_role_run))
    by (vm_compute; reflexivity).
  split; [exact h|].
  exact (role_never_skipped ex_seed ex_choice _ _ _ _ _ _ _ _ _ _ _ _ _ _ h).
Defined.

Lemma providers_tree_names_witness :
  consume_map ex_seed ex_choice ex_providers ex_servers ex_defaults ex_world
  = Ok (fst (fst ex_result), snd (fst ex_result), snd ex_result) /\
  exists declared,
    ex_providers = VDict declared /\
    NoDup (dict_keys (out_providers (fst (fst ex_result)))) /\
    forall name, In name (dict_keys (out_providers (fst (fst ex_result))))
                 <-> In name (dict_keys declared).
Proof.
  assert (h : consume_map ex_seed ex_choice ex_providers ex_servers
                          ex_defaults ex_world
              = Ok (fst (fst ex_result), snd (fst ex_result), snd ex_result))
    by (vm_compute; reflexivity).
  split; [exact h|].
  exact (providers_tree_names ex_seed ex_choice _ _ _ _ _ _ _ h).
Defined.

Lemma undeclared_providers_skipped_witness :
  (forall name,
      In name (dict_keys [("p9", VDict [("test", VList [VStr "web"])])]) ->
      ~ In name
          (dict_keys [("p1", ex_provider [("default", VStr "t2.micro")]
                                         [("default", VStr "ami-1")]
                                         [("common", VStr "sg-c");
                                          ("web", VStr "sg-w")])])) /\
  consume_map ex_seed ex_choice ex_providers ex_servers_elsewhere ex_defaults
              ex_world
  = Ok (fst (fst ex_skipped), snd (fst ex_skipped), snd ex_skipped) /\
  out_profiles (fst (fst ex_skipped)) = [] /\
  out_maps (fst (fst ex_skipped)) = [].
Proof.
  assert (h1 : forall name,
             In name (dict_keys [("p9", VDict [("test",
                                                VList [VStr "web"])])]) ->
             ~ In name
                 (dict_keys [("p1", ex_provider
                                     [("default", VStr "t2.micro")]
                                     [("default", VStr "ami-1")]
                                     [("common", VStr "sg-c");
                                      ("web", VStr "sg-w")])])).
  { simpl. intros name [<-|[]] [E|[]]. discriminate. }
  assert (h2 : consume_map ex_seed ex_choice ex_providers
                           ex_servers_elsewhere ex_defaults ex_world
               = Ok (fst (fst ex_skipped), snd (fst ex_skipped),
                     snd ex_skipped))
    by (vm_compute; reflexivity).
  split; [exact h1|]. split; [exact h2|].
  destruct (undeclared_providers_skipped ex_seed ex_choice _ _ _ _ _ _ _ _ _
              eq_refl eq_refl h1 h2) as (Hp & Hm & _).
  split; [exact Hp|exact Hm].
Defined.

Lemma zoneless_environment_aborts_witness :
  dict_get "bare" ex_envs_zoneless = Some (mk_env [] []) /\
  availability_zones (mk_env [] []) = [] /\
  _produce_profile (VStr "web") ex_role_defaults ex_role_table "bare"
                   ex_world
  = Ok (Produced ex_web_bare_profile (VStr "web"), snd ex_web_bare) /\
  py_str (VStr "web") = Ok "web" /\
  py_getitem ex_defaults "mappings"
  = Ok (VDict [("minion", VDict [("master", VStr "salt")])]) /\
  expand_role ex_seed ex_choice ex_envs_zoneless ex_role_defaults
              ex_role_table ex_defaults "p1" "bare" (VInt 2) ([], [])
              (VStr "web") ex_world
  = Raise IndexError.
Proof.
  assert (h3 : _produce_profile (VStr "web") ex_role_defaults ex_role_table
                                "bare" ex_world
               = Ok (Produced ex_web_bare_profile (VStr "web"),
                     snd ex_web_bare))
    by (vm_compute; reflexivity).
  split; [reflexivity|]. split; [reflexivity|]. split; [exact h3|].
  split; [reflexivity|]. split; [reflexivity|].
  exact (zoneless_environment_aborts ex_seed ex_choice ex_envs_zoneless
           ex_role_defaults ex_role_table ex_defaults "p1" "bare" (VInt 2)
           ([], []) (VStr "web") ex_world (snd ex_web_bare) (mk_env [] [])
           ex_web_bare_profile (VStr "web") "web" _
           eq_refl eq_refl h3 eq_refl eq_refl).
Defined.

Lemma managed_returns_witness :
  consume_map ex_seed ex_choice (ex_pillar_get (VStr "providers"))
              (ex_pillar_get (VStr "servers"))
              (ex_pillar_get (VStr "defaults")) ex_world
  = Ok (fst (fst ex_result), snd (fst ex_result), snd ex_result) /\
  exists changes,
    fst (managed ex_seed ex_choice ex_pillar_get ex_file_directory
                 ex_file_managed ex_dump
                 (VStr "cloudfu") (VStr "/etc/salt") (VStr "servers")
                 (VStr "providers") (VStr "defaults") (VStr "0600")
                 (VStr "0700") (VStr "root") (VStr "root") (VBool false)
                 ex_world [])
    = (comment <-?
         py_join newline
           (filter py_truthy
              (map comment_of
                 (fst (perform_all ex_file_directory ex_file_managed ex_dump
                         (VStr "0600") (VStr "0700") (VStr "root")
                         (VStr "root") (VBool false)
                         (file_calls "/etc/salt" (fst (fst ex_result)))
                         [])))) ;;
       Ok ([("name", VStr "cloudfu");
            ("result",
             VBool (forallb py_truthy
                      (map result_of
                         (fst (perform_all ex_file_directory ex_file_managed
                                 ex_dump (VStr "0600") (VStr "0700")
                                 (VStr "root") (VStr "root") (VBool false)
                                 (file_calls "/etc/salt"
                                             (fst (fst ex_result)))
                                 [])))));
            ("comment", VStr comment);
            ("changes", VDict changes)], snd ex_result)).
Proof.
  assert (h : consume_map ex_seed ex_choice (ex_pillar_get (VStr "providers"))
                          (ex_pillar_get (VStr "servers"))
                          (ex_pillar_get (VStr "defaults")) ex_world
              = Ok (fst (fst ex_result), snd (fst ex_result), snd ex_result))
    by (vm_compute; reflexivity).
  split; [exact h|].
  exact (managed_returns ex_seed ex_choice ex_pillar_get ex_file_directory
           ex_file_managed ex_dump (VStr "0600") (VStr "0700")
           (VStr "root") (VStr "root") (VBool false)
           (VStr "cloudfu") "/etc/salt" (VStr "servers")
           (VStr "providers") (VStr "defaults") ex_world (snd ex_result)
           [] (fst (fst ex_result)) (snd (fst ex_result)) h).
Defined.

Lemma managed_changes_witness :
  consume_map ex_seed ex_choice (ex_pillar_get (VStr "providers"))
              (ex_pillar_get (VStr "servers"))
              (ex_pillar_get (VStr "defaults")) ex_world
  = Ok (fst (fst ex_result), snd (fst ex_result), snd ex_result) /\
  fst (managed ex_seed ex_choice ex_pillar_get ex_file_directory
               ex_file_managed ex_dump
               (VStr "cloudfu") (VStr "/etc/salt") (VStr "servers")
               (VStr "providers") (VStr "defaults") (VStr "0600")
               (VStr "0700") (VStr "root") (VStr "root") (VBool false)
               ex_world [])
  = Ok (fst ex_managed_ret, snd ex_managed_ret) /\
  exists changes,
    dict_get "changes" (fst ex_managed_ret) = Some (VDict changes) /\
    forall path c, In (path, c) changes -> py_truthy c = true.
Proof.
  assert (h1 : consume_map ex_seed ex_choice
                           (ex_pillar_get (VStr "providers"))
                           (ex_pillar_get (VStr "servers"))
                           (ex_pillar_get (VStr "defaults")) ex_world
               = Ok (fst (fst ex_result), snd (fst ex_result),
                     snd ex_result))
    by (vm_compute; reflexivity).
  assert (h2 : fst (managed ex_seed ex_choice ex_pillar_get
                            ex_file_directory ex_file_managed ex_dump
                            (VStr "cloudfu") (VStr "/etc/salt")
                            (VStr "servers") (VStr "providers")
                            (VStr "defaults") (VStr "0600") (VStr "0700")
                            (VStr "root") (VStr "root") (VBool false)
                            ex_world [])
               = Ok (fst ex_managed_ret, snd ex_managed_ret))
    by (vm_compute; reflexivity).
  split; [exact h1|]. split; [exact h2|].
  destruct (managed_changes ex_seed ex_choice ex_pillar_get ex_file_directory
              ex_file_managed ex_dump (VStr "0600") (VStr "0700")
              (VStr "root") (VStr "root") (VBool false)
              (VStr "cloudfu") "/etc/salt" (VStr "servers")
              (VStr "providers") (VStr "defaults") ex_world (snd ex_result)
              (snd ex_managed_ret) [] (fst (fst ex_result))
              (snd (fst ex_result)) (fst ex_managed_ret) h1 h2)
    as (changes & Hget & _ & Htruthy).
  exists changes. split; [exact Hget|exact Htruthy].
Defined.

Lemma files_under_conf_dir_witness :
  (forall name, In name (dict_keys (out_providers (fst (fst ex_result)))) ->
                starts_with_sep name = false) /\
  (forall name, In name (dict_keys (out_profiles (fst (fst ex_result)))) ->
                starts_with_sep name = false) /\
  (forall name, In name (dict_keys (out_maps (fst (fst ex_result)))) ->
                starts_with_sep name = false) /\
  forall c, In c (file_calls "/etc/salt" (fst (fst ex_result))) ->
            exists rest, call_path c = String.append "/etc/salt" rest.
Proof.
  assert (h1 : forall name,
             In name (dict_keys (out_providers (fst (fst ex_result)))) ->
             starts_with_sep name = false).
  { simpl. intros name [<-|[]]. reflexivity. }
  assert (h2 : forall name,
             In name (dict_keys (out_profiles (fst (fst ex_result)))) ->
             starts_with_sep name = false).
  { simpl. intros name [<-|[]]. reflexivity. }
  assert (h3 : forall name,
             In name (dict_keys (out_maps (fst (fst ex_result)))) ->
             starts_with_sep name = false).
  { simpl. intros name [<-|[]]. reflexivity. }
  split; [exact h1|]. split; [exact h2|]. split; [exact h3|].
  exact (files_under_conf_dir "/etc/salt" (fst (fst ex_result)) h1 h2 h3).
Defined.

Lemma absolute_name_leaves_conf_dir_witness :
  starts_with_sep "/etc/cron.d/job" = true /\
  In (Managed "/etc/cron.d/job" (table_value VDict []))
     (file_calls "/etc/salt" (mk_trees [] [] [("/etc/cron.d/job", [])])).
Proof.
  split; [reflexivity|].
  apply (absolute_name_leaves_conf_dir "/etc/salt"
           (mk_trees [] [] [("/etc/cron.d/job", [])]) "/etc/cron.d/job"
           eq_refl).
  simpl. auto.
Defined.

(* ================================================================== *)
(** * The shared environment table *)

Lemma env_subnet_Ok envs env_name az_name subnet :
  env_subnet envs env_name az_name = Ok subnet ->
  exists named declared,
    env_name = VStr named /\
    dict_get named envs = Some declared /\
    dict_get az_name (subnets declared) = Some subnet.
Proof.
  unfold env_subnet, key_lookup.
  destruct env_name as [| | |named| |]; simpl; try discriminate.
  destruct (dict_get named envs) as [declared|] eqn:Ed; [|discriminate].
  destruct (dict_get az_name (subnets declared)) as [v|] eqn:E;
    [|discriminate].
  intros [= <-]. eauto.
Qed.

Lemma interface_for_bound envs az_name sec_groups index entry iface :
  interface_for envs az_name sec_groups index entry iface ->
  bound_by_table envs az_name entry iface.
Proof.
  intros (env_name & az_ifaces & subnet & fields & Href & Hsub & -> & _
          & Hid & _).
  destruct (env_subnet_Ok _ _ _ _ Hsub) as (named & declared & -> & Hd & Hs).
  exists named, az_ifaces, declared, subnet, fields. auto.
Qed.

(** One turn of the loop over the availability zones of [ename]: the
    profile emitted under the zone's name is bound through the table,
    whether the role has an [interfaces] list or not. *)
Lemma expand_az_table envs pname ename role profile profiles map_profiles
      az_name acc' entry :
  dict_get ename envs = Some entry ->
  expand_az envs pname ename role (profile, profiles, map_profiles) az_name
  = Ok acc' ->
  exists name of_env finished ifaces,
    dict_get ename (snd (fst acc')) = Some of_env /\
    dict_get name of_env = Some finished /\
    dict_get az_name (snd acc') = Some name /\
    dict_get "network_interfaces" finished = Some (VList ifaces) /\
    match dict_get "interfaces" profile with
    | None =>
        exists subnet sgs,
          dict_get az_name (subnets entry) = Some subnet /\
          ifaces = [VDict (_get_network_interface 0 subnet sgs)]
    | Some interfaces =>
        exists entries,
          py_iter interfaces = Ok entries /\
          List.length ifaces = List.length entries /\
          forall i e,
            nth_error entries i = Some e ->
            exists iface,
              nth_error ifaces i = Some iface /\
              bound_by_table envs az_name e iface
    end.
Proof.
  intros He H.
  destruct (dict_get "interfaces" profile) as [interfaces|] eqn:Hi.
  - unfold expand_az in H. unfold dict_mem in H at 1. rewrite Hi in H.
    apply obind_Ok in H. destruct H as (p1 & H1 & H).
    apply obind_Ok in H1. destruct H1 as (interfaces' & Hget & H1).
    apply obind_Ok in H1. destruct H1 as (sgs & _ & H1).
    apply obind_Ok in H1. destruct H1 as (ifaces & Hadd & [= <-]).
    assert (interfaces' = interfaces) as ->.
    { unfold py_getitem in Hget.
      rewrite dict_get_set_other in Hget by discriminate.
      rewrite Hi in Hget. now injection Hget. }
    apply obind_Ok in H. destruct H as (role_s & _ & H).
    rewrite dict_get_setdefault in H. injection H as <-. simpl.
    destruct (_add_interfaces_Ok _ _ _ _ _ _ Hadd)
      as (entries & ifaces' & Hiter & Hres & Hlen & Hnth).
    simpl in Hres. subst ifaces'.
    do 3 eexists. exists ifaces.
    split; [apply dict_get_set_same|]. split; [apply dict_get_set_same|].
    split; [apply dict_get_set_same|]. split.
    + rewrite !dict_get_del_if by discriminate.
      rewrite dict_get_del_other by discriminate.
      apply dict_get_set_same.
    + exists entries. split; [exact Hiter|]. split; [exact Hlen|].
      intros i e Hie. destruct (Hnth i e Hie) as (iface & Hi' & Hfor).
      exists iface. split; [exact Hi'|].
      eapply interface_for_bound; exact Hfor.
  - assert (Hmem : dict_mem "interfaces" profile = false).
    { unfold dict_mem. now rewrite Hi. }
    destruct (expand_az_default _ _ _ _ _ _ _ _ _ _ He Hmem H)
      as (subnet & sgs & name & of_env & finished & Hs & H1 & H2 & H3 & H4).
    exists name, of_env, finished,
           [VDict (_get_network_interface 0 subnet sgs)].
    repeat (split; [assumption|]). eauto.
Qed.

(** C10 (amended).  The environment table is keyed by the environment
    name only and is shared by all providers: after the loop over the
    providers every environment is as the provider processed last among
    those declaring it declares it, the earlier availability zones and
    subnets replaced.  Every entry of a server list expanded in the
    environment [env], for any provider, loops over the availability
    zones of that table entry.  Every profile built there without an
    [interfaces] list takes its subnet for the zone from that entry; of a
    profile built there with an [interfaces] list, each interface takes
    its subnet from the entry the same table holds for the environment
    the interface names, which need not be [env]. *)
Theorem environment_table_shared {rng} (rng_seed : string -> rng)
        (rng_choice : rng -> nat -> nat * rng) cloud_defaults items t0
        (w w' : world rng) t env :
  foldM (consume_provider cloud_defaults) items t0 w = Ok (t, w') ->
  (forall name,
      dict_get name (environments t) =
      match last_declared (env_declared_by name) items with
      | Some entry => Some entry
      | None => dict_get name (environments t0)
      end) /\
  (forall entry role_defaults pname no_of_servers profiles maps server_role
          w1 w2 profiles' maps',
      dict_get env (environments t) = Some entry ->
      expand_role rng_seed rng_choice (environments t) role_defaults
                  (server_roles t) cloud_defaults pname env no_of_servers
                  (profiles, maps) server_role w1
      = Ok (profiles', maps', w2) ->
      exists working stname last map_profiles,
        ofold (expand_az (environments t) pname env stname)
              (availability_zones entry) (working, profiles, [])
        = Ok (last, profiles', map_profiles)) /\
  (forall entry pname role profile profiles map_profiles az_name acc',
      dict_get env (environments t) = Some entry ->
      expand_az (environments t) pname env role
                (profile, profiles, map_profiles) az_name = Ok acc' ->
      exists name of_env finished ifaces,
        dict_get env (snd (fst acc')) = Some of_env /\
        dict_get name of_env = Some finished /\
        dict_get az_name (snd acc') = Some name /\
        dict_get "network_interfaces" finished = Some (VList ifaces) /\
        match dict_get "interfaces" profile with
        | None =>
            exists subnet sgs,
              dict_get az_name (subnets entry) = Some subnet /\
              ifaces = [VDict (_get_network_interface 0 subnet sgs)]
        | Some interfaces =>
            exists entries,
              py_iter interfaces = Ok entries /\
              List.length ifaces = List.length entries /\
              forall i e,
                nth_error entries i = Some e ->
                exists iface,
                  nth_error ifaces i = Some iface /\
                  bound_by_table (environments t) az_name e iface
        end).
Proof.
  intros H. split; [|split].
  - intros name. now apply (environments_last_declared _ _ _ _ _ _ _ H).
  - intros entry rd pname nos profiles maps sr w1 w2 profiles' maps' He Hx.
    destruct (expand_role_Ok _ _ _ _ _ _ _ _ _ _ _ _ _ _ _ _ _ He Hx)
      as (profile & stname & w3 & last & mp & _ & _ & _ & _ & Hloop & _).
    eauto.
  - intros entry pname role profile profiles mp az acc' He Hx.
    eapply expand_az_table; eassumption.
Qed.

(** C10 as stated fails.  [p2] is processed last and replaces the
    declaration of [test]; the role [gw] built in [test] has an interface
    in [mgmt], and its profile is bound to the subnet [p1] declares for
    [mgmt], not to subnet data of the replacing provider. *)
Lemma interface_in_other_environment :
  consume_map ex_seed ex_choice ex_shared_providers ex_servers_gw ex_defaults
              ex_world = Ok ex_shared_result /\
  last_declared (env_declared_by "test") ex_shared_items
  = Some (mk_env ["A"] [("A", VStr "sn-2a")]) /\
  env_declared_by "mgmt" ("p1", ex_shared_p1)
  = Some (mk_env ["A"] [("A", VStr "sn-m")]) /\
  env_declared_by "mgmt" ("p2", ex_shared_p2) = None /\
  (exists of_env profile,
      dict_get "test" (out_profiles (fst (fst ex_shared_result)))
      = Some of_env /\
      dict_get "gw_test_p2A" of_env = Some profile /\
      dict_get "network_interfaces" profile
      = Some (VList [VDict [("DeviceIndex", VInt 0);
                            ("SubnetId", VStr "sn-m");
                            ("SecurityGroupId", VList [VStr "sg-c"])]])) /\
  VStr "sn-m" <> VStr "sn-2a".
Proof.
  split; [vm_compute; reflexivity|].
  split; [vm_compute; reflexivity|].
  split; [vm_compute; reflexivity|].
  split; [vm_compute; reflexivity|].
  split; [|discriminate].
  do 2 eexists. split; [vm_compute; reflexivity|].
  split; vm_compute; reflexivity.
Qed.

(** C10 (amended) on two providers that both declare [test]: the table
    holds the declaration of [p2], and the profiles [p1] builds in [test]
    are bound through it. *)
Lemma environment_table_shared_witness :
  foldM (consume_provider ex_defaults) ex_shared_items
        (mk_tables [] [] [] []) ex_world = Ok ex_shared_tables /\
  dict_get "test" (environments (fst ex_shared_tables))
  = Some (mk_env ["A"] [("A", VStr "sn-2a")]) /\
  (exists finished sgs,
      dict_get "test" (snd (fst ex_shared_web))
      = Some [("web_test_p1A", finished)] /\
      dict_get "network_interfaces" finished
      = Some (VList [VDict (_get_network_interface 0 (VStr "sn-2a") sgs)])) /\
  (exists finished iface,
      dict_get "test" (snd (fst ex_shared_gw))
      = Some [("gw_test_p1A", finished)] /\
      dict_get "network_interfaces" finished = Some (VList [iface]) /\
      bound_by_table (environments (fst ex_shared_tables)) "A" (VStr "mgmt")
                     iface).
Proof.
  assert (h : foldM (consume_provider ex_defaults) ex_shared_items
                    (mk_tables [] [] [] []) ex_world = Ok ex_shared_tables)
    by (vm_compute; reflexivity).
  destruct (environment_table_shared ex_seed ex_choice ex_defaults
              ex_shared_items (mk_tables [] [] [] []) ex_world
              (snd ex_shared_tables) (fst ex_shared_tables) "test" h)
    as (Htable & _ & Hbuilt).
  split; [exact h|]. split; [|split].
  - rewrite (Htable "test"). reflexivity.
  - destruct (Hbuilt (mk_env ["A"] [("A", VStr "sn-2a")]) "p1" (VStr "web")
                     ex_working [] [] "A" ex_shared_web eq_refl eq_refl)
      as (name & of_env & finished & ifaces & H1 & H2 & H3 & H4 & H5).
    simpl in H5. destruct H5 as (subnet & sgs & [= <-] & ->).
    simpl in H1, H3. injection H3 as <-. injection H1 as <-.
    simpl in H2. injection H2 as <-.
    eexists. exists sgs. split; [reflexivity|exact H4].
  - destruct (Hbuilt (mk_env ["A"] [("A", VStr "sn-2a")]) "p1" (VStr "gw")
                     ex_working_gw [] [] "A" ex_shared_gw eq_refl eq_refl)
      as (name & of_env & finished & ifaces & H1 & H2 & H3 & H4 & H5).
    simpl in H5. destruct H5 as (entries & [= <-] & Hlen & Hnth).
    destruct (Hnth 0 (VStr "mgmt") eq_refl) as (iface & Hi & Hb).
    destruct ifaces as [|i0 [|i1 ifaces]]; try discriminate.
    injection Hi as ->.
    simpl in H1, H3. injection H3 as <-. injection H1 as <-.
    simpl in H2. injection H2 as <-.
    eexists. exists iface. split; [reflexivity|]. split; [exact H4|exact Hb].
Defined.

(* ================================================================== *)
(** * The hosts of a role, in the map tree *)





Section RoleHosts.
Context {rng : Type} (rng_seed : string -> rng)
        (rng_choice : rng -> nat -> nat * rng).

(** [random.choice] picks an index inside the sequence. *)
Hypothesis choice_in_range :
  forall g n, 0 < n -> fst (rng_choice g n) < n.







End RoleHosts.


